(** * leecfdi: CFDI XML invoices to a tabular report

    A shallow embedding of [leexmlpy.py] and [leexmlpyN.py].  The two scripts
    share their utility functions and the per-document extraction verbatim;
    they differ in the driver [procesar_xml_a_excel] (module [Leexmlpy] and
    module [LeexmlpyN] below).

    Python values are modelled as follows.
    - [str] is [string]; the operations used by the scripts ([replace],
      [strip], [lower], [endswith], [startswith], [split]) only look at ASCII
      characters, so they commute with the UTF-8 encoding of the text.
    - [float] is the kernel's binary64 [float] with its [add].
    - an exception is a value of [exn]; a computation that may raise has type
      [result A].  Every exception below derives from Python's [Exception],
      so [except Exception] catches each of them.
    - the interpreter's [float(str)], [datetime.fromisoformat] and the width
      of [%Y] in [strftime], and the library calls whose outcome the scripts
      do not control ([os.path.relpath], the opening, the writing and the
      closing of the workbook, the texts pandas gives to the cells of a
      column) are the fields of [Builtins]; the theorems hold for every
      choice of them, and [CPython] is a reference instance used to evaluate
      concrete inputs.

    The file system is a tree of files and directories with POSIX paths.
    A run that returns is described by the frame handed to [to_excel], what
    was printed and what was returned; a run that ends with an exception is
    described by that exception alone.  Printing itself is taken to succeed:
    the standard output encodes the text of the messages.  Left out: the tkinter front end
    [run_gui] of [leexmlpyN.py] and the [main] that opens it. *)

From Stdlib Require Import List String Ascii ZArith Lia Bool Arith.
From Stdlib Require Import Permutation Sorted.
From Stdlib Require Import Floats.
Import ListNotations.

#[local] Set Warnings "-register-all,-abstract-large-number".
Local Open Scope string_scope.
Local Open Scope list_scope.

(** ** Exceptions and fallible computations *)

Inductive exn : Type :=
| ValueError
| TypeError
| OverflowError
| ParseError
| OSError
| FileNotFoundError
| KeyError.

Inductive result (A : Type) : Type :=
| Ok (a : A)
| Raise (e : exn).

Arguments Ok {A} a.
Arguments Raise {A} e.

Definition bind {A B : Type} (m : result A) (k : A -> result B) : result B :=
  match m with
  | Ok a => k a
  | Raise e => Raise e
  end.

Notation "x <- m ;; k" := (bind m (fun x => k))
  (at level 61, m at next level, right associativity).

Notation "' pat <- m ;; k" :=
  (bind m (fun x => match x with pat => k end))
  (at level 61, pat pattern, m at next level, right associativity).

(** [try: body / except Exception: handler]. *)
Definition try_except {A : Type} (body : result A) (handler : exn -> result A)
  : result A :=
  match body with
  | Ok a => Ok a
  | Raise e => handler e
  end.

(** ** Python values stored in a record *)

Inductive pyval : Type :=
| VNone
| VStr (s : string)
| VInt (z : Z)
| VFloat (f : float).

(** [x or y] on strings: the empty string is falsy. *)
Definition str_or (x y : string) : string :=
  match x with
  | EmptyString => y
  | _ => x
  end.

(** [v == 0.0]: an [int] equals [0.0] exactly when it is [0]; floats compare
    by IEEE equality. *)
Definition eq_zero (v : pyval) : bool :=
  match v with
  | VNone | VStr _ => false
  | VInt z => Z.eqb z 0
  | VFloat f => PrimFloat.eqb f PrimFloat.zero
  end.

(** ** String methods *)

Definition startswith (s p : string) : bool := String.prefix p s.

Definition endswith (s suffix : string) : bool :=
  (String.length suffix <=? String.length s)%nat
  && String.eqb
       (String.substring (String.length s - String.length suffix)
                         (String.length suffix) s)
       suffix.

Definition is_upper (c : ascii) : bool :=
  (65 <=? nat_of_ascii c)%nat && (nat_of_ascii c <=? 90)%nat.

Definition lower_char (c : ascii) : ascii :=
  if is_upper c then ascii_of_nat (nat_of_ascii c + 32) else c.

(** [s.lower()] on the ASCII letters; no other character lowers to one of
    [.], [x], [m], [l]. *)
Fixpoint lower (s : string) : string :=
  match s with
  | EmptyString => EmptyString
  | String c r => String (lower_char c) (lower r)
  end.

(** [s.lstrip(chars)], [s.rstrip(chars)] and [s.strip(chars)]; [chars] is
    the set of characters to remove, [Ascii.eqb "-"] for [strip('-')]. *)
Fixpoint lstrip (chars : ascii -> bool) (s : string) : string :=
  match s with
  | EmptyString => EmptyString
  | String a r => if chars a then lstrip chars r else s
  end.

Fixpoint rstrip (chars : ascii -> bool) (s : string) : string :=
  match s with
  | EmptyString => EmptyString
  | String a r =>
      match rstrip chars r with
      | EmptyString => if chars a then EmptyString else String a EmptyString
      | r' => String a r'
      end
  end.

Definition strip (chars : ascii -> bool) (s : string) : string :=
  rstrip chars (lstrip chars s).

(** [s.replace(old, new)] for a one-character [old]. *)
Fixpoint replace (old : ascii) (new : string) (s : string) : string :=
  match s with
  | EmptyString => EmptyString
  | String a r =>
      if Ascii.eqb a old then new ++ replace old new r
      else String a (replace old new r)
  end.

(** [s.split(sep, 1)[0]]: the text before the first [sep], or all of [s]. *)
Fixpoint split_head (sep : ascii) (s : string) : string :=
  match s with
  | EmptyString => EmptyString
  | String a r => if Ascii.eqb a sep then EmptyString else String a (split_head sep r)
  end.

(** [s[:n]]. *)
Definition slice_to (n : nat) (s : string) : string := String.substring 0 n s.

(** The ASCII digits and their values. *)
Definition is_digit (c : ascii) : bool :=
  (48 <=? nat_of_ascii c)%nat && (nat_of_ascii c <=? 57)%nat.

Definition digit_value (c : ascii) : nat := nat_of_ascii c - 48.

Definition number (ds : list ascii) : nat :=
  fold_left (fun acc c => 10 * acc + digit_value c) ds 0.

(** ** Dates *)

Record datetime : Type := mk_datetime {
  year : nat;
  month : nat;
  day : nat;
  hour : nat;
  minute : nat;
  second : nat;
  microsecond : N;
  utcoffset : option Z  (* microseconds east of UTC, [None] when naive *)
}.

Definition digit_char (n : nat) : ascii := ascii_of_nat (48 + n mod 10).

Definition digits4 (n : nat) : list nat :=
  [n / 1000 mod 10; n / 100 mod 10; n / 10 mod 10; n mod 10].

(** Leading zeros are dropped as long as more than [w] digits remain. *)
Fixpoint drop_zeros (w : nat) (ds : list nat) : list nat :=
  match ds with
  | 0 :: r => if (w <? List.length ds)%nat then drop_zeros w r else ds
  | _ => ds
  end.

Fixpoint digits_string (ds : list nat) : string :=
  match ds with
  | [] => EmptyString
  | d :: r => String (digit_char d) (digits_string r)
  end.

(** [d.strftime('%Y-%m')].  [%m] is two digits; [%Y] is the year (1..9999)
    in decimal, zero-padded to [w] digits: [w = 4] as documented, [w = 1]
    where the C library does not pad. *)
Definition strftime_Ym (w : nat) (d : datetime) : string :=
  digits_string (drop_zeros w (digits4 (year d)))
  ++ "-"
  ++ digits_string [month d / 10 mod 10; month d mod 10].

(** ** The interpreter's built-ins and the library calls *)

Record Builtins : Type := mk_builtins {
  (** [float(s)] for a [str]; [Raise ValueError] when [s] is not a number. *)
  float_of_str : string -> result float;
  (** [datetime.fromisoformat(s)]. *)
  fromisoformat : string -> result datetime;
  (** minimal width of [%Y]. *)
  year_width : nat;
  (** [os.path.relpath(path, start)] for a [path] that is not empty. *)
  relpath : string -> string -> string;
  (** [pd.ExcelWriter(path, engine='openpyxl')]: the writer is opened;
      [ValueError] for an extension the engine does not handle, an
      [OSError] when the file cannot be opened for writing. *)
  ExcelWriter : string -> result unit;
  (** [df.to_excel(writer, sheet_name='Reporte CFDI', index=False)] into the
      writer opened at the path: the sheet, header first, is written. *)
  write_sheet : string -> list (list pyval) -> result unit;
  (** [writer.close()], called as the [with] block is left: the workbook is
      saved. *)
  writer_close : string -> result unit;
  (** [Series.astype(str)] on the cells of a column: the text pandas gives
      to each cell of that column, unless it raises. *)
  Series_astype_str : list pyval -> result (pyval -> string)
}.

(** ** Utilities ([leexmlpy.py] 25-58, [leexmlpyN.py] 21-53) *)

Section Utilities.
Variable py : Builtins.

Definition to_float (val : option string) (default : pyval) : result pyval :=
  try_except
    (match val with
     | None => Ok default
     | Some s =>
         if String.eqb s "" then Ok default
         else f <- float_of_str py s ;; Ok (VFloat f)
     end)
    (fun _ => Ok default).

Definition parse_fecha_iso (s : string) : result (option datetime) :=
  match s with
  | EmptyString => Ok None
  | _ =>
      try_except
        (d <- fromisoformat py (replace "Z" "+00:00" s) ;; Ok (Some d))
        (fun _ => Ok None)
  end.
End Utilities.

Definition xml_namespace_of_tag (tag : string) : string :=
  match tag with
  | EmptyString => ""
  | String _ rest =>
      if startswith tag "{" then split_head "}" rest else ""
  end.

(** ** XML elements ([xml.etree.ElementTree])

    A parsed element carries its expanded tag ([{uri}Local] when it is in a
    namespace), its attributes and its children in document order. *)

Inductive Element : Type :=
| Elem (tag : string) (attrib : list (string * string)) (children : list Element).

Definition tag (e : Element) : string := let 'Elem t _ _ := e in t.
Definition attrib (e : Element) : list (string * string) := let 'Elem _ a _ := e in a.
Definition children (e : Element) : list Element := let 'Elem _ _ c := e in c.

(** [elem.get(key)]: [None] when the attribute is absent. *)
Fixpoint assoc {V : Type} (key : string) (l : list (string * V)) : option V :=
  match l with
  | [] => None
  | (k, v) :: r => if String.eqb k key then Some v else assoc key r
  end.

Definition get (e : Element) (key : string) : option string := assoc key (attrib e).

(** [elem.get(key, default)]. *)
Definition get_default (e : Element) (key default : string) : string :=
  match get e key with
  | Some v => v
  | None => default
  end.

(** [elem.iter()]: the element and its descendants, in document order. *)
Fixpoint iter (e : Element) : list Element :=
  match e with
  | Elem _ _ cs => e :: flat_map iter cs
  end.

(** The namespace map [NS] handed to [find] and [findall]. *)
Record namespaces : Type := mk_ns {
  cfdi : string;
  tfd : string;
  pago20 : string
}.

Definition qname (uri local : string) : string := "{" ++ uri ++ "}" ++ local.

(** The tag test of the path [p:Local] where [uri] is [NS['p']]: the tag
    [{uri}Local], except that [{*}Local] stands for [Local] in any namespace
    or in none. *)
Definition tag_matches (uri local el_tag : string) : bool :=
  if String.eqb uri "*" then
    String.eqb el_tag local || endswith el_tag ("}" ++ local)
  else String.eqb el_tag (qname uri local).

(** [elem.findall('.//p:Local', NS)]: the proper descendants of [elem] that
    pass the tag test, in document order. *)
Definition findall (e : Element) (uri local : string) : list Element :=
  filter (fun x => tag_matches uri local (tag x)) (flat_map iter (children e)).

(** [elem.find('.//p:Local', NS)]: the first such descendant. *)
Definition find (e : Element) (uri local : string) : option Element :=
  hd_error (findall e uri local).

Definition get_attrib (elem : option Element) (key default : string) : string :=
  match elem with
  | Some e => str_or (get_default e key default) default
  | None => default
  end.

(** ** The record built for one document: a [dict] in insertion order *)

Definition dict : Type := list (string * pyval).

(** [d[k] = v]. *)
Fixpoint setitem (d : dict) (k : string) (v : pyval) : dict :=
  match d with
  | [] => [(k, v)]
  | (k', v') :: r =>
      if String.eqb k' k then (k, v) :: r else (k', v') :: setitem r k v
  end.

Definition keys (d : dict) : list string := map fst d.

Definition URI_TFD : string := "http://www.sat.gob.mx/TimbreFiscalDigital".
Definition URI_PAGO20 : string := "http://www.sat.gob.mx/Pagos20".

(** [int] to [float], as [float + int] converts its right operand: rounded
    to nearest, [OverflowError] beyond the finite range. *)
Definition float_of_int (z : Z) : result float :=
  let f := SF2Prim (binary_normalize prec emax z 0 false) in
  if is_infinity f then Raise OverflowError else Ok f.

(** [acc += v] for a [float] accumulator. *)
Definition iadd (acc : float) (v : pyval) : result float :=
  match v with
  | VFloat f => Ok (acc + f)%float
  | VInt z => f <- float_of_int z ;; Ok (acc + f)%float
  | VNone | VStr _ => Raise TypeError
  end.

(** [for x in xs: st = step st x], stopping at the first exception. *)
Fixpoint for_each {S X : Type} (step : S -> X -> result S) (xs : list X) (st : S)
  : result S :=
  match xs with
  | [] => Ok st
  | x :: r => st' <- step st x ;; for_each step r st'
  end.

Definition code_is (imp : option string) (code : string) : bool :=
  match imp with
  | Some c => String.eqb c code
  | None => false
  end.

(** ** Extraction of one document ([leexmlpy.py] 96-171, [leexmlpyN.py] 77-136) *)

Section Extraction.
Variable py : Builtins.

(** Body of the loop over [impuestos.findall('.//cfdi:Traslado', NS)];
    the state is [(iva_total, ieps_total)]. *)
Definition traslado_step (st : float * float) (traslado : Element)
  : result (float * float) :=
  let '(iva_total, ieps_total) := st in
  let imp := get traslado "Impuesto" in
  if code_is imp "002" then
    v <- to_float py (get traslado "Importe") (VInt 0) ;;
    iva_total' <- iadd iva_total v ;;
    Ok (iva_total', ieps_total)
  else if code_is imp "003" then
    v <- to_float py (get traslado "Importe") (VInt 0) ;;
    ieps_total' <- iadd ieps_total v ;;
    Ok (iva_total, ieps_total')
  else Ok st.

(** Body of the loop over [impuestos.findall('.//cfdi:Retencion', NS)];
    the state is [(risr_total, riva_total)]. *)
Definition retencion_step (st : float * float) (retencion : Element)
  : result (float * float) :=
  let '(risr_total, riva_total) := st in
  let imp := get retencion "Impuesto" in
  if code_is imp "001" then
    v <- to_float py (get retencion "Importe") (VInt 0) ;;
    risr_total' <- iadd risr_total v ;;
    Ok (risr_total', riva_total)
  else if code_is imp "002" then
    v <- to_float py (get retencion "Importe") (VInt 0) ;;
    riva_total' <- iadd riva_total v ;;
    Ok (risr_total, riva_total')
  else Ok st.

(** The four aggregates [(iva, ieps, risr, riva)]. *)
Definition impuestos_totales (NS : namespaces) (root : Element)
  : result (float * float * float * float) :=
  match find root (cfdi NS) "Impuestos" with
  | Some impuestos =>
      t <- for_each traslado_step (findall impuestos (cfdi NS) "Traslado")
                    (0, 0)%float ;;
      r <- for_each retencion_step (findall impuestos (cfdi NS) "Retencion")
                    (0, 0)%float ;;
      Ok (fst t, snd t, fst r, snd r)
  | None => Ok (0, 0, 0, 0)%float
  end.

Definition pago_monto (NS : namespaces) (root : Element) : result pyval :=
  match find root (pago20 NS) "Pagos" with
  | Some pagos =>
      match find pagos (pago20 NS) "Pago" with
      | Some pago => to_float py (get pago "Monto") (VFloat 0)
      | None => Ok (VFloat 0)
      end
  | None => Ok (VFloat 0)
  end.

Definition extraer (root : Element) : result dict :=
  let cfdi_uri := str_or (xml_namespace_of_tag (tag root)) "http://www.sat.gob.mx/cfd/4" in
  let NS := {| cfdi := cfdi_uri; tfd := URI_TFD; pago20 := URI_PAGO20 |} in
  let comp : dict := [] in
  let emisor := find root (cfdi NS) "Emisor" in
  let receptor := find root (cfdi NS) "Receptor" in
  let comp := setitem comp "RFC_EMISOR" (VStr (get_attrib emisor "Rfc" "")) in
  let comp := setitem comp "NOMBRE_EMISOR" (VStr (get_attrib emisor "Nombre" "")) in
  let comp := setitem comp "RFC_RECEPTOR" (VStr (get_attrib receptor "Rfc" "")) in
  let comp := setitem comp "NOMBRE_RECEPTOR" (VStr (get_attrib receptor "Nombre" "")) in
  let FECHA := str_or (get_default root "Fecha" "") "" in
  let comp := setitem comp "FECHA" (VStr FECHA) in
  let SERIE := str_or (get_default root "Serie" "") "" in
  let comp := setitem comp "SERIE" (VStr SERIE) in
  let FOLIO := str_or (get_default root "Folio" "") "" in
  let comp := setitem comp "FOLIO" (VStr FOLIO) in
  let comp := setitem comp "N.FACTURA" (VStr (strip (Ascii.eqb "-") (SERIE ++ "-" ++ FOLIO))) in
  subtotal <- to_float py (get root "SubTotal") (VInt 0) ;;
  let comp := setitem comp "SUBTOTAL" subtotal in
  total <- to_float py (get root "Total") (VInt 0) ;;
  let comp := setitem comp "T.FACTURA" total in
  let comp := setitem comp "Moneda" (VStr (str_or (get_default root "Moneda" "") "")) in
  let comp := setitem comp "TipoDeComprobante"
                (VStr (str_or (get_default root "TipoDeComprobante" "") "")) in
  let comp := setitem comp "MetodoPago" (VStr (str_or (get_default root "MetodoPago" "") "")) in
  let comp := setitem comp "FormaPago" (VStr (str_or (get_default root "FormaPago" "") "")) in
  let comp := setitem comp "UsoCFDI" (VStr (get_attrib receptor "UsoCFDI" "")) in
  let comp := setitem comp "TipoCambio" (VStr (str_or (get_default root "TipoCambio" "1") "1")) in
  '(iva_total, ieps_total, risr_total, riva_total) <- impuestos_totales NS root ;;
  let comp := setitem comp "IVA" (VFloat iva_total) in
  let comp := setitem comp "IEPS" (VFloat ieps_total) in
  let comp := setitem comp "RISR" (VFloat risr_total) in
  let comp := setitem comp "RIVA" (VFloat riva_total) in
  let timbre := find root (tfd NS) "TimbreFiscalDigital" in
  let comp := setitem comp "UUID" (VStr (get_attrib timbre "UUID" "")) in
  monto <- pago_monto NS root ;;
  let comp := setitem comp "P-Monto" monto in
  fecha_obj <- parse_fecha_iso py FECHA ;;
  let comp := setitem comp "M"
                (VStr (match fecha_obj with
                       | Some d => strftime_Ym (year_width py) d
                       | None => ""
                       end)) in
  Ok comp.
End Extraction.

(** ** The file system seen by [os.path.isdir], [os.walk] and [ET.parse] *)

Inductive node : Type :=
| File (name : string)
| Dir (name : string) (entries : list node).

(** What a path handed to [os.path.isdir] and [os.walk] denotes. *)
Inductive target : Type :=
| Missing
| NotADirectory
| Directory (entries : list node).

Record world : Type := mk_world {
  (** the directory tree found at a path, entries in [scandir] order *)
  scan : string -> target;
  (** [ET.parse(path).getroot()]: [ParseError] on malformed XML, [OSError]
      when the file cannot be read *)
  ET_parse : string -> result Element
}.

Definition isdir (fs : world) (path : string) : bool :=
  match scan fs path with
  | Directory _ => true
  | _ => false
  end.

(** [os.path.join(a, b)] (POSIX). *)
Definition path_join (a b : string) : string :=
  if startswith b "/" then b
  else if String.eqb a "" || endswith a "/" then a ++ b
  else a ++ "/" ++ b.

Definition dirnames (entries : list node) : list string :=
  flat_map (fun n => match n with Dir d _ => [d] | File _ => [] end) entries.

Definition filenames (entries : list node) : list string :=
  flat_map (fun n => match n with File f => [f] | Dir _ _ => [] end) entries.

(** [os.walk], top-down: the triple of a directory, then the walks of its
    sub-directories in listing order. *)
Fixpoint walk_node (top : string) (n : node)
  : list (string * list string * list string) :=
  match n with
  | File _ => []
  | Dir d entries =>
      let path := path_join top d in
      (path, dirnames entries, filenames entries)
        :: flat_map (walk_node path) entries
  end.

Definition walk (top : string) (entries : list node)
  : list (string * list string * list string) :=
  (top, dirnames entries, filenames entries) :: flat_map (walk_node top) entries.

(** [os.walk(carpeta)]; a path that cannot be listed yields nothing. *)
Definition os_walk (fs : world) (carpeta : string)
  : list (string * list string * list string) :=
  match scan fs carpeta with
  | Directory entries => walk carpeta entries
  | _ => []
  end.

(** [sorted] on strings: code-point order, which is the byte order of the
    UTF-8 text. *)
Fixpoint insert (x : string) (l : list string) : list string :=
  match l with
  | [] => [x]
  | y :: r => if String.leb x y then x :: l else y :: insert x r
  end.

Definition sorted (l : list string) : list string := fold_right insert [] l.

(** ** Discovery ([leexmlpy.py] 60-67, [leexmlpyN.py] 55-61) *)

Definition listar_xmls_recursivo (fs : world) (carpeta : string) : list string :=
  let paths :=
    fold_left
      (fun paths '(r, _, files) =>
         fold_left
           (fun paths f =>
              if endswith (lower f) ".xml" then paths ++ [path_join r f] else paths)
           files paths)
      (os_walk fs carpeta) [] in
  sorted paths.

(** ** The table ([pandas.DataFrame])

    A frame is its column labels and its rows.  A cell holds the value of
    the record, and [NaN] where the record has no such key; in a column of
    numbers with a [float] among them pandas stores every number as a
    [float] (the type [float64]), so the [int] 0 of a record is the cell
    [0.0] there. *)

Record DataFrame : Type := mk_df {
  columns : list string;
  rows : list (list pyval)
}.

Definition contains (l : list string) (x : string) : bool := existsb (String.eqb x) l.

(** Column labels of [pd.DataFrame(datos)]: the keys of the records in order
    of first appearance. *)
Definition union_keys (datos : list dict) : list string :=
  fold_left
    (fun cols d =>
       fold_left (fun cols k => if contains cols k then cols else cols ++ [k])
                 (keys d) cols)
    datos [].

Definition cell (d : list (string * pyval)) (c : string) : pyval :=
  match assoc c d with
  | Some v => v
  | None => VFloat nan
  end.

Definition is_float (v : pyval) : bool :=
  match v with VFloat _ => true | _ => false end.

(** A number that a [float64] column takes: a [float], or an [int] of 64
    bits. *)
Definition is_number (v : pyval) : bool :=
  match v with
  | VFloat _ => true
  | VInt z => (- 2 ^ 63 <=? z)%Z && (z <? 2 ^ 63)%Z
  | VNone | VStr _ => false
  end.

(** The cells of a column get the type [float64] when all are numbers and
    one at least is a [float]: an [int] among them is then written as a
    [float].  The records of the scripts hold texts, floats and the [int]
    [0]; a key that a record lacks reads as [nan]. *)
Definition float64 (cells : list pyval) : bool :=
  forallb is_number cells && existsb is_float cells.

Definition as_float64 (v : pyval) : pyval :=
  match v with
  | VInt z => VFloat (SF2Prim (binary_normalize prec emax z 0 false))
  | _ => v
  end.

(** The cell of the record [d] in the column [c] of [pd.DataFrame(datos)]. *)
Definition cell_in (datos : list dict) (d : dict) (c : string) : pyval :=
  if float64 (map (fun d' => cell d' c) datos) then as_float64 (cell d c)
  else cell d c.

(** [pd.DataFrame(datos)]. *)
Definition DataFrame_of (datos : list dict) : DataFrame :=
  let cols := union_keys datos in
  {| columns := cols; rows := map (fun d => map (cell_in datos d) cols) datos |}.

(** [df.empty]. *)
Definition empty (df : DataFrame) : bool :=
  match columns df, rows df with
  | [], _ => true
  | _, [] => true
  | _, _ => false
  end.

(** [df[cols]] for a list of labels: [KeyError] when one is missing. *)
Definition getitem (df : DataFrame) (cols : list string) : result DataFrame :=
  if forallb (contains (columns df)) cols then
    Ok {| columns := cols;
          rows := map (fun row => map (cell (combine (columns df) row)) cols) (rows df) |}
  else Raise KeyError.

(** [df.rename(columns=m)]. *)
Definition rename (df : DataFrame) (m : list (string * string)) : DataFrame :=
  {| columns := map (fun c => match assoc c m with Some c' => c' | None => c end)
                    (columns df);
     rows := rows df |}.

(** The sheet written by [df.to_excel(writer, index=False)]: the header, then
    one row per record. *)
Definition to_excel (df : DataFrame) : list (list pyval) :=
  map VStr (columns df) :: rows df.

Definition column_order : list string :=
  ["RFC_EMISOR"; "RFC_RECEPTOR"; "NOMBRE_EMISOR"; "FECHA"; "N.FACTURA";
   "SUBTOTAL"; "IVA"; "RISR"; "RIVA"; "T.FACTURA"; "M"; "UUID"; "IEPS";
   "P-Monto"; "MetodoPago"; "TipoDeComprobante"; "FormaPago"; "UsoCFDI";
   "TipoCambio"].

Definition rename_map : list (string * string) :=
  [("RFC_EMISOR", "RFC EMISOR");
   ("RFC_RECEPTOR", "RFC RECEPTOR");
   ("NOMBRE_EMISOR", "NOMBRE");
   ("MetodoPago", "MetodoP");
   ("TipoDeComprobante", "TipoCFDI");
   ("FormaPago", "FPago");
   ("TipoCambio", "Tcambio")].

(** The assembly shared by both scripts ([leexmlpy.py] 181-199,
    [leexmlpyN.py] 147-166). *)
Definition ensamblar (datos : list dict) : result DataFrame :=
  let df := DataFrame_of datos in
  let column_order := filter (contains (columns df)) column_order in
  df <- (if negb (empty df) then getitem df column_order else Ok df) ;;
  Ok (rename df rename_map).

(** What a run leaves behind. *)
Inductive line : Type :=
| Carpeta (carpeta : string)
| Encontrados (n : nat)
| Archivo (relative_path : string)
| SinArchivos
| Procesando (path : string)
| MalFormado (path : string)
| ErrorProcesando (path : string)
| ReporteGenerado (archivo : string)
| TotalProcesados (n : nat).

Record run : Type := mk_run {
  archivo : string;           (* where the workbook was written *)
  written : DataFrame;        (* the frame handed to [to_excel] *)
  stdout : list line;
  returned : option nat       (* [None] is Python's [None] *)
}.

(** ** Column letters ([leexmlpy.py] 41-47, [leexmlpyN.py] 37-43) *)

(** [chr(n)] for an ASCII code. *)
Definition chr (n : Z) : ascii := ascii_of_N (Z.to_N n).

(** The loop [while n > 0] of [colnum_to_excel_name] on its state
    [(n, name)], for at most [turns] turns: [None] when they are used up
    before the loop ends. *)
Fixpoint colnum_loop (turns : nat) (n : Z) (name : string) : option string :=
  if (0 <? n)%Z then
    match turns with
    | O => None
    | S turns' =>
        let rem := ((n - 1) mod 26)%Z in
        let n := ((n - 1) / 26)%Z in
        colnum_loop turns' n (String (chr (65 + rem)) name)
    end
  else Some name.

(** [colnum_to_excel_name(n)]; the loop is given [n + 1] turns, which is
    more than it ever takes, so that [None] does not occur. *)
Definition colnum_to_excel_name (n : Z) : string :=
  let n := (n + 1)%Z in
  match colnum_loop (Z.to_nat n) n "" with
  | Some name => name
  | None => ""
  end.

(** ** Column widths ([leexmlpy.py] 209-216, [leexmlpyN.py] 172-179) *)

(** [len(s)]: the code points of a text, the bytes of its UTF-8 form that
    are not continuation bytes. *)
Definition is_continuation (c : ascii) : bool :=
  (128 <=? nat_of_ascii c)%nat && (nat_of_ascii c <? 192)%nat.

Fixpoint len (s : string) : nat :=
  match s with
  | EmptyString => 0
  | String c r => (if is_continuation c then 0 else 1) + len r
  end.

(** [df[col]]: the cells of the column labelled [col]; the labels of the
    frames built by the scripts are distinct. *)
Definition column (df : DataFrame) (col : string) : list pyval :=
  map (fun row => cell (combine (columns df) row) col) (rows df).

(** [Series.max()]: [None] is the [NaN] of an empty series. *)
Definition series_max (l : list nat) : option nat :=
  match l with
  | [] => None
  | x :: r => Some (fold_left Nat.max r x)
  end.

(** [int(x)]: [ValueError] on [NaN]. *)
Definition int_of (x : option nat) : result nat :=
  match x with
  | Some n => Ok n
  | None => Raise ValueError
  end.

(** [ws.column_dimensions[k].width = w]. *)
Fixpoint set_width (dims : list (string * nat)) (k : string) (w : nat)
  : list (string * nat) :=
  match dims with
  | [] => [(k, w)]
  | (k', w') :: r =>
      if String.eqb k' k then (k, w) :: r else (k', w') :: set_width r k w
  end.

(** [enumerate(l)]. *)
Definition enumerate {A : Type} (l : list A) : list (nat * A) :=
  combine (seq 0 (List.length l)) l.

Section Widths.
(** [Series.astype(str)] on the cells of a column: the text pandas gives to
    each cell of that column, unless it raises. *)
Variable astype_str : list pyval -> result (pyval -> string).

Definition max_len_cells (df : DataFrame) (col : string) : result (option nat) :=
  try_except
    (if negb (empty df) then
       str <- astype_str (column df col) ;;
       Ok (series_max (map (fun v => len (str v)) (column df col)))
     else Ok (Some 0))
    (fun _ => Ok (Some 0)).

(** One turn of the loop over [enumerate(df.columns)]; the state is
    [ws.column_dimensions]. *)
Definition width_step (df : DataFrame) (dims : list (string * nat))
           (item : nat * string) : result (list (string * nat)) :=
  let '(idx, col) := item in
  max_len_cells <- max_len_cells df col ;;
  n <- int_of max_len_cells ;;
  let max_len := Nat.max (len col) n + 2 in
  let excel_col := colnum_to_excel_name (Z.of_nat idx) in
  Ok (set_width dims excel_col max_len).

Definition column_widths (df : DataFrame) : result (list (string * nat)) :=
  for_each (width_step df) (enumerate (columns df)) [].

(** The longest text of a column, [0] for an empty frame or when the texts
    cannot be had. *)
Definition longest (df : DataFrame) (col : string) : nat :=
  if empty df then 0
  else match astype_str (column df col) with
       | Ok str => list_max (map (fun v => len (str v)) (column df col))
       | Raise _ => 0
       end.

(** The width the loop gives to a column. *)
Definition width_of (df : DataFrame) (col : string) : nat :=
  Nat.max (len col) (longest df col) + 2.
End Widths.


(** ** The export ([leexmlpy.py] 205-216, [leexmlpyN.py] 168-179) *)

Section Workbook.
Variable py : Builtins.

(** [with pd.ExcelWriter(archivo_excel, engine='openpyxl') as writer: body].
    Once the writer is opened it is closed as the block is left, by the end
    of the body or by its exception; an exception of the closing is the one
    that propagates. *)
Definition with_ExcelWriter (archivo_excel : string) (body : result unit)
  : result unit :=
  writer <- ExcelWriter py archivo_excel ;;
  match body with
  | Ok _ => writer_close py archivo_excel
  | Raise e => closed <- writer_close py archivo_excel ;; Raise e
  end.

(** The block: the sheet of [df] is written, then every column gets its
    width. *)
Definition exportar (df : DataFrame) (archivo_excel : string) : result unit :=
  with_ExcelWriter archivo_excel
    (sheet <- write_sheet py archivo_excel (to_excel df) ;;
     dims <- column_widths (Series_astype_str py) df ;;
     Ok tt).
End Workbook.

(** ** [leexmlpyN.py]: the driver that returns the count *)

Module LeexmlpyN.
Section Driver.
Variable py : Builtins.
Variable fs : world.

(** One turn of the loop at lines 72-145. *)
Definition paso (datos : list dict) (file_path : string) : list dict :=
  match root <- ET_parse fs file_path ;; extraer py root with
  | Ok comp => datos ++ [comp]
  | Raise _ => datos
  end.

Definition procesar_xml_a_excel (carpeta_xml archivo_excel : string) : result run :=
  if negb (isdir fs carpeta_xml) then Raise FileNotFoundError
  else
    let archivos := listar_xmls_recursivo fs carpeta_xml in
    let datos := fold_left paso archivos [] in
    df <- ensamblar datos ;;
    exported <- exportar py df archivo_excel ;;
    Ok {| archivo := archivo_excel;
          written := df;
          stdout := [];
          returned := Some (List.length datos) |}.
End Driver.
End LeexmlpyN.

(** ** [leexmlpy.py]: the driver that prints its progress *)

Module Leexmlpy.
Section Driver.
Variable py : Builtins.
Variable fs : world.

(** [out] is what was printed before the call. *)
Definition _exportar_excel (df : DataFrame) (archivo_excel : string)
           (out : list line) : result run :=
  exported <- exportar py df archivo_excel ;;
  Ok {| archivo := archivo_excel;
        written := df;
        stdout := out ++ [ReporteGenerado archivo_excel];
        returned := None |}.

(** One turn of the loop at lines 90-178; the state is [(datos, stdout)]. *)
Definition paso (st : list dict * list line) (file_path : string)
  : list dict * list line :=
  let '(datos, out) := st in
  let out := out ++ [Procesando file_path] in
  match root <- ET_parse fs file_path ;; extraer py root with
  | Ok comp => (datos ++ [comp], out)
  | Raise ParseError => (datos, out ++ [MalFormado file_path])
  | Raise _ => (datos, out ++ [ErrorProcesando file_path])
  end.

Definition procesar_xml_a_excel (carpeta_xml archivo_excel : string) : result run :=
  if negb (isdir fs carpeta_xml) then Raise FileNotFoundError
  else
    let archivos := listar_xmls_recursivo fs carpeta_xml in
    let out := [Carpeta carpeta_xml; Encontrados (List.length archivos)]
                 ++ map (fun f => Archivo (relpath py f carpeta_xml)) archivos in
    match archivos with
    | [] =>
        let out := out ++ [SinArchivos] in
        _exportar_excel (DataFrame_of []) archivo_excel out
    | _ =>
        let '(datos, out) := fold_left paso archivos ([], out) in
        df <- ensamblar datos ;;
        r <- _exportar_excel df archivo_excel out ;;
        Ok {| archivo := archivo r;
              written := written r;
              stdout := stdout r ++ [TotalProcesados (List.length datos)];
              returned := None |}
    end.
End Driver.
End Leexmlpy.

(** ** A reference interpreter: CPython 3.11 on Linux

    It covers ASCII text: [float] also reads the decimal digits and white
    space of other scripts, which are not modelled.

    [float_of_str] follows [float(str)]: surrounding white space is dropped,
    single underscores between digits are removed, and the text must then be
    an optionally signed [inf], [infinity], [nan] or decimal literal, which
    is rounded to the nearest binary64 value.  [fromisoformat] follows the
    C code of [datetime.fromisoformat]: calendar dates ([YYYY-MM-DD],
    [YYYYMMDD]) and ISO week dates, any one character before the time, and
    the time of day with its offset.  The C library does not pad [%Y].

    The process runs in the working directory [/] of a file system whose
    directories are those of the sample [mundo] below, all of them writable
    and none a symbolic link.  [relpath] follows [posixpath.relpath].
    [ExcelWriter] follows pandas: the extension is checked against those of
    openpyxl ([ValueError]), the parent of the path must be a directory
    ([OSError]), and the path is opened for writing, which fails when it is
    empty ([FileNotFoundError]) or names a directory ([OSError]); closing
    the workbook then succeeds.  [write_sheet] follows the limit pandas
    puts on the size of a sheet.  [str_cell] is Python's [str], which is
    also the text pandas gives to a cell. *)

Module CPythonRef.

Definition NUL : ascii := Ascii.zero.

(** The white space [float] strips: the C locale's, 9 to 13 and 32. *)
Definition is_space (c : ascii) : bool :=
  let n := nat_of_ascii c in
  ((9 <=? n) && (n <=? 13) || (n =? 32))%nat.

(** *** [float(str)] *)

(** Underscores are dropped when each stands between two digits. *)
Fixpoint drop_underscores (prev : ascii) (s : list ascii) : option (list ascii) :=
  match s with
  | [] => if Ascii.eqb prev "_" then None else Some []
  | c :: r =>
      if Ascii.eqb c "_" then
        if is_digit prev then drop_underscores c r else None
      else if Ascii.eqb prev "_" && negb (is_digit c) then None
      else option_map (cons c) (drop_underscores c r)
  end.

Fixpoint span_digits (s : list ascii) : list ascii * list ascii :=
  match s with
  | c :: r =>
      if is_digit c then let '(d, t) := span_digits r in (c :: d, t) else ([], s)
  | [] => ([], [])
  end.

Fixpoint drop_leading_zeros (ds : list ascii) : list ascii :=
  match ds with
  | c :: r => if Ascii.eqb c "0" then drop_leading_zeros r else ds
  | [] => []
  end.

Definition Z_of_digits (ds : list ascii) : Z :=
  fold_left (fun acc c => (10 * acc + Z.of_nat (digit_value c))%Z) ds 0%Z.

Definition take_sign (s : list ascii) : bool * list ascii :=
  match s with
  | c :: r =>
      if Ascii.eqb c "-" then (true, r)
      else if Ascii.eqb c "+" then (false, r)
      else (false, s)
  | [] => (false, [])
  end.

(** The decimal [0.d1...dn * 10^(e+n)] for the digits [ds = d1...dn] with
    [d1] non-zero, rounded to nearest, ties to even. *)
Definition round_decimal (neg : bool) (ds : list ascii) (e : Z) : float :=
  let nd := Z.of_nat (List.length ds) in
  match Z_of_digits ds with
  | Zpos m =>
      if (310 <? e + nd)%Z then (if neg then neg_infinity else infinity)
      else if (e + nd <? -330)%Z then (if neg then neg_zero else zero)
      else
        let num := (m * Pos.pow 10 (Z.to_pos e))%positive in
        let num := if (0 <? e)%Z then num else m in
        let den := if (e <? 0)%Z then Pos.pow 10 (Z.to_pos (- e)) else 1%positive in
        SF2Prim (SFdiv prec emax (S754_finite neg num 0) (S754_finite false den 0))
  | _ => if neg then neg_zero else zero
  end.

Definition exponent_part (s : list ascii) : option Z :=
  match s with
  | [] => Some 0%Z
  | c :: r =>
      if Ascii.eqb c "e" || Ascii.eqb c "E" then
        let '(neg, r) := take_sign r in
        match span_digits r with
        | ((_ :: _) as ds, []) =>
            Some (if neg then (- Z_of_digits ds)%Z else Z_of_digits ds)
        | _ => None
        end
      else None
  end.

Definition decimal_literal (neg : bool) (s : list ascii) : result float :=
  let '(int_part, r) := span_digits s in
  let '(frac_part, r) :=
    match r with
    | c :: r' => if Ascii.eqb c "." then span_digits r' else ([], r)
    | [] => ([], r)
    end in
  match int_part ++ frac_part, exponent_part r with
  | _ :: _, Some e =>
      Ok (round_decimal neg (drop_leading_zeros (int_part ++ frac_part))
                        (e - Z.of_nat (List.length frac_part)))
  | _, _ => Raise ValueError
  end.

Definition float_of_str (s : string) : result float :=
  let s := strip is_space s in
  match drop_underscores NUL (list_ascii_of_string s) with
  | None => Raise ValueError
  | Some cs =>
      let '(neg, body) := take_sign cs in
      let word := lower (string_of_list_ascii body) in
      if String.eqb word "inf" || String.eqb word "infinity" then
        Ok (if neg then neg_infinity else infinity)
      else if String.eqb word "nan" then Ok nan
      else decimal_literal neg body
  end.

(** *** [datetime.fromisoformat] *)

(** [parse_digits]: exactly [n] digits. *)
Fixpoint parse_digits (p : list ascii) (n : nat) (acc : nat) {struct n}
  : option (nat * list ascii) :=
  match n with
  | O => Some (acc, p)
  | S n' =>
      match p with
      | c :: r =>
          if is_digit c then parse_digits r n' (10 * acc + digit_value c) else None
      | [] => None
      end
  end.

Definition peek (p : list ascii) : ascii := hd NUL p.

Fixpoint skip_digits (p : list ascii) : list ascii :=
  match p with
  | c :: r => if is_digit c then skip_digits r else p
  | [] => []
  end.

(** [_find_isoformat_datetime_separator]: where the date ends.  The forms
    are told apart by the characters at 4 and 5; after [YYYYWww] the digits
    that follow decide whether a day number is there. *)
Definition find_separator (s : list ascii) : option nat :=
  let len := List.length s in
  if (len =? 7)%nat then Some 7
  else if Ascii.eqb (nth 4 s NUL) "-" then
    if Ascii.eqb (nth 5 s NUL) "W" then
      if (len <? 8)%nat then None
      else if (8 <? len)%nat && Ascii.eqb (nth 8 s NUL) "-" then
        if (len =? 9)%nat then None
        else if (10 <? len)%nat && is_digit (nth 10 s NUL) then Some 8
        else Some 10
      else Some 8
    else Some 10
  else if Ascii.eqb (nth 4 s NUL) "W" then
    let idx := len - List.length (skip_digits (skipn 7 s)) in
    if (idx <? 9)%nat then Some idx
    else if Nat.even idx then Some 7
    else Some 8
  else Some 8.

Definition is_leap (y : nat) : bool :=
  ((y mod 4 =? 0) && (negb (y mod 100 =? 0) || (y mod 400 =? 0)))%nat.

Definition days_in_month (y m : nat) : nat :=
  match m with
  | 2 => if is_leap y then 29 else 28
  | 4 | 6 | 9 | 11 => 30
  | _ => 31
  end.

(** The proleptic Gregorian ordinal of a date, 1 for 0001-01-01. *)
Definition days_before_year (y : Z) : Z :=
  let y := (y - 1)%Z in (y * 365 + y / 4 - y / 100 + y / 400)%Z.

Definition days_before_month (y m : Z) : Z :=
  (nth (Z.to_nat m) [0; 0; 31; 59; 90; 120; 151; 181; 212; 243; 273; 304; 334] 0
   + if (2 <? m) && is_leap (Z.to_nat y) then 1 else 0)%Z.

Definition ymd_to_ord (y m d : Z) : Z :=
  (days_before_year y + days_before_month y m + d)%Z.

(** [weekday]: 0 for a Monday. *)
Definition weekday (y m d : Z) : Z := ((ymd_to_ord y m d + 6) mod 7)%Z.

(** The ordinal of the Monday that starts ISO week 1 of a year. *)
Definition iso_week1_monday (y : Z) : Z :=
  let first_day := ymd_to_ord y 1 1 in
  let first_weekday := ((first_day + 6) mod 7)%Z in
  let week1_monday := (first_day - first_weekday)%Z in
  if (3 <? first_weekday)%Z then (week1_monday + 7)%Z else week1_monday.

Definition ord_to_ymd (ordinal : Z) : Z * Z * Z :=
  let ordinal := (ordinal - 1)%Z in
  let n400 := (ordinal / 146097)%Z in
  let n := (ordinal mod 146097)%Z in
  let n100 := (n / 36524)%Z in
  let n := (n mod 36524)%Z in
  let n4 := (n / 1461)%Z in
  let n := (n mod 1461)%Z in
  let n1 := (n / 365)%Z in
  let n := (n mod 365)%Z in
  let y := (n400 * 400 + 1 + n100 * 100 + n4 * 4 + n1)%Z in
  if (n1 =? 4)%Z || (n100 =? 4)%Z then ((y - 1)%Z, 12%Z, 31%Z)
  else
    let month := ((n + 50) / 32)%Z in
    let preceding := days_before_month y month in
    if (n <? preceding)%Z then
      let month := (month - 1)%Z in
      let preceding :=
        (preceding - Z.of_nat (days_in_month (Z.to_nat y) (Z.to_nat month)))%Z in
      (y, month, (n - preceding + 1)%Z)
    else (y, month, (n - preceding + 1)%Z).

(** [iso_to_ymd]: the calendar date of day [iso_day] of ISO week [iso_week];
    a year has a week 53 when it starts on a Thursday, or on a Wednesday and
    is a leap year.  An ISO year outside 1..9999 is refused. *)
Definition iso_to_ymd (iso_year iso_week iso_day : nat) : option (nat * nat * nat) :=
  let y := Z.of_nat iso_year in
  let first_weekday := weekday y 1 1 in
  let has_53 := (first_weekday =? 3)%Z || (first_weekday =? 2)%Z && is_leap iso_year in
  if (iso_year <? 1)%nat || (9999 <? iso_year)%nat then None
  else if (iso_week <? 1)%nat || (53 <? iso_week)%nat
          || (iso_week =? 53)%nat && negb has_53 then None
  else if (iso_day <? 1)%nat || (7 <? iso_day)%nat then None
  else
    let day_offset := Z.of_nat ((iso_week - 1) * 7 + iso_day - 1) in
    let '(yy, mm, dd) := ord_to_ymd (iso_week1_monday y + day_offset) in
    Some (Z.to_nat yy, Z.to_nat mm, Z.to_nat dd).

(** [parse_isoformat_date] on a date of [len] characters. *)
Definition parse_isoformat_date (p : list ascii) (len : nat) : option (nat * nat * nat) :=
  match parse_digits p 4 0 with
  | None => None
  | Some (y, p) =>
      let uses_separator := Ascii.eqb (peek p) "-" in
      let p := if uses_separator then tl p else p in
      if Ascii.eqb (peek p) "W" then
        match parse_digits (tl p) 2 0 with
        | None => None
        | Some (iso_week, p) =>
            let consumed := if uses_separator then 8 else 7 in
            if (consumed <? len)%nat then
              if uses_separator && negb (Ascii.eqb (peek p) "-") then None
              else
                let p := if uses_separator then tl p else p in
                match parse_digits p 1 0 with
                | None => None
                | Some (iso_day, _) => iso_to_ymd y iso_week iso_day
                end
            else iso_to_ymd y iso_week 1
        end
      else
        match parse_digits p 2 0 with
        | None => None
        | Some (m, p) =>
            if uses_separator && negb (Ascii.eqb (peek p) "-") then None
            else
              let p := if uses_separator then tl p else p in
              match parse_digits p 2 0 with
              | None => None
              | Some (d, _) => Some (y, m, d)
              end
        end
  end.

(** The fraction after [HH:MM:SS]: at most six digits count. *)
Definition parse_fraction (p : list ascii) (remains : nat) : option (bool * N) :=
  let to_parse := Nat.min remains 6 in
  match parse_digits p to_parse 0 with
  | None => None
  | Some (us, p) =>
      Some (negb (Ascii.eqb (peek (skip_digits p)) NUL),
            (N.of_nat us * 10 ^ N.of_nat (6 - to_parse))%N)
  end.

(** [parse_hh_mm_ss_ff] on the [n] characters at [p] (the buffer goes on
    after them): the flag says that text is left, then hour, minute, second
    and microsecond.  [i] counts the components still to read. *)
Definition parse_tail (p : list ascii) (remains : nat) (vals : list nat)
  : option (bool * list nat * N) :=
  match parse_fraction p remains with
  | Some (more, us) => Some (more, vals, us)
  | None => None
  end.

Fixpoint parse_hms (i : nat) (first has_separator : bool) (p : list ascii)
         (pos n : nat) (vals : list nat) : option (bool * list nat * N) :=
  match i with
  | O => parse_tail p (n - pos) vals
  | S i' =>
      match parse_digits p 2 0 with
      | None => None
      | Some (v, p1) =>
          let c := peek p1 in
          let has_separator := if first then Ascii.eqb c ":" else has_separator in
          let vals := vals ++ [v] in
          if (n <=? pos + 3)%nat then Some (negb (Ascii.eqb c NUL), vals, 0%N)
          else if has_separator && Ascii.eqb c ":" then
            parse_hms i' false has_separator (tl p1) (pos + 3) n vals
          else if Ascii.eqb c "." || Ascii.eqb c "," then
            parse_tail (tl p1) (n - (pos + 3)) vals
          else if negb has_separator then
            parse_hms i' false has_separator p1 (pos + 2) n vals
          else None
      end
  end.

Definition parse_hh_mm_ss_ff (p : list ascii) (n : nat)
  : option (bool * (nat * nat * nat * N)) :=
  match parse_hms 3 true true p 0 n [] with
  | Some (more, vals, us) =>
      Some (more, (nth 0 vals 0, nth 1 vals 0, nth 2 vals 0, us))
  | None => None
  end.

Definition is_tz_mark (c : ascii) : bool :=
  Ascii.eqb c "Z" || Ascii.eqb c "+" || Ascii.eqb c "-".

Fixpoint tzinfo_pos (p : list ascii) : nat :=
  match p with
  | c :: r => if is_tz_mark c then 0 else S (tzinfo_pos r)
  | [] => 0
  end.

(** [parse_isoformat_time]: the time of day and the offset in microseconds. *)
Definition parse_isoformat_time (p : list ascii)
  : option (nat * nat * nat * N * option Z) :=
  match p with
  | [] => None
  | _ =>
      let k := tzinfo_pos p in
      match parse_hh_mm_ss_ff p k with
      | None => None
      | Some (more, (h, m, s, us)) =>
          if (k =? List.length p)%nat then
            if more then None else Some (h, m, s, us, None)
          else
            let c := nth k p NUL in
            let rest := skipn (S k) p in
            if Ascii.eqb c "Z" then
              match rest with
              | [] => Some (h, m, s, us, Some 0%Z)
              | _ => None
              end
            else
              match parse_hh_mm_ss_ff rest (List.length rest) with
              | Some (false, (tzh, tzm, tzs, tzus)) =>
                  (* a zero offset in seconds is UTC, whatever the fraction *)
                  let secs := Z.of_nat (tzh * 3600 + tzm * 60 + tzs) in
                  let off := (secs * 1000000 + Z.of_N tzus)%Z in
                  let off := if Ascii.eqb c "-" then (- off)%Z else off in
                  Some (h, m, s, us, Some (if (secs =? 0)%Z then 0%Z else off))
              | _ => None
              end
      end
  end.

(** The checks of the [datetime] constructor. *)
Definition valid_fields (d : datetime) : bool :=
  ((1 <=? year d) && (year d <=? 9999)
   && (1 <=? month d) && (month d <=? 12)
   && (1 <=? day d) && (day d <=? days_in_month (year d) (month d))
   && (hour d <? 24) && (minute d <? 60) && (second d <? 60))%nat
  && (microsecond d <? 1000000)%N
  && match utcoffset d with
     | Some off => (Z.abs off <? 86400000000)%Z
     | None => true
     end.

(** The width in bytes of the UTF-8 character that starts with [c]. *)
Definition utf8_width (c : ascii) : nat :=
  let n := nat_of_ascii c in
  if (n <? 128)%nat then 1
  else if (n / 16 =? 14)%nat then 3
  else if (n / 16 =? 15)%nat then 4
  else 2.

Definition fromisoformat (s : string) : result datetime :=
  let buf := list_ascii_of_string s in
  match find_separator buf with
  | None => Raise ValueError
  | Some sep =>
      match parse_isoformat_date buf sep with
      | None => Raise ValueError
      | Some (y, m, d) =>
          let time :=
            if (sep <? List.length buf)%nat then
              parse_isoformat_time (skipn (sep + utf8_width (nth sep buf NUL)) buf)
            else Some (0, 0, 0, 0%N, None) in
          match time with
          | None => Raise ValueError
          | Some (hh, mm, ss, us, tz) =>
              let dt := mk_datetime y m d hh mm ss us tz in
              if valid_fields dt then Ok dt else Raise ValueError
          end
      end
  end.

(** *** [str] and [repr] *)

Definition digit_of (z : Z) : ascii := ascii_of_nat (48 + Z.to_nat (z mod 10)).

Fixpoint Z_digits_from (fuel : nat) (z : Z) (acc : list ascii) : list ascii :=
  match fuel with
  | O => acc
  | S fuel' =>
      let acc := digit_of z :: acc in
      if (z <? 10)%Z then acc else Z_digits_from fuel' (z / 10)%Z acc
  end.

(** The decimal digits of [z >= 0]; it has no more of them than bits. *)
Definition Z_digits (z : Z) : list ascii :=
  Z_digits_from (S (Z.to_nat (Z.log2 z))) z [].

(** [str(z)] for an [int]. *)
Definition str_int (z : Z) : string :=
  if (z <? 0)%Z then String "-" (string_of_list_ascii (Z_digits (- z)))
  else string_of_list_ascii (Z_digits z).

(** The [k] with [10^k <= n/d < 10^(k+1)], for [n, d > 0]. *)
Fixpoint scale_up (fuel : nat) (j n d : Z) : Z :=
  match fuel with
  | O => j
  | S fuel' => if (d <=? n)%Z then j else scale_up fuel' (j + 1)%Z (10 * n)%Z d
  end.

Definition decimal_exponent (n d : Z) : Z :=
  if (d <=? n)%Z then (Z.of_nat (List.length (Z_digits (n / d))) - 1)%Z
  else (- scale_up 400 0 n d)%Z.

Fixpoint drop_trailing_zeros (ds : list ascii) : list ascii :=
  match ds with
  | [] => []
  | c :: r =>
      match drop_trailing_zeros r with
      | [] => if Ascii.eqb c "0" then [] else [c]
      | r' => c :: r'
      end
  end.

(** The shortest decimal that reads back as the float [x = n/d > 0], the
    nearest to [x] when there are two of that length: its digits and the
    place of its decimal point.  The precisions are tried from [p] on. *)
Fixpoint shortest_from (fuel : nat) (p : Z) (n d k : Z) (x : float)
  : list ascii * Z :=
  let s := (p - 1 - k)%Z in
  let num := if (0 <=? s)%Z then (n * 10 ^ s)%Z else n in
  let den := if (0 <=? s)%Z then d else (d * 10 ^ (- s))%Z in
  let q := (num / den)%Z in
  let r := (num mod den)%Z in
  let reads_back c := PrimFloat.eqb (round_decimal false (Z_digits c) (- s)) x in
  let found c := (drop_trailing_zeros (Z_digits c),
                  (Z.of_nat (List.length (Z_digits c)) - s)%Z) in
  match fuel with
  | O => found q
  | S fuel' =>
      if (r =? 0)%Z then found q
      else
        match reads_back q, reads_back (q + 1)%Z with
        | true, false => found q
        | false, true => found (q + 1)%Z
        | true, true =>
            if (2 * r <? den)%Z then found q
            else if (den <? 2 * r)%Z then found (q + 1)%Z
            else if Z.even q then found q else found (q + 1)%Z
        | false, false => shortest_from fuel' (p + 1)%Z n d k x
        end
  end.

Definition zeros (n : Z) : list ascii := repeat "0"%char (Z.to_nat n).

(** The digits [ds] with the decimal point before the digit of index
    [decpt], as [repr] lays them out: with an exponent when [decpt] is
    below -3 or above 16. *)
Definition layout (ds : list ascii) (decpt : Z) : list ascii :=
  let n := Z.of_nat (List.length ds) in
  if ((-4 <? decpt) && (decpt <=? 16))%Z then
    if (decpt <=? 0)%Z then "0"%char :: "."%char :: zeros (- decpt) ++ ds
    else if (n <=? decpt)%Z then ds ++ zeros (decpt - n) ++ ["."; "0"]%char
    else firstn (Z.to_nat decpt) ds ++ "."%char :: skipn (Z.to_nat decpt) ds
  else
    let e := (decpt - 1)%Z in
    let mantissa :=
      match ds with
      | [] => []
      | [c] => [c]
      | c :: r => c :: "."%char :: r
      end in
    let exponent := Z_digits (Z.abs e) in
    mantissa ++ "e"%char :: (if (e <? 0)%Z then "-"%char else "+"%char)
             :: (match exponent with [c] => ["0"%char; c] | _ => exponent end).

(** [repr(x)] and [str(x)] for a [float]. *)
Definition repr_float (x : float) : string :=
  match Prim2SF x with
  | S754_nan => "nan"
  | S754_infinity neg => if neg then "-inf" else "inf"
  | S754_zero neg => if neg then "-0.0" else "0.0"
  | S754_finite neg m e =>
      let n := if (0 <=? e)%Z then (Zpos m * 2 ^ e)%Z else Zpos m in
      let d := if (0 <=? e)%Z then 1%Z else (2 ^ (- e))%Z in
      let '(ds, decpt) :=
        shortest_from 17 1 n d (decimal_exponent n d) (PrimFloat.abs x) in
      string_of_list_ascii ((if neg then ["-"%char] else []) ++ layout ds decpt)
  end.

(** [str(v)]: also the text of a cell in [Series.astype(str)]. *)
Definition str_cell (v : pyval) : string :=
  match v with
  | VNone => "None"
  | VStr s => s
  | VInt z => str_int z
  | VFloat x => repr_float x
  end.

(** *** [os.path.relpath] *)

(** [s.split(sep)]. *)
Fixpoint split (sep : ascii) (s : string) : list string :=
  match s with
  | EmptyString => [EmptyString]
  | String c r =>
      if Ascii.eqb c sep then EmptyString :: split sep r
      else match split sep r with
           | h :: t => String c h :: t
           | [] => [String c EmptyString]
           end
  end.

(** The components of [normpath(path)] for an absolute [path]: [.] and
    empty components are dropped, [..] takes the component before it away
    and is dropped at the root. *)
Definition norm_components (path : string) : list string :=
  rev
    (fold_left
       (fun new_comps comp =>
          if String.eqb comp "" || String.eqb comp "." then new_comps
          else if String.eqb comp ".." then tl new_comps
          else comp :: new_comps)
       (split "/" path) []).

(** The components of [abspath(path)] in the working directory [cwd]. *)
Definition abs_components (cwd path : string) : list string :=
  norm_components (if startswith path "/" then path else path_join cwd path).

Fixpoint common_prefix_length (a b : list string) : nat :=
  match a, b with
  | x :: a', y :: b' => if String.eqb x y then S (common_prefix_length a' b') else 0
  | _, _ => 0
  end.

Fixpoint join_components (l : list string) : string :=
  match l with
  | [] => EmptyString
  | [x] => x
  | x :: r => x ++ "/" ++ join_components r
  end.

Definition relpath_in (cwd path start : string) : string :=
  let start_list := abs_components cwd start in
  let path_list := abs_components cwd path in
  let i := common_prefix_length start_list path_list in
  let rel_list := repeat ".." (List.length start_list - i) ++ skipn i path_list in
  match rel_list with
  | [] => "."
  | _ => join_components rel_list
  end.

(** *** The workbook *)

(** [os.path.splitext(path)[1]]: from the last dot of the last component,
    when something other than dots comes before it. *)
Definition splitext_ext (path : string) : string :=
  match rev (split "." (last (split "/" path) EmptyString)) with
  | ext :: before =>
      if existsb (fun part => negb (String.eqb part "")) before
      then String "." ext
      else EmptyString
  | [] => EmptyString
  end.

Fixpoint tails (s : string) : list string :=
  match s with
  | EmptyString => [EmptyString]
  | String _ r => s :: tails r
  end.

(** [x in y] for two [str]. *)
Definition is_infix (x y : string) : bool := existsb (String.prefix x) (tails y).

(** [OpenpyxlWriter.check_extension]. *)
Definition check_extension (ext : string) : bool :=
  let ext := match ext with
             | String "." r => r
             | _ => ext
             end in
  is_infix ext ".xlsx" || is_infix ext ".xlsm".

(** The directories and the files of the file system. *)
Definition directories : list string :=
  ["/"; "/xml"; "/xml/sub"; "/vacia"; "/vacia/sub"].

Definition files : list string :=
  ["/xml/b.xml"; "/xml/notas.txt"; "/xml/sub/roto.XML"; "/xml/sub/a.Xml";
   "/vacia/notas.txt"].

Definition absolute (here : list string) : string :=
  "/" ++ join_components (rev here).

(** Where the components [comps] lead from the directory [here] (its
    components, last first): every name on the way must be a directory,
    else [NotADirectoryError] (an [OSError]) at a file and
    [FileNotFoundError] at a name that does not exist. *)
Fixpoint resolve (comps here : list string) : result (list string) :=
  match comps with
  | [] => Ok here
  | comp :: comps =>
      if String.eqb comp "" || String.eqb comp "." then resolve comps here
      else if String.eqb comp ".." then resolve comps (tl here)
      else if existsb (String.eqb (absolute (comp :: here))) directories
           then resolve comps (comp :: here)
           else if existsb (String.eqb (absolute (comp :: here))) files
                then Raise OSError
                else Raise FileNotFoundError
  end.

(** The components of [path] from the root, for a process in [cwd]. *)
Definition from_root (cwd path : string) : list string :=
  split "/" (if startswith path "/" then path else path_join cwd path).

(** [os.path.isdir(path)]. *)
Definition is_directory (cwd path : string) : bool :=
  match resolve (from_root cwd path) [] with
  | Ok _ => true
  | Raise _ => false
  end.

(** [str(Path(path).parent)]: the path without its last component, empty
    components and [.] apart. *)
Definition parent (path : string) : string :=
  let parts :=
    filter (fun part => negb (String.eqb part "" || String.eqb part "."))
           (split "/" path) in
  (if startswith path "/" then "/" else ".") ++ "/"
  ++ join_components (removelast parts).

Fixpoint drop_slashes (l : list ascii) : list ascii :=
  match l with
  | c :: r => if Ascii.eqb c "/" then drop_slashes r else l
  | [] => []
  end.

(** [s.rstrip('/')]. *)
Definition rstrip_slashes (s : string) : string :=
  string_of_list_ascii (rev (drop_slashes (rev (list_ascii_of_string s)))).

(** [open(path, 'wb')]: the directories before the last name must exist,
    and the last name must not be followed by a slash nor name a
    directory; a file is created or truncated. *)
Definition open_wb (cwd path : string) : result unit :=
  if String.eqb path "" then Raise FileNotFoundError
  else
    let comps := from_root cwd (rstrip_slashes path) in
    here <- resolve (removelast comps) [] ;;
    let name := last comps EmptyString in
    if endswith path "/" || String.eqb name "" || String.eqb name "."
       || String.eqb name ".."
       || existsb (String.eqb (absolute (name :: here))) directories
    then Raise OSError
    else Ok tt.

(** [pd.ExcelWriter(path, engine='openpyxl')]: the extension is checked,
    then the parent directory, then the file is opened for writing. *)
Definition ExcelWriter_in (cwd path : string) : result unit :=
  if negb (check_extension (splitext_ext path)) then Raise ValueError
  else if negb (is_directory cwd (parent path)) then Raise OSError
  else open_wb cwd path.

(** A sheet holds at most [2^20] rows of data and [2^14] columns. *)
Definition write_sheet (path : string) (sheet : list (list pyval)) : result unit :=
  match sheet with
  | header :: data =>
      if ((2 ^ 20 <? N.of_nat (List.length data))
          || (2 ^ 14 <? N.of_nat (List.length header)))%N
      then Raise ValueError
      else Ok tt
  | [] => Ok tt
  end.

End CPythonRef.

Definition CPython : Builtins :=
  {| float_of_str := CPythonRef.float_of_str;
     fromisoformat := CPythonRef.fromisoformat;
     year_width := 1;
     relpath := CPythonRef.relpath_in "/";
     ExcelWriter := CPythonRef.ExcelWriter_in "/";
     write_sheet := CPythonRef.write_sheet;
     writer_close := fun _ => Ok tt;
     Series_astype_str := fun _ => Ok CPythonRef.str_cell |}.

(** ** Notions used to state the properties *)

(** The number [to_float(val, 0)] adds to a [float] accumulator: the parsed
    value, or zero when [val] is absent, empty or not a number. *)
Definition amount (py : Builtins) (val : option string) : float :=
  match val with
  | None => 0%float
  | Some s =>
      if String.eqb s "" then 0%float
      else match float_of_str py s with
           | Ok f => f
           | Raise _ => 0%float
           end
  end.

(** A running sum from [0.0], left to right. *)
Definition running_sum (xs : list float) : float := fold_left PrimFloat.add xs 0%float.

(** The entries whose [Impuesto] attribute is [code]. *)
Definition with_code (code : string) (entries : list Element) : list Element :=
  filter (fun e => code_is (get e "Impuesto") code) entries.

Definition importes (py : Builtins) (entries : list Element) : list float :=
  map (fun e => amount py (get e "Importe")) entries.

(** The running sum of the amounts of the entries with [code]. *)
Definition suma (py : Builtins) (code : string) (entries : list Element) : float :=
  running_sum (importes py (with_code code entries)).

(** The namespace of the document: that of the root tag, or CFDI 4.0. *)
Definition cfdi_uri (root : Element) : string :=
  str_or (xml_namespace_of_tag (tag root)) "http://www.sat.gob.mx/cfd/4".

(** The root attribute [key], [default] when absent or empty. *)
Definition root_attr (root : Element) (key default : string) : string :=
  str_or (get_default root key default) default.

(** The field vocabulary of a record, in insertion order. *)
Definition schema : list string :=
  ["RFC_EMISOR"; "NOMBRE_EMISOR"; "RFC_RECEPTOR"; "NOMBRE_RECEPTOR"; "FECHA";
   "SERIE"; "FOLIO"; "N.FACTURA"; "SUBTOTAL"; "T.FACTURA"; "Moneda";
   "TipoDeComprobante"; "MetodoPago"; "FormaPago"; "UsoCFDI"; "TipoCambio";
   "IVA"; "IEPS"; "RISR"; "RIVA"; "UUID"; "P-Monto"; "M"].

(** The derived year-month of a raw date. *)
Definition year_month (py : Builtins) (fecha : string) : string :=
  match parse_fecha_iso py fecha with
  | Ok (Some d) => strftime_Ym (year_width py) d
  | _ => ""
  end.

(** ** Sample documents *)

Definition CFD4 : string := "http://www.sat.gob.mx/cfd/4".

Definition traslado (impuesto importe : string) : Element :=
  Elem (qname CFD4 "Traslado") [("Impuesto", impuesto); ("Importe", importe)] [].

Definition factura : Element :=
  Elem (qname CFD4 "Comprobante")
    [("Fecha", "2024-03-15T10:00:00Z"); ("Serie", "A"); ("Folio", "100");
     ("SubTotal", "1000.00"); ("Total", "1160.00"); ("Moneda", "MXN");
     ("TipoDeComprobante", "I"); ("MetodoPago", "PUE"); ("FormaPago", "03")]
    [Elem (qname CFD4 "Emisor") [("Rfc", "AAA010101AAA"); ("Nombre", "Emisora")] [];
     Elem (qname CFD4 "Receptor")
          [("Rfc", "BBB020202BBB"); ("Nombre", "Receptora"); ("UsoCFDI", "G03")] [];
     Elem (qname CFD4 "Impuestos") [("TotalImpuestosTrasladados", "180.00")]
          [Elem (qname CFD4 "Traslados") []
                [traslado "002" "160.00"; traslado "003" "20.00"; traslado "099" "5.00"]];
     Elem (qname CFD4 "Complemento") []
          [Elem (qname URI_TFD "TimbreFiscalDigital") [("UUID", "X")] []]].

(** A document with nothing but its root element. *)
Definition vacio : Element := Elem "Comprobante" [] [].

(** [to_float] as a total function (it never raises, see
    [to_float_never_raises]). *)
Definition to_float_value (py : Builtins) (val : option string) (default : pyval)
  : pyval :=
  match to_float py val default with
  | Ok v => v
  | Raise _ => default
  end.

(** The taxes container of a document and one of its four aggregates:
    [kind] is [Traslado] or [Retencion]. *)
Definition contenedor_impuestos (root : Element) : option Element :=
  find root (cfdi_uri root) "Impuestos".

Definition agregado (py : Builtins) (root : Element) (kind code : string) : float :=
  match contenedor_impuestos root with
  | Some impuestos => suma py code (findall impuestos (cfdi_uri root) kind)
  | None => 0%float
  end.

(** The amount of the first payment of the payments complement. *)
Definition primer_pago (py : Builtins) (root : Element) : pyval :=
  match find root URI_PAGO20 "Pagos" with
  | Some pagos =>
      match find pagos URI_PAGO20 "Pago" with
      | Some pago => to_float_value py (get pago "Monto") (VFloat 0)
      | None => VFloat 0
      end
  | None => VFloat 0
  end.

(** The record of a document, field by field. *)
Definition registro (py : Builtins) (root : Element) : dict :=
  let emisor := find root (cfdi_uri root) "Emisor" in
  let receptor := find root (cfdi_uri root) "Receptor" in
  [("RFC_EMISOR", VStr (get_attrib emisor "Rfc" ""));
   ("NOMBRE_EMISOR", VStr (get_attrib emisor "Nombre" ""));
   ("RFC_RECEPTOR", VStr (get_attrib receptor "Rfc" ""));
   ("NOMBRE_RECEPTOR", VStr (get_attrib receptor "Nombre" ""));
   ("FECHA", VStr (root_attr root "Fecha" ""));
   ("SERIE", VStr (root_attr root "Serie" ""));
   ("FOLIO", VStr (root_attr root "Folio" ""));
   ("N.FACTURA",
    VStr (strip (Ascii.eqb "-")
                (root_attr root "Serie" "" ++ "-" ++ root_attr root "Folio" "")));
   ("SUBTOTAL", to_float_value py (get root "SubTotal") (VInt 0));
   ("T.FACTURA", to_float_value py (get root "Total") (VInt 0));
   ("Moneda", VStr (root_attr root "Moneda" ""));
   ("TipoDeComprobante", VStr (root_attr root "TipoDeComprobante" ""));
   ("MetodoPago", VStr (root_attr root "MetodoPago" ""));
   ("FormaPago", VStr (root_attr root "FormaPago" ""));
   ("UsoCFDI", VStr (get_attrib receptor "UsoCFDI" ""));
   ("TipoCambio", VStr (root_attr root "TipoCambio" "1"));
   ("IVA", VFloat (agregado py root "Traslado" "002"));
   ("IEPS", VFloat (agregado py root "Traslado" "003"));
   ("RISR", VFloat (agregado py root "Retencion" "001"));
   ("RIVA", VFloat (agregado py root "Retencion" "002"));
   ("UUID", VStr (get_attrib (find root URI_TFD "TimbreFiscalDigital") "UUID" ""));
   ("P-Monto", primer_pago py root);
   ("M", VStr (year_month py (root_attr root "Fecha" "")))].

(** A text that neither begins nor ends with [-]. *)
Definition begins_with_dash (s : string) : bool :=
  match s with
  | String c _ => Ascii.eqb "-" c
  | EmptyString => false
  end.

Fixpoint ends_with_dash (s : string) : bool :=
  match s with
  | EmptyString => false
  | String c EmptyString => Ascii.eqb "-" c
  | String _ r => ends_with_dash r
  end.

Definition no_edge_dash (s : string) : Prop :=
  begins_with_dash s = false /\ ends_with_dash s = false.

(** The series and the folio joined by [-], an empty part left out. *)
Definition join_parts (serie folio : string) : string :=
  match serie, folio with
  | EmptyString, _ => folio
  | _, EmptyString => serie
  | _, _ => serie ++ "-" ++ folio
  end.

(** The source of a field is missing: no such element, or no such attribute
    on it. *)
Definition falta (elem : option Element) (key : string) : Prop :=
  match elem with
  | Some e => get e key = None
  | None => True
  end.

(** The record of a document that carries no data at all. *)
Definition registro_vacio : dict :=
  [("RFC_EMISOR", VStr ""); ("NOMBRE_EMISOR", VStr ""); ("RFC_RECEPTOR", VStr "");
   ("NOMBRE_RECEPTOR", VStr ""); ("FECHA", VStr ""); ("SERIE", VStr "");
   ("FOLIO", VStr ""); ("N.FACTURA", VStr ""); ("SUBTOTAL", VInt 0);
   ("T.FACTURA", VInt 0); ("Moneda", VStr ""); ("TipoDeComprobante", VStr "");
   ("MetodoPago", VStr ""); ("FormaPago", VStr ""); ("UsoCFDI", VStr "");
   ("TipoCambio", VStr "1"); ("IVA", VFloat 0); ("IEPS", VFloat 0);
   ("RISR", VFloat 0); ("RIVA", VFloat 0); ("UUID", VStr "");
   ("P-Monto", VFloat 0); ("M", VStr "")].

(** [s] begins with a calendar date in the extended form [YYYY-MM-DD]: its
    year and its month. *)
Definition extended_date (s : string) : option (nat * nat) :=
  match list_ascii_of_string (slice_to 10 s) with
  | [y1; y2; y3; y4; s1; m1; m2; s2; d1; d2] =>
      if forallb is_digit [y1; y2; y3; y4; m1; m2; d1; d2]
         && Ascii.eqb s1 "-" && Ascii.eqb s2 "-"
      then Some (number [y1; y2; y3; y4], number [m1; m2])
      else None
  | _ => None
  end.

(** What every version of [datetime.fromisoformat] does on a text that
    begins with [YYYY-MM-DD]: when it accepts the text, the year and the
    month of the result are the ones written there. *)
Definition reads_extended_dates (py : Builtins) : Prop :=
  forall (s : string) (y m : nat) (d : datetime),
    extended_date s = Some (y, m) ->
    fromisoformat py s = Ok d ->
    year d = y /\ month d = m.

(** The sample invoice with its date in the basic form. *)
Definition factura_fecha_basica : Element :=
  Elem (qname CFD4 "Comprobante")
    [("Fecha", "20240315T100000"); ("Serie", "A"); ("Folio", "100")] [].

(** The characters of the ISO 8601 representations of dates and times of
    day: digits and the designators [-], [:], [.], [,], [+], [T], [Z], [W].
    A text with any other character is not ISO 8601. *)
Definition iso8601_char (c : ascii) : bool :=
  is_digit c
  || existsb (Ascii.eqb c) ["-"; ":"; "."; ","; "+"; "T"; "Z"; "W"]%char.

Definition outside_iso8601 (s : string) : bool :=
  existsb (fun c => negb (iso8601_char c)) (list_ascii_of_string s).

(** ** Notions about discovery *)

(** The test of [listar_xmls_recursivo] on a file name. *)
Definition is_xml (name : string) : bool := endswith (lower name) ".xml".

(** [name] ends in [.xml], whatever the case of the three letters. *)
Definition ends_in_xml (name : string) : Prop :=
  exists (stem : string) (x m l : ascii),
    name = (stem ++ String "." (String x (String m (String l ""))))%string
    /\ (x = "x" \/ x = "X")%char
    /\ (m = "m" \/ m = "M")%char
    /\ (l = "l" \/ l = "L")%char.

(** [path] is the path of the file called [name] in the directory [top]
    (whose listing is [entries]) or in a directory below it, at any depth. *)
Inductive file_under : string -> list node -> string -> string -> Prop :=
| file_here (top : string) (entries : list node) (name : string) :
    In (File name) entries ->
    file_under top entries (path_join top name) name
| file_below (top : string) (entries : list node) (d : string) (sub : list node)
             (path name : string) :
    In (Dir d sub) entries ->
    file_under (path_join top d) sub path name ->
    file_under top entries path name.

(** The XML paths of a walk, in the order of the walk. *)
Definition xml_paths (w : list (string * list string * list string)) : list string :=
  flat_map (fun '(r, _, files) => map (path_join r) (filter is_xml files)) w.

Definition le_str (a b : string) : Prop := String.leb a b = true.

(** The XML paths found in one entry of a directory. *)
Definition paths_node (top : string) (n : node) : list string :=
  match n with
  | File f => if is_xml f then [path_join top f] else []
  | Dir d sub => xml_paths (walk (path_join top d) sub)
  end.

(** Two listings of the same directory contents: the same files and
    sub-directories, listed in any order at every level. *)
Inductive same_listing : list node -> list node -> Prop :=
| same_nil : same_listing [] []
| same_cons (n n' : node) (es es' : list node) :
    same_tree n n' -> same_listing es es' -> same_listing (n :: es) (n' :: es')
| same_perm (es es' : list node) : Permutation es es' -> same_listing es es'
| same_trans (es1 es2 es3 : list node) :
    same_listing es1 es2 -> same_listing es2 es3 -> same_listing es1 es3
with same_tree : node -> node -> Prop :=
| same_file (name : string) : same_tree (File name) (File name)
| same_dir (d : string) (es es' : list node) :
    same_listing es es' -> same_tree (Dir d es) (Dir d es').

Scheme same_listing_mut := Induction for same_listing Sort Prop
  with same_tree_mut := Induction for same_tree Sort Prop.

(** ** A sample file system

    [/xml] holds an invoice, a text file and a sub-directory with a
    truncated document and a document without data. *)
Definition mundo : world :=
  {| scan := fun path =>
       if String.eqb path "/xml" then
         Directory [File "b.xml"; File "notas.txt";
                    Dir "sub" [File "roto.XML"; File "a.Xml"]]
       else if String.eqb path "/vacia" then Directory [File "notas.txt"; Dir "sub" []]
       else if String.eqb path "/xml/notas.txt" then NotADirectory
       else Missing;
     ET_parse := fun path =>
       if String.eqb path "/xml/b.xml" then Ok factura
       else if String.eqb path "/xml/sub/a.Xml" then Ok vacio
       else if String.eqb path "/xml/sub/roto.XML" then Raise ParseError
       else Raise OSError |}.

(** ** Notions about a run *)

(** The outcome of one discovered path: parsing, then extraction. *)
Definition documento (py : Builtins) (fs : world) (path : string) : result dict :=
  root <- ET_parse fs path ;; extraer py root.

(** The records of the paths that succeed, in the order of the paths. *)
Definition sobrevivientes (py : Builtins) (fs : world) (paths : list string)
  : list dict :=
  flat_map (fun path => match documento py fs path with
                        | Ok comp => [comp]
                        | Raise _ => []
                        end) paths.

(** The canonical columns under their display names. *)
Definition encabezado : list string :=
  map (fun c => match assoc c rename_map with Some c' => c' | None => c end)
      column_order.

(** The data row of the record [comp] in the frame of [datos]. *)
Definition fila (datos : list dict) (comp : dict) : list pyval :=
  map (cell_in datos comp) column_order.

(** What [leexmlpy.py] prints for one path. *)
Definition lineas (py : Builtins) (fs : world) (path : string) : list line :=
  match documento py fs path with
  | Ok _ => [Procesando path]
  | Raise ParseError => [Procesando path; MalFormado path]
  | Raise _ => [Procesando path; ErrorProcesando path]
  end.

(** [c in s]. *)
Fixpoint has_char (c : ascii) (s : string) : bool :=
  match s with
  | EmptyString => false
  | String a r => Ascii.eqb a c || has_char c r
  end.

(** ** Column letters, read back *)

(** The number a column name stands for in a spreadsheet, counted from
    zero: [A] is 0, [Z] is 25, [AA] is 26. *)
Definition letter_value (c : ascii) : Z := Z.of_N (N_of_ascii c) - 64.

Fixpoint letters_value (acc : Z) (name : string) : Z :=
  match name with
  | EmptyString => acc
  | String c r => letters_value (acc * 26 + letter_value c) r
  end.

Definition excel_name_to_colnum (name : string) : Z := letters_value 0 name - 1.

Definition upper_letters (name : string) : bool :=
  forallb is_upper (list_ascii_of_string name).

(** How many names have at most [k] letters: [26 + 26^2 + ... + 26^k]. *)
Fixpoint names_up_to (k : nat) : Z :=
  match k with
  | O => 0
  | S k' => 26 * (names_up_to k' + 1)
  end.

(** ** Further notions used to state the properties *)

(** A text made of [-] only. *)
Definition all_dashes (s : string) : bool :=
  forallb (Ascii.eqb "-") (list_ascii_of_string s).

(** The fields by the type of their value: text, a [float] aggregate, and
    the two amounts whose default is the [int] 0. *)
Definition text_fields : list string :=
  ["RFC_EMISOR"; "NOMBRE_EMISOR"; "RFC_RECEPTOR"; "NOMBRE_RECEPTOR"; "FECHA";
   "SERIE"; "FOLIO"; "N.FACTURA"; "Moneda"; "TipoDeComprobante"; "MetodoPago";
   "FormaPago"; "UsoCFDI"; "TipoCambio"; "UUID"; "M"].

Definition float_fields : list string := ["IVA"; "IEPS"; "RISR"; "RIVA"; "P-Monto"].

Definition amount_fields : list string := ["SUBTOTAL"; "T.FACTURA"].

Definition is_float_or_int_zero (v : pyval) : bool :=
  match v with VFloat _ => true | VInt z => Z.eqb z 0 | _ => false end.

(** No element of [es], at any depth, passes the tag test of [p:Local]. *)
Definition none_matches (uri local : string) (es : list Element) : bool :=
  forallb (fun e => negb (tag_matches uri local (tag e))) (flat_map iter es).

(** The first element in the tree of [c], [c] included, that passes it. *)
Definition first_match (uri local : string) (c : Element) : option Element :=
  hd_error (filter (fun e => tag_matches uri local (tag e)) (iter c)).

(** An invoice of two concepts, each with its own taxes, followed by the
    taxes of the whole document. *)
Definition concepto (importe iva : string) : Element :=
  Elem (qname CFD4 "Concepto") [("Importe", importe)]
    [Elem (qname CFD4 "Impuestos") []
       [Elem (qname CFD4 "Traslados") [] [traslado "002" iva]]].

Definition factura_con_conceptos : Element :=
  Elem (qname CFD4 "Comprobante")
    [("Fecha", "2024-03-15T10:00:00"); ("SubTotal", "300.00"); ("Total", "348.00")]
    [Elem (qname CFD4 "Emisor") [("Rfc", "AAA010101AAA")] [];
     Elem (qname CFD4 "Conceptos") [] [concepto "100.00" "16.00"; concepto "200.00" "32.00"];
     Elem (qname CFD4 "Impuestos") [("TotalImpuestosTrasladados", "48.00")]
       [Elem (qname CFD4 "Traslados") [] [traslado "002" "48.00"]]].

(** A payment receipt with two payments. *)
Definition pago_de (monto : string) : Element :=
  Elem (qname URI_PAGO20 "Pago") [("FechaPago", "2024-04-01T12:00:00"); ("Monto", monto)] [].

Definition recibo_de_pagos : Element :=
  Elem (qname CFD4 "Comprobante")
    [("Fecha", "2024-04-02T09:30:00"); ("TipoDeComprobante", "P");
     ("SubTotal", "0"); ("Total", "0"); ("Moneda", "XXX")]
    [Elem (qname CFD4 "Complemento") []
       [Elem (qname URI_PAGO20 "Pagos") [("Version", "2.0")]
          [Elem (qname URI_PAGO20 "Totales") [("MontoTotalPagos", "150.75")] [];
           pago_de "100.50"; pago_de "50.25"]]].

(** The lines [leexmlpy.py] prints about one path. *)
Definition is_procesando (l : line) : bool :=
  match l with Procesando _ => true | _ => false end.

Definition is_failure (l : line) : bool :=
  match l with MalFormado _ | ErrorProcesando _ => true | _ => false end.


(** The display name of a column. *)
Definition display (c : string) : string :=
  match assoc c rename_map with Some c' => c' | None => c end.

(** ** Directory listings as a file system gives them *)

Definition node_name (n : node) : string :=
  match n with
  | File f => f
  | Dir d _ => d
  end.

(** A name of a directory entry: not empty and without [/]. *)
Definition valid_name (name : string) : bool :=
  negb (String.eqb name "") && negb (has_char "/" name).

Fixpoint distinct (l : list string) : bool :=
  match l with
  | [] => true
  | x :: r => negb (contains r x) && distinct r
  end.

(** Every name is valid and no two entries of a directory share a name, at
    every level. *)
Fixpoint well_formed_node (n : node) : bool :=
  match n with
  | File f => valid_name f
  | Dir d entries =>
      valid_name d
      && distinct (map node_name entries)
      && forallb well_formed_node entries
  end.

Definition well_formed (entries : list node) : bool :=
  distinct (map node_name entries) && forallb well_formed_node entries.

(** The XML files of a listing by their path relative to it, components
    joined by [/]. *)
Fixpoint rel_paths_node (n : node) : list string :=
  match n with
  | File f => if is_xml f then [f] else []
  | Dir d sub => map (fun r => (d ++ "/" ++ r)%string) (flat_map rel_paths_node sub)
  end.

Definition rel_paths (entries : list node) : list string :=
  flat_map rel_paths_node entries.

(** A directory path with the separator that [os.path.join] puts after it. *)
Definition with_sep (top : string) : string :=
  if String.eqb top "" || endswith top "/" then top else (top ++ "/")%string.

(** ** The frame of a run *)

(** The frame a run hands to [to_excel] when [paths] are the discovered
    paths: no column without a record, else the canonical columns under
    their display names and one row per record. *)
Definition hoja (py : Builtins) (fs : world) (paths : list string) : DataFrame :=
  {| columns := match sobrevivientes py fs paths with
                | [] => []
                | _ :: _ => encabezado
                end;
     rows := map (fila (sobrevivientes py fs paths)) (sobrevivientes py fs paths) |}.

(** What [leexmlpy.py] has printed when it returns. *)
Definition impreso (py : Builtins) (fs : world) (carpeta_xml archivo_excel : string)
  : list line :=
  let archivos := listar_xmls_recursivo fs carpeta_xml in
  match archivos with
  | [] => [Carpeta carpeta_xml; Encontrados 0; SinArchivos;
           ReporteGenerado archivo_excel]
  | _ :: _ =>
      [Carpeta carpeta_xml; Encontrados (List.length archivos)]
      ++ map (fun f => Archivo (relpath py f carpeta_xml)) archivos
      ++ flat_map (lineas py fs) archivos
      ++ [ReporteGenerado archivo_excel;
          TotalProcesados (List.length (sobrevivientes py fs archivos))]
  end.

(** ** Documents that read the same *)

(** The attribute [key] of [e] when it is present and not empty: all that
    [get_attrib], [x.get(key, d) or d] and [to_float(x.get(key), d)] can
    tell of it. *)
Definition attr (e : Element) (key : string) : option string :=
  match get e key with
  | Some EmptyString => None
  | v => v
  end.

(** The same tree with every tag and every attribute list rewritten. *)
Fixpoint transform (ft : string -> string)
         (fa : list (string * string) -> list (string * string)) (e : Element)
  : Element :=
  match e with
  | Elem t a cs => Elem (ft t) (fa a) (map (transform ft fa) cs)
  end.

(** The document without its empty attributes. *)
Definition drop_empty (a : list (string * string)) : list (string * string) :=
  filter (fun kv => negb (String.eqb (snd kv) "")) a.

Definition without_empty_attributes : Element -> Element :=
  transform (fun t => t) drop_empty.

(** No element of the document has two attributes of the same name, as in
    every well-formed XML document. *)
Definition distinct_attributes (e : Element) : bool :=
  forallb (fun x => distinct (map fst (attrib x))) (iter e).

(** The document with the elements of the namespace [u] moved to [u']. *)
Definition in_namespace (uri t : string) : bool :=
  startswith t ("{" ++ uri ++ "}").

Definition retag (u u' t : string) : string :=
  if in_namespace u t then
    "{" ++ u' ++ "}"
    ++ String.substring (String.length u + 2)
                        (String.length t - (String.length u + 2)) t
  else t.

Definition in_other_namespace (u u' : string) : Element -> Element :=
  transform (retag u u') (fun a => a).

(** A namespace URI a CFDI schema can have: not empty, without [}], not
    the wildcard, and not the namespace of one of the two complements. *)
Definition valid_uri (u : string) : bool :=
  negb (String.eqb u "") && negb (has_char "}" u) && negb (String.eqb u "*")
  && negb (String.eqb u URI_TFD) && negb (String.eqb u URI_PAGO20).

Definition none_in_namespace (u : string) (e : Element) : bool :=
  forallb (fun x => negb (in_namespace u (tag x))) (iter e).

Definition CFD3 : string := "http://www.sat.gob.mx/cfd/3".

(** The sample invoice with some attributes left empty. *)
Definition factura_con_vacios : Element :=
  Elem (qname CFD4 "Comprobante")
    [("Fecha", "2024-03-15T10:00:00Z"); ("Serie", ""); ("Folio", "100");
     ("SubTotal", "1000.00"); ("Total", ""); ("Moneda", "MXN"); ("TipoCambio", "")]
    [Elem (qname CFD4 "Emisor") [("Rfc", "AAA010101AAA"); ("Nombre", "")] [];
     Elem (qname CFD4 "Impuestos") []
          [Elem (qname CFD4 "Traslados") []
                [traslado "002" "160.00"; traslado "" "20.00"; traslado "002" ""]]].

(** ** The command line of [leexmlpy.py] (220-236) *)

Module LeexmlpyEntry.
Section Main.
Variable py : Builtins.
Variable fs : world.


End Main.
End LeexmlpyEntry.

(** The sample file system with its directories listed in another order. *)
Definition mundo_en_otro_orden : world :=
  {| scan := fun path =>
       if String.eqb path "/xml" then
         Directory [Dir "sub" [File "a.Xml"; File "roto.XML"];
                    File "notas.txt"; File "b.xml"]
       else scan mundo path;
     ET_parse := ET_parse mundo |}.

(** * Properties *)

Local Open Scope string_scope.

(** ** [to_float] *)

Lemma to_float_cases (py : Builtins) (val : option string) (default : pyval) :
  to_float py val default = Ok default
  \/ exists s f, val = Some s /\ s <> "" /\ float_of_str py s = Ok f
                 /\ to_float py val default = Ok (VFloat f).
Proof.
  unfold to_float. destruct val as [s|]; simpl; [|now left].
  destruct (String.eqb_spec s "") as [->|Hs]; simpl; [now left|].
  destruct (float_of_str py s) as [f|e] eqn:Hf; simpl; [|now left].
  right. exists s, f. auto.
Qed.

Lemma to_float_amount (py : Builtins) (val : option string) :
  to_float py val (VInt 0) = Ok (VFloat (amount py val))
  \/ (to_float py val (VInt 0) = Ok (VInt 0) /\ amount py val = 0%float).
Proof.
  unfold to_float, amount. destruct val as [s|]; simpl; [|now right].
  destruct (String.eqb s ""); simpl; [now right|].
  destruct (float_of_str py s); simpl; [now left | now right].
Qed.

Lemma float_of_int_0 : float_of_int 0 = Ok 0%float.
Proof. reflexivity. Qed.

(** C6: [to_float] never raises; it returns [default] when the input is
    [None] or the empty string, the parsed number when [float] accepts the
    text, and [default] when [float] raises.  With the reference interpreter,
    ["160.00"] gives [160.0] and ["abc"] or ["$5"] give the default. *)
Theorem to_float_never_raises :
  forall (py : Builtins) (val : option string) (default : pyval),
    (exists v, to_float py val default = Ok v)
    /\ to_float py None default = Ok default
    /\ to_float py (Some "") default = Ok default
    /\ (forall s f, val = Some s -> s <> "" -> float_of_str py s = Ok f ->
                    to_float py val default = Ok (VFloat f))
    /\ (forall s e, val = Some s -> float_of_str py s = Raise e ->
                    to_float py val default = Ok default)
    /\ to_float CPython (Some "160.00") default = Ok (VFloat 160)
    /\ to_float CPython (Some "abc") default = Ok default
    /\ to_float CPython (Some "$5") default = Ok default.
Proof.
  intros py val default. repeat split.
  - destruct (to_float_cases py val default) as [H | (s & f & _ & _ & _ & H)];
      rewrite H; eauto.
  - intros s f -> Hs Hf. unfold to_float.
    apply String.eqb_neq in Hs. rewrite Hs, Hf. reflexivity.
  - intros s e -> Hf. unfold to_float.
    destruct (String.eqb s ""); [reflexivity|]. rewrite Hf. reflexivity.
Qed.

Lemma to_float_value_ok (py : Builtins) (val : option string) (default : pyval) :
  to_float py val default = Ok (to_float_value py val default).
Proof.
  unfold to_float_value.
  destruct (to_float_cases py val default) as [H | (s & f & _ & _ & _ & H)];
    rewrite H; reflexivity.
Qed.

(** ** [parse_fecha_iso] *)

Lemma parse_fecha_iso_ok (py : Builtins) (s : string) :
  exists r, parse_fecha_iso py s = Ok r.
Proof.
  unfold parse_fecha_iso. destruct s as [|c s]; [eauto|].
  destruct (fromisoformat py _); simpl; eauto.
Qed.

Lemma parse_fecha_iso_year_month (py : Builtins) (s : string) :
  exists r, parse_fecha_iso py s = Ok r
            /\ year_month py s = match r with
                                 | Some d => strftime_Ym (year_width py) d
                                 | None => ""
                                 end.
Proof.
  destruct (parse_fecha_iso_ok py s) as [r Hr]. exists r. split; [exact Hr|].
  unfold year_month. rewrite Hr. destruct r; reflexivity.
Qed.

(** ** The tax loops *)

Lemma code_is_exclusive (imp : option string) (c1 c2 : string) :
  c1 <> c2 -> code_is imp c1 = true -> code_is imp c2 = false.
Proof.
  destruct imp as [c|]; simpl; [|discriminate].
  intros Hne H1. apply String.eqb_eq in H1. subst c.
  now apply String.eqb_neq.
Qed.

Section Loops.
Variable py : Builtins.

Lemma add_amount (acc : float) (val : option string) (k : float -> result (float * float)) :
  (v <- to_float py val (VInt 0) ;; acc' <- iadd acc v ;; k acc')
  = k (acc + amount py val)%float.
Proof.
  destruct (to_float_amount py val) as [H | [H H0]]; rewrite H; cbn [bind iadd].
  - reflexivity.
  - rewrite float_of_int_0, H0. reflexivity.
Qed.

Lemma traslado_loop (es : list Element) (a b : float) :
  for_each (traslado_step py) es (a, b)
  = Ok (fold_left PrimFloat.add (importes py (with_code "002" es)) a,
        fold_left PrimFloat.add (importes py (with_code "003" es)) b).
Proof.
  revert a b. induction es as [|e es IH]; intros a b; [reflexivity|].
  cbn [for_each]. unfold traslado_step at 1.
  unfold with_code, importes in *. cbn [filter].
  destruct (code_is (get e "Impuesto") "002") eqn:H2.
  - rewrite (code_is_exclusive _ "002" "003") by (discriminate || assumption).
    rewrite add_amount. cbn [bind map fold_left]. apply IH.
  - destruct (code_is (get e "Impuesto") "003") eqn:H3.
    + rewrite add_amount. cbn [bind map fold_left]. apply IH.
    + cbn [bind]. apply IH.
Qed.

Lemma retencion_loop (es : list Element) (a b : float) :
  for_each (retencion_step py) es (a, b)
  = Ok (fold_left PrimFloat.add (importes py (with_code "001" es)) a,
        fold_left PrimFloat.add (importes py (with_code "002" es)) b).
Proof.
  revert a b. induction es as [|e es IH]; intros a b; [reflexivity|].
  cbn [for_each]. unfold retencion_step at 1.
  unfold with_code, importes in *. cbn [filter].
  destruct (code_is (get e "Impuesto") "001") eqn:H1.
  - rewrite (code_is_exclusive _ "001" "002") by (discriminate || assumption).
    rewrite add_amount. cbn [bind map fold_left]. apply IH.
  - destruct (code_is (get e "Impuesto") "002") eqn:H2.
    + rewrite add_amount. cbn [bind map fold_left]. apply IH.
    + cbn [bind]. apply IH.
Qed.

Lemma impuestos_totales_ok (root : Element) :
  impuestos_totales py
    {| cfdi := cfdi_uri root; tfd := URI_TFD; pago20 := URI_PAGO20 |} root
  = Ok (agregado py root "Traslado" "002", agregado py root "Traslado" "003",
        agregado py root "Retencion" "001", agregado py root "Retencion" "002").
Proof.
  unfold impuestos_totales, agregado, contenedor_impuestos. cbn [cfdi].
  destruct (find root (cfdi_uri root) "Impuestos") as [impuestos|]; [|reflexivity].
  rewrite traslado_loop, retencion_loop. reflexivity.
Qed.

Lemma pago_monto_ok (root : Element) :
  pago_monto py {| cfdi := cfdi_uri root; tfd := URI_TFD; pago20 := URI_PAGO20 |} root
  = Ok (primer_pago py root).
Proof.
  unfold pago_monto, primer_pago. cbn [pago20].
  destruct (find root URI_PAGO20 "Pagos") as [pagos|]; [|reflexivity].
  destruct (find pagos URI_PAGO20 "Pago") as [pago|]; [|reflexivity].
  apply to_float_value_ok.
Qed.

(** The extraction never raises and builds [registro]. *)
Lemma extraer_registro (root : Element) : extraer py root = Ok (registro py root).
Proof.
  unfold extraer. fold (cfdi_uri root).
  rewrite (to_float_value_ok py (get root "SubTotal")). cbn [bind].
  rewrite (to_float_value_ok py (get root "Total")). cbn [bind].
  rewrite impuestos_totales_ok. cbn [bind].
  rewrite pago_monto_ok. cbn [bind].
  fold (root_attr root "Fecha" "").
  destruct (parse_fecha_iso_year_month py (root_attr root "Fecha" "")) as (r & Hr & Hym).
  rewrite Hr. cbn [bind]. rewrite <- Hym.
  reflexivity.
Qed.
End Loops.

(** ** [strip] *)

Section Strip.
Variable chars : ascii -> bool.

Lemma rstrip_app_char (s : string) (c : ascii) :
  chars c = true -> rstrip chars (s ++ String c "") = rstrip chars s.
Proof.
  intros Hc. induction s as [|a s IH]; simpl.
  - now rewrite Hc.
  - now rewrite IH.
Qed.

(** Nothing is removed on the right of a text that ends with a kept
    character. *)
Lemma rstrip_keeps (s : string) :
  (forall t c, s = t ++ String c "" -> chars c = false) -> rstrip chars s = s.
Proof.
  induction s as [|a s IH]; intros H; [reflexivity|].
  destruct s as [|b r].
  - simpl. now rewrite (H "" a eq_refl).
  - assert (Hs : rstrip chars (String b r) = String b r).
    { apply IH. intros t c Hs. apply (H (String a t) c). simpl. now rewrite Hs. }
    change (rstrip chars (String a (String b r)))
      with (match rstrip chars (String b r) with
            | EmptyString => if chars a then EmptyString else String a EmptyString
            | r' => String a r'
            end).
    rewrite Hs. reflexivity.
Qed.

Lemma rstrip_app_keeps (a b : string) :
  b <> "" -> rstrip chars b = b -> rstrip chars (a ++ b) = a ++ b.
Proof.
  intros Hb Hk. induction a as [|c a IH]; simpl; [exact Hk|].
  rewrite IH. destruct (a ++ b) eqn:E; [|reflexivity].
  destruct a; simpl in E; [contradiction | discriminate].
Qed.

End Strip.

Lemma ends_with_dash_rstrip (s : string) :
  ends_with_dash s = false -> rstrip (Ascii.eqb "-") s = s.
Proof.
  intros H. apply rstrip_keeps. intros t c ->.
  induction t as [|a t IH]; simpl in H; [exact H|].
  destruct (t ++ String c "") eqn:E; [destruct t; discriminate|].
  apply IH. exact H.
Qed.

Lemma begins_with_dash_lstrip (s : string) :
  begins_with_dash s = false -> lstrip (Ascii.eqb "-") s = s.
Proof. destruct s as [|a s]; simpl; [reflexivity|]. now intros ->. Qed.

(** On parts without a dash at their edges, the stripped concatenation is
    the join that leaves out an empty part. *)
Lemma strip_join (serie folio : string) :
  no_edge_dash serie -> no_edge_dash folio ->
  strip (Ascii.eqb "-") (serie ++ "-" ++ folio) = join_parts serie folio.
Proof.
  intros [Hs1 Hs2] [Hf1 Hf2]. unfold strip, join_parts.
  destruct serie as [|a serie].
  - simpl. rewrite begins_with_dash_lstrip by assumption.
    now apply ends_with_dash_rstrip.
  - rewrite begins_with_dash_lstrip by exact Hs1.
    destruct folio as [|b folio].
    + change (String a serie ++ "-" ++ "") with (String a serie ++ String "-" "").
      rewrite rstrip_app_char by reflexivity.
      now apply ends_with_dash_rstrip.
    + change (String a serie ++ "-" ++ String b folio)
        with (String a serie ++ (String "-" (String b folio))).
      apply rstrip_app_keeps; [discriminate|].
      apply ends_with_dash_rstrip. exact Hf2.
Qed.

(** ** The record of one document *)

Lemma suma_snoc (py : Builtins) (code : string) (entries : list Element) (e : Element) :
  suma py code (entries ++ [e])%list
  = if code_is (get e "Impuesto") code
    then (suma py code entries + amount py (get e "Importe"))%float
    else suma py code entries.
Proof.
  unfold suma, running_sum, importes, with_code.
  rewrite filter_app. cbn [filter].
  destruct (code_is (get e "Impuesto") code).
  - rewrite map_app, fold_left_app. reflexivity.
  - now rewrite app_nil_r.
Qed.

(** C2: when the taxes container is located, the four aggregates are the
    running sums, in document order and starting from 0.0, over its
    [Traslado] entries with code 002 (IVA) and 003 (IEPS) and over its
    [Retencion] entries with code 001 (RISR) and 002 (RIVA): going through
    the entries, the amount of an entry is added to a sum exactly when the
    entry has the code of that sum, so an entry with another code changes
    no sum, and nothing is raised.  Without a taxes container the four
    aggregates are 0.0. *)
Theorem tax_aggregates_are_running_sums :
  forall (py : Builtins) (root : Element),
    exists comp,
      extraer py root = Ok comp
      /\ (forall impuestos,
             contenedor_impuestos root = Some impuestos ->
             assoc "IVA" comp
             = Some (VFloat (suma py "002" (findall impuestos (cfdi_uri root) "Traslado")))
             /\ assoc "IEPS" comp
                = Some (VFloat (suma py "003" (findall impuestos (cfdi_uri root) "Traslado")))
             /\ assoc "RISR" comp
                = Some (VFloat (suma py "001" (findall impuestos (cfdi_uri root) "Retencion")))
             /\ assoc "RIVA" comp
                = Some (VFloat (suma py "002" (findall impuestos (cfdi_uri root) "Retencion"))))
      /\ (contenedor_impuestos root = None ->
          assoc "IVA" comp = Some (VFloat 0) /\ assoc "IEPS" comp = Some (VFloat 0)
          /\ assoc "RISR" comp = Some (VFloat 0) /\ assoc "RIVA" comp = Some (VFloat 0))
      /\ (forall code, suma py code [] = 0%float)
      /\ (forall code entries e,
             suma py code (entries ++ [e])%list
             = if code_is (get e "Impuesto") code
               then (suma py code entries + amount py (get e "Importe"))%float
               else suma py code entries).
Proof.
  intros py root. exists (registro py root).
  split; [apply extraer_registro|].
  unfold registro. cbn [assoc String.eqb Ascii.eqb Bool.eqb].
  unfold agregado.
  split; [intros impuestos ->; repeat split|].
  split; [intros ->; repeat split|].
  split; [reflexivity | apply suma_snoc].
Qed.

(** The sample invoice has entries 002 (160.00), 003 (20.00) and 099 (5.00):
    IVA is 160.0, IEPS is 20.0 and the withholdings are 0.0. *)
Lemma tax_aggregates_sample :
  exists comp,
    extraer CPython factura = Ok comp
    /\ assoc "IVA" comp = Some (VFloat 160)
    /\ assoc "IEPS" comp = Some (VFloat 20)
    /\ assoc "RISR" comp = Some (VFloat 0)
    /\ assoc "RIVA" comp = Some (VFloat 0).
Proof.
  destruct (tax_aggregates_are_running_sums CPython factura)
    as (comp & Hc & Hsome & _).
  destruct (contenedor_impuestos factura) as [impuestos|] eqn:E;
    [|vm_compute in E; discriminate].
  destruct (Hsome impuestos eq_refl) as (H1 & H2 & H3 & H4).
  exists comp. split; [exact Hc|].
  vm_compute in E. injection E as <-.
  rewrite H1, H2, H3, H4. repeat split.
Defined.

(** C3: the invoice number is the series, a [-] and the folio concatenated,
    with the leading and trailing [-] stripped; on parts without a dash at
    their own edges this is the join that leaves out an empty part.  Series
    "A" and folio "100" give "A-100", an empty series gives "100" and two
    empty parts give "". *)
Theorem invoice_number_is_stripped_join :
  forall (py : Builtins) (root : Element),
    exists comp,
      extraer py root = Ok comp
      /\ assoc "N.FACTURA" comp
         = Some (VStr (strip (Ascii.eqb "-")
                         (root_attr root "Serie" "" ++ "-" ++ root_attr root "Folio" "")))
      /\ (no_edge_dash (root_attr root "Serie" "") ->
          no_edge_dash (root_attr root "Folio" "") ->
          assoc "N.FACTURA" comp
          = Some (VStr (join_parts (root_attr root "Serie" "")
                                   (root_attr root "Folio" ""))))
      /\ strip (Ascii.eqb "-") ("A" ++ "-" ++ "100") = "A-100"
      /\ strip (Ascii.eqb "-") ("" ++ "-" ++ "100") = "100"
      /\ strip (Ascii.eqb "-") ("" ++ "-" ++ "") = "".
Proof.
  intros py root. exists (registro py root).
  split; [apply extraer_registro|].
  split; [reflexivity|].
  split; [|repeat split].
  intros Hs Hf. unfold registro. cbn [assoc String.eqb Ascii.eqb Bool.eqb].
  now rewrite strip_join.
Qed.

Lemma get_attrib_falta (elem : option Element) (key : string) :
  falta elem key -> get_attrib elem key "" = "".
Proof.
  destruct elem as [e|]; simpl; [|reflexivity].
  unfold get_default. now intros ->.
Qed.

Lemma root_attr_falta (root : Element) (key default : string) :
  get root key = None -> root_attr root key default = default.
Proof.
  unfold root_attr, get_default. intros ->. now destruct default.
Qed.

(** C9: a record produced by the extraction has exactly the fields of the
    schema; a field whose source is missing holds the empty string, a number
    equal to 0.0, or "1" for the exchange rate, and a document without any
    data gives [registro_vacio]. *)
Theorem record_has_the_schema :
  forall (py : Builtins) (root : Element) (comp : dict),
    extraer py root = Ok comp ->
    keys comp = schema
    /\ (forall field, In field schema -> exists v, assoc field comp = Some v)
    /\ (falta (find root (cfdi_uri root) "Emisor") "Rfc" ->
        assoc "RFC_EMISOR" comp = Some (VStr ""))
    /\ (falta (find root (cfdi_uri root) "Emisor") "Nombre" ->
        assoc "NOMBRE_EMISOR" comp = Some (VStr ""))
    /\ (falta (find root (cfdi_uri root) "Receptor") "Rfc" ->
        assoc "RFC_RECEPTOR" comp = Some (VStr ""))
    /\ (falta (find root (cfdi_uri root) "Receptor") "Nombre" ->
        assoc "NOMBRE_RECEPTOR" comp = Some (VStr ""))
    /\ (falta (find root (cfdi_uri root) "Receptor") "UsoCFDI" ->
        assoc "UsoCFDI" comp = Some (VStr ""))
    /\ (falta (find root URI_TFD "TimbreFiscalDigital") "UUID" ->
        assoc "UUID" comp = Some (VStr ""))
    /\ (get root "Fecha" = None ->
        assoc "FECHA" comp = Some (VStr "") /\ assoc "M" comp = Some (VStr ""))
    /\ (get root "Serie" = None -> assoc "SERIE" comp = Some (VStr ""))
    /\ (get root "Folio" = None -> assoc "FOLIO" comp = Some (VStr ""))
    /\ (get root "Serie" = None -> get root "Folio" = None ->
        assoc "N.FACTURA" comp = Some (VStr ""))
    /\ (get root "Moneda" = None -> assoc "Moneda" comp = Some (VStr ""))
    /\ (get root "TipoDeComprobante" = None ->
        assoc "TipoDeComprobante" comp = Some (VStr ""))
    /\ (get root "MetodoPago" = None -> assoc "MetodoPago" comp = Some (VStr ""))
    /\ (get root "FormaPago" = None -> assoc "FormaPago" comp = Some (VStr ""))
    /\ (get root "TipoCambio" = None -> assoc "TipoCambio" comp = Some (VStr "1"))
    /\ (get root "SubTotal" = None ->
        exists v, assoc "SUBTOTAL" comp = Some v /\ eq_zero v = true)
    /\ (get root "Total" = None ->
        exists v, assoc "T.FACTURA" comp = Some v /\ eq_zero v = true)
    /\ (contenedor_impuestos root = None ->
        assoc "IVA" comp = Some (VFloat 0) /\ assoc "IEPS" comp = Some (VFloat 0)
        /\ assoc "RISR" comp = Some (VFloat 0) /\ assoc "RIVA" comp = Some (VFloat 0))
    /\ (find root URI_PAGO20 "Pagos" = None -> assoc "P-Monto" comp = Some (VFloat 0))
    /\ extraer py vacio = Ok registro_vacio.
Proof.
  intros py root comp H. rewrite extraer_registro in H. injection H as <-.
  unfold registro. cbn [assoc String.eqb Ascii.eqb Bool.eqb keys map fst].
  split; [reflexivity|].
  split.
  { intros field Hf. simpl in Hf.
    repeat (destruct Hf as [<- | Hf]; [eexists; reflexivity|]). contradiction. }
  repeat match goal with
         | |- (falta _ _ -> _) /\ _ =>
             split; [intros Hm; now rewrite (get_attrib_falta _ _ Hm)|]
         end.
  split.
  { intros Hm. rewrite (root_attr_falta _ _ "" Hm). split; reflexivity. }
  split; [intros Hm; now rewrite (root_attr_falta _ _ "" Hm)|].
  split; [intros Hm; now rewrite (root_attr_falta _ _ "" Hm)|].
  split.
  { intros H1 H2. now rewrite (root_attr_falta _ _ "" H1), (root_attr_falta _ _ "" H2). }
  do 4 (split; [intros Hm; now rewrite (root_attr_falta _ _ "" Hm)|]).
  split; [intros Hm; now rewrite (root_attr_falta _ _ "1" Hm)|].
  split.
  { intros Hm. unfold to_float_value, to_float. rewrite Hm. simpl. eauto. }
  split.
  { intros Hm. unfold to_float_value, to_float. rewrite Hm. simpl. eauto. }
  split.
  { intros Hm. unfold agregado. rewrite Hm. repeat split. }
  split.
  { intros Hm. unfold primer_pago. now rewrite Hm. }
  rewrite extraer_registro. reflexivity.
Qed.

(** The sample invoice is extracted, and its record has the schema. *)
Lemma record_has_the_schema_sample :
  exists comp, extraer CPython factura = Ok comp /\ keys comp = schema.
Proof.
  exists (registro CPython factura).
  assert (H : extraer CPython factura = Ok (registro CPython factura))
    by apply extraer_registro.
  split; [exact H|].
  exact (proj1 (record_has_the_schema CPython factura _ H)).
Defined.

(** ** Digits and [strftime] *)

Lemma is_digit_facts (c : ascii) :
  is_digit c = true ->
  digit_char (digit_value c) = c
  /\ digit_value c < 10
  /\ Ascii.eqb c "Z" = false
  /\ Ascii.eqb c "W" = false
  /\ Ascii.eqb c "-" = false.
Proof.
  destruct c as [[] [] [] [] [] [] [] []]; intros H;
    try (vm_compute in H; discriminate H);
    (split; [reflexivity | split; [vm_compute; lia | repeat split]]).
Qed.

Lemma digits4_number (a b c d : nat) :
  a < 10 -> b < 10 -> c < 10 -> d < 10 ->
  digits4 (10 * (10 * (10 * (10 * 0 + a) + b) + c) + d) = [a; b; c; d].
Proof.
  intros Ha Hb Hc Hd. unfold digits4.
  set (n := 10 * (10 * (10 * (10 * 0 + a) + b) + c) + d).
  assert (H1 : n / 1000 = a)
    by (symmetry; apply Nat.div_unique with (r := 100 * b + 10 * c + d); lia).
  assert (H2 : n / 100 = 10 * a + b)
    by (symmetry; apply Nat.div_unique with (r := 10 * c + d); lia).
  assert (H3 : n / 10 = 100 * a + 10 * b + c)
    by (symmetry; apply Nat.div_unique with (r := d); lia).
  rewrite H1, H2, H3.
  rewrite (Nat.mod_small a 10) by lia.
  replace ((10 * a + b) mod 10) with b
    by (apply Nat.mod_unique with (q := a); lia).
  replace ((100 * a + 10 * b + c) mod 10) with c
    by (apply Nat.mod_unique with (q := 10 * a + b); lia).
  replace (n mod 10) with d
    by (apply Nat.mod_unique with (q := 100 * a + 10 * b + c); lia).
  reflexivity.
Qed.

Lemma digits2_number (a b : nat) :
  a < 10 -> b < 10 ->
  (10 * (10 * 0 + a) + b) / 10 mod 10 = a /\ (10 * (10 * 0 + a) + b) mod 10 = b.
Proof.
  intros Ha Hb.
  assert (H1 : (10 * (10 * 0 + a) + b) / 10 = a)
    by (symmetry; apply Nat.div_unique with (r := b); lia).
  rewrite H1, (Nat.mod_small a 10) by lia. split; [reflexivity|].
  symmetry. apply Nat.mod_unique with (q := a); lia.
Qed.

Lemma extended_date_inv (s : string) (y m : nat) :
  extended_date s = Some (y, m) ->
  exists y1 y2 y3 y4 m1 m2 d1 d2 rest,
    s = String y1 (String y2 (String y3 (String y4 (String "-"
          (String m1 (String m2 (String "-" (String d1 (String d2 rest)))))))))
    /\ forallb is_digit [y1; y2; y3; y4; m1; m2; d1; d2] = true
    /\ y = number [y1; y2; y3; y4] /\ m = number [m1; m2].
Proof.
  unfold extended_date, slice_to.
  do 10 (destruct s as [|? s]; [discriminate|]).
  cbn [String.substring list_ascii_of_string].
  replace (String.substring 0 0 s) with "" by (destruct s; reflexivity).
  cbn [list_ascii_of_string].
  destruct (forallb is_digit _) eqn:Hd; [|discriminate].
  destruct (Ascii.eqb_spec a3 "-") as [->|]; [|discriminate].
  destruct (Ascii.eqb_spec a6 "-") as [->|]; [|discriminate].
  cbn [andb]. intros H. injection H as <- <-.
  repeat eexists. exact Hd.
Qed.

(** The [Z] rewrite leaves a leading [YYYY-MM-DD] as it is. *)
Lemma extended_date_replace (s : string) (y m : nat) :
  extended_date s = Some (y, m) ->
  extended_date (replace "Z" "+00:00" s) = Some (y, m).
Proof.
  intros H. destruct (extended_date_inv s y m H)
    as (y1 & y2 & y3 & y4 & m1 & m2 & d1 & d2 & rest & -> & Hd & -> & ->).
  cbn [forallb] in Hd.
  repeat (apply andb_prop in Hd; destruct Hd as [?H Hd]).
  repeat match goal with
         | Hc : is_digit ?c = true |- _ =>
             let Hz := fresh "Hz" in
             pose proof (proj1 (proj2 (proj2 (is_digit_facts c Hc)))) as Hz;
             revert Hc
         end.
  intros. cbn [replace]. rewrite Hz, Hz0, Hz1, Hz2, Hz3, Hz4, Hz5, Hz6.
  change (Ascii.eqb "-" "Z") with false. cbv iota.
  unfold extended_date, slice_to. cbn [String.substring list_ascii_of_string].
  match goal with
  | |- context [String.substring 0 0 ?r] =>
      replace (String.substring 0 0 r) with "" by (destruct r; reflexivity)
  end.
  cbn [list_ascii_of_string forallb].
  rewrite H0, H1, H2, H3, H4, H5, H6, H7. reflexivity.
Qed.

(** The year and the month written in a leading [YYYY-MM-DD] with a year of
    four significant digits are what [strftime('%Y-%m')] prints. *)
Lemma strftime_extended_date (w : nat) (s : string) (d : datetime) :
  extended_date s = Some (year d, month d) ->
  1000 <= year d ->
  strftime_Ym w d = slice_to 7 s.
Proof.
  intros H Hy. destruct (extended_date_inv s _ _ H)
    as (y1 & y2 & y3 & y4 & m1 & m2 & d1 & d2 & rest & -> & Hd & Hyear & Hmonth).
  cbn [forallb] in Hd.
  repeat (apply andb_prop in Hd; destruct Hd as [?H Hd]).
  destruct (is_digit_facts y1) as (E1 & L1 & _); [assumption|].
  destruct (is_digit_facts y2) as (E2 & L2 & _); [assumption|].
  destruct (is_digit_facts y3) as (E3 & L3 & _); [assumption|].
  destruct (is_digit_facts y4) as (E4 & L4 & _); [assumption|].
  destruct (is_digit_facts m1) as (E5 & L5 & _); [assumption|].
  destruct (is_digit_facts m2) as (E6 & L6 & _); [assumption|].
  unfold strftime_Ym. rewrite Hyear, Hmonth in *. unfold number in *.
  cbn [fold_left] in *.
  rewrite digits4_number by assumption.
  destruct (digits2_number (digit_value m1) (digit_value m2)) as [-> ->];
    [assumption..|].
  assert (Hnz : digit_value y1 <> 0) by lia.
  assert (Hdz : forall a r, a <> 0 -> drop_zeros w (a :: r) = a :: r)
    by (intros [|a] r Ha; [contradiction | reflexivity]).
  rewrite Hdz by exact Hnz.
  cbn [digits_string]. rewrite E1, E2, E3, E4, E5, E6.
  reflexivity.
Qed.

(** The reference interpreter reads a leading [YYYY-MM-DD] as written. *)
Lemma CPython_reads_extended_dates : reads_extended_dates CPython.
Proof.
  intros s y m d H Hf. destruct (extended_date_inv s y m H)
    as (y1 & y2 & y3 & y4 & m1 & m2 & d1 & d2 & rest & -> & Hd & -> & ->).
  cbn [forallb] in Hd.
  repeat (apply andb_prop in Hd; destruct Hd as [?H Hd]).
  destruct (is_digit_facts m1) as (_ & _ & _ & Hw & _); [assumption|].
  change (fromisoformat CPython) with CPythonRef.fromisoformat in Hf.
  unfold CPythonRef.fromisoformat, CPythonRef.find_separator in Hf.
  cbn [list_ascii_of_string List.length Nat.eqb nth] in Hf.
  change (Ascii.eqb "-" "-") with true in Hf. rewrite Hw in Hf. cbv iota in Hf.
  unfold CPythonRef.parse_isoformat_date in Hf.
  cbn [CPythonRef.parse_digits CPythonRef.peek hd tl] in Hf.
  rewrite H0, H1, H2, H3 in Hf.
  cbn [CPythonRef.parse_digits CPythonRef.peek hd tl] in Hf.
  change (Ascii.eqb "-" "-") with true in Hf. cbv iota in Hf.
  cbn [CPythonRef.parse_digits CPythonRef.peek hd tl] in Hf.
  rewrite Hw, H4, H5 in Hf.
  cbn [CPythonRef.parse_digits CPythonRef.peek hd tl andb negb] in Hf.
  change (Ascii.eqb "-" "-") with true in Hf. cbn [andb negb] in Hf.
  rewrite H6, H7 in Hf.
  match type of Hf with
  | (match (if ?c then ?t else ?e) with _ => _ end) = _ =>
      destruct (if c then t else e) as [[[[[hh mm] ss] us] tz]|]; [|discriminate]
  end.
  destruct (CPythonRef.valid_fields _); [|discriminate].
  injection Hf as <-. cbn [year month number fold_left]. split; reflexivity.
Qed.

(** ** The year-month field and [parse_fecha_iso] *)

(** C4, amended: the date either parses or not, and nothing is raised; the
    year-month field is empty when it does not parse; when it parses to [d]
    the field is [d.strftime('%Y-%m')]; and when the date moreover begins
    with [YYYY-MM-DD] and a year of four significant digits, that is the
    7-character prefix of the date (for every interpreter that reads such a
    date as written). *)
Theorem year_month_of_the_parsed_date :
  forall (py : Builtins) (root : Element),
    exists comp,
      extraer py root = Ok comp
      /\ (exists r, parse_fecha_iso py (root_attr root "Fecha" "") = Ok r)
      /\ (parse_fecha_iso py (root_attr root "Fecha" "") = Ok None ->
          assoc "M" comp = Some (VStr ""))
      /\ (forall d,
             parse_fecha_iso py (root_attr root "Fecha" "") = Ok (Some d) ->
             assoc "M" comp = Some (VStr (strftime_Ym (year_width py) d)))
      /\ (forall y m d,
             reads_extended_dates py ->
             extended_date (root_attr root "Fecha" "") = Some (y, m) ->
             1000 <= y ->
             parse_fecha_iso py (root_attr root "Fecha" "") = Ok (Some d) ->
             assoc "M" comp = Some (VStr (slice_to 7 (root_attr root "Fecha" "")))).
Proof.
  intros py root. exists (registro py root).
  split; [apply extraer_registro|].
  split; [apply parse_fecha_iso_ok|].
  unfold registro. cbn [assoc String.eqb Ascii.eqb Bool.eqb].
  set (fecha := root_attr root "Fecha" "").
  assert (Hsome : forall d, parse_fecha_iso py fecha = Ok (Some d) ->
                            year_month py fecha = strftime_Ym (year_width py) d)
    by (intros d Hd; unfold year_month; now rewrite Hd).
  split; [intros Hn; unfold year_month; now rewrite Hn|].
  split; [intros d Hd; now rewrite (Hsome d Hd)|].
  intros y m d Hlaw Hext Hy Hd. rewrite (Hsome d Hd). f_equal. f_equal.
  apply strftime_extended_date.
  - assert (Hf : fromisoformat py (replace "Z" "+00:00" fecha) = Ok d).
    { unfold parse_fecha_iso in Hd. destruct fecha as [|c fecha']; [discriminate|].
      destruct (fromisoformat py _) as [d'|]; simpl in Hd; [|discriminate].
      now injection Hd as ->. }
    destruct (Hlaw _ y m d (extended_date_replace _ _ _ Hext) Hf) as [-> ->].
    exact Hext.
  - assert (Hf : fromisoformat py (replace "Z" "+00:00" fecha) = Ok d).
    { unfold parse_fecha_iso in Hd. destruct fecha as [|c fecha']; [discriminate|].
      destruct (fromisoformat py _) as [d'|]; simpl in Hd; [|discriminate].
      now injection Hd as ->. }
    destruct (Hlaw _ y m d (extended_date_replace _ _ _ Hext) Hf) as [-> _].
    exact Hy.
Qed.

(** The date "2024-03-15T10:00:00Z" of the sample invoice gives "2024-03". *)
Lemma year_month_sample :
  exists comp,
    extraer CPython factura = Ok comp /\ assoc "M" comp = Some (VStr "2024-03").
Proof.
  destruct (year_month_of_the_parsed_date CPython factura)
    as (comp & Hc & _ & _ & _ & H).
  exists comp. split; [exact Hc|].
  exact (H 2024 3 (mk_datetime 2024 3 15 10 0 0 0 (Some 0%Z))
           CPython_reads_extended_dates eq_refl ltac:(vm_compute; lia) eq_refl).
Defined.

(** The claim of C4 as stated fails on a date in the basic form: the date
    "20240315T100000" parses, the field is "2024-03", and the 7-character
    prefix of the date is "2024031".  It also fails on a year below 1000
    where the C library does not pad [%Y]: "0999-01-02" gives "999-01". *)
Lemma year_month_is_not_the_prefix :
  root_attr factura_fecha_basica "Fecha" "" = "20240315T100000"
  /\ parse_fecha_iso CPython "20240315T100000"
     = Ok (Some (mk_datetime 2024 3 15 10 0 0 0 None))
  /\ (exists comp,
         extraer CPython factura_fecha_basica = Ok comp
         /\ assoc "M" comp = Some (VStr "2024-03"))
  /\ slice_to 7 "20240315T100000" = "2024031"
  /\ "2024-03" <> slice_to 7 "20240315T100000"
  /\ year_month CPython "0999-01-02" = "999-01"
  /\ slice_to 7 "0999-01-02" = "0999-01".
Proof.
  split; [reflexivity|]. split; [reflexivity|].
  split; [exists (registro CPython factura_fecha_basica);
          split; [apply extraer_registro | reflexivity]|].
  split; [reflexivity|]. split; [discriminate|]. split; reflexivity.
Qed.

Lemma append_assoc (a b c : string) : (a ++ b) ++ c = a ++ (b ++ c).
Proof. induction a as [|x a IH]; simpl; [reflexivity | now rewrite IH]. Qed.

Lemma replace_app (old : ascii) (new a b : string) :
  replace old new (a ++ b) = replace old new a ++ replace old new b.
Proof.
  induction a as [|c a IH]; simpl; [reflexivity|].
  destruct (Ascii.eqb c old); rewrite IH; [|reflexivity].
  now rewrite append_assoc.
Qed.

Lemma append_nonempty (a : string) (c : ascii) : a ++ String c "" <> "".
Proof. destruct a; discriminate. Qed.

(** C7, amended: [parse_fecha_iso] never raises; it returns [None] on the
    empty string and whenever [datetime.fromisoformat] rejects the text in
    which every [Z] is rewritten to [+00:00]; a trailing [Z] is read as the
    offset [+00:00], so "2024-03-15T10:00:00Z" parses, at offset zero.  A
    text that the parser accepts yields its date, ISO 8601 or not. *)
Theorem parse_fecha_iso_never_raises :
  forall (py : Builtins) (s : string),
    (exists r, parse_fecha_iso py s = Ok r)
    /\ parse_fecha_iso py "" = Ok None
    /\ (forall e, fromisoformat py (replace "Z" "+00:00" s) = Raise e ->
                  parse_fecha_iso py s = Ok None)
    /\ (forall d, s <> "" -> fromisoformat py (replace "Z" "+00:00" s) = Ok d ->
                  parse_fecha_iso py s = Ok (Some d))
    /\ replace "Z" "+00:00" (s ++ "Z") = replace "Z" "+00:00" s ++ "+00:00"
    /\ (forall d, fromisoformat py (replace "Z" "+00:00" s ++ "+00:00") = Ok d ->
                  parse_fecha_iso py (s ++ "Z") = Ok (Some d))
    /\ parse_fecha_iso CPython "2024-03-15T10:00:00Z"
       = Ok (Some (mk_datetime 2024 3 15 10 0 0 0 (Some 0%Z)))
    /\ parse_fecha_iso CPython "15/03/2024" = Ok None.
Proof.
  intros py s.
  assert (Hz : replace "Z" "+00:00" (s ++ "Z") = replace "Z" "+00:00" s ++ "+00:00")
    by (rewrite replace_app; reflexivity).
  split; [apply parse_fecha_iso_ok|].
  split; [reflexivity|].
  split.
  { intros e He. unfold parse_fecha_iso. destruct s; [reflexivity|].
    now rewrite He. }
  split.
  { intros d Hs Hd. unfold parse_fecha_iso. destruct s; [contradiction|].
    now rewrite Hd. }
  split; [exact Hz|].
  split; [|split; reflexivity].
  intros d Hd. unfold parse_fecha_iso.
  destruct (s ++ "Z") eqn:E; [now apply append_nonempty in E|].
  rewrite Hz, Hd. reflexivity.
Qed.

(** The claim of C7 as stated fails: "2024-03-15_10:00:00" is not ISO 8601
    (no ISO 8601 text contains [_]) and yet it is parsed. *)
Lemma parse_fecha_iso_accepts_non_iso8601 :
  outside_iso8601 "2024-03-15_10:00:00" = true
  /\ parse_fecha_iso CPython "2024-03-15_10:00:00"
     = Ok (Some (mk_datetime 2024 3 15 10 0 0 0 None))
  /\ parse_fecha_iso CPython "2024-03-15_10:00:00" <> Ok None
  /\ outside_iso8601 "2024-03-15 10:00:00" = true
  /\ parse_fecha_iso CPython "2024-03-15 10:00:00"
     = Ok (Some (mk_datetime 2024 3 15 10 0 0 0 None)).
Proof.
  split; [reflexivity|]. split; [reflexivity|].
  split; [discriminate|]. split; reflexivity.
Qed.

(** ** Text suffixes *)

Lemma length_append (a b : string) :
  String.length (a ++ b) = String.length a + String.length b.
Proof. induction a as [|c a IH]; simpl; [reflexivity | now rewrite IH]. Qed.

Lemma substring_all (s : string) : String.substring 0 (String.length s) s = s.
Proof. induction s as [|c s IH]; simpl; [reflexivity | now rewrite IH]. Qed.

Lemma substring_append (a b : string) :
  String.substring (String.length a) (String.length b) (a ++ b) = b.
Proof. induction a as [|c a IH]; simpl; [apply substring_all | exact IH]. Qed.

Lemma substring_split (s : string) (k : nat) :
  k <= String.length s ->
  s = String.substring 0 k s ++ String.substring k (String.length s - k) s.
Proof.
  revert k. induction s as [|c s IH]; intros k Hk.
  - destruct k; reflexivity.
  - destruct k as [|k]; simpl.
    + now rewrite substring_all.
    + simpl in Hk. rewrite <- IH by lia. reflexivity.
Qed.

Lemma endswith_spec (s suffix : string) :
  endswith s suffix = true <-> exists stem, s = stem ++ suffix.
Proof.
  unfold endswith. split.
  - intros H. apply andb_prop in H. destruct H as [Hl He].
    apply Nat.leb_le in Hl. apply String.eqb_eq in He.
    exists (String.substring 0 (String.length s - String.length suffix) s).
    pose proof (substring_split s (String.length s - String.length suffix)) as Hs.
    replace (String.length s - (String.length s - String.length suffix))
      with (String.length suffix) in Hs by lia.
    rewrite He in Hs. apply Hs. lia.
  - intros [stem ->]. rewrite length_append.
    replace (String.length stem + String.length suffix - String.length suffix)
      with (String.length stem) by lia.
    rewrite substring_append, String.eqb_refl, andb_true_r.
    apply Nat.leb_le. lia.
Qed.

Lemma lower_append (a b : string) : lower (a ++ b) = lower a ++ lower b.
Proof. induction a as [|c a IH]; simpl; [reflexivity | now rewrite IH]. Qed.

Lemma lower_split (s p q : string) :
  lower s = p ++ q -> exists a b, s = a ++ b /\ lower a = p /\ lower b = q.
Proof.
  revert s. induction p as [|c p IH]; intros s H.
  - exists "", s. auto.
  - destruct s as [|x s]; [discriminate|]. simpl in H. injection H as Hc H.
    destruct (IH s H) as (a & b & -> & <- & <-).
    exists (String x a), b. simpl. now rewrite Hc.
Qed.

Lemma lower_char_cases (c : ascii) :
  (lower_char c = "." <-> c = ".")%char
  /\ (lower_char c = "x" <-> c = "x" \/ c = "X")%char
  /\ (lower_char c = "m" <-> c = "m" \/ c = "M")%char
  /\ (lower_char c = "l" <-> c = "l" \/ c = "L")%char.
Proof.
  destruct c as [[] [] [] [] [] [] [] []]; vm_compute;
    repeat split; intros H; try discriminate H;
    try (destruct H as [H | H]; discriminate H); auto.
Qed.

(** The test on a file name is "ends in .xml, case-insensitively". *)
Lemma is_xml_spec (name : string) : is_xml name = true <-> ends_in_xml name.
Proof.
  unfold is_xml, ends_in_xml. rewrite endswith_spec. split.
  - intros [stem' H]. apply lower_split in H.
    destruct H as (stem & ext & -> & _ & Hext).
    destruct ext as [|c1 [|c2 [|c3 [|c4 [|c5 ext]]]]]; try discriminate.
    simpl in Hext. injection Hext as H1 H2 H3 H4.
    apply (proj1 (lower_char_cases c1)) in H1.
    apply (proj1 (proj2 (lower_char_cases c2))) in H2.
    apply (proj1 (proj2 (proj2 (lower_char_cases c3)))) in H3.
    apply (proj2 (proj2 (proj2 (lower_char_cases c4)))) in H4.
    subst c1. exists stem, c2, c3, c4. auto.
  - intros (stem & x & m & l & -> & Hx & Hm & Hl).
    exists (lower stem). rewrite lower_append. f_equal. simpl.
    apply (proj1 (proj2 (lower_char_cases x))) in Hx.
    apply (proj1 (proj2 (proj2 (lower_char_cases m)))) in Hm.
    apply (proj2 (proj2 (proj2 (lower_char_cases l)))) in Hl.
    now rewrite Hx, Hm, Hl.
Qed.

(** ** [sorted] *)

Lemma leb_trans (a b c : string) :
  le_str a b -> le_str b c -> le_str a c.
Proof.
  unfold le_str, String.leb. revert b c.
  induction a as [|x a IH]; intros [|y b] [|z c]; simpl; try congruence.
  unfold Ascii.compare.
  destruct (N.compare_spec (N_of_ascii x) (N_of_ascii y)) as [Exy|Lxy|Gxy];
    destruct (N.compare_spec (N_of_ascii y) (N_of_ascii z)) as [Eyz|Lyz|Gyz];
    destruct (N.compare_spec (N_of_ascii x) (N_of_ascii z)) as [Exz|Lxz|Gxz];
    try congruence; try lia.
  apply IH.
Qed.

Lemma leb_false (a b : string) : String.leb a b = false -> le_str b a.
Proof.
  intros H. destruct (String.leb_total a b) as [H'|H']; [congruence | exact H'].
Qed.

Lemma insert_perm (x : string) (l : list string) : Permutation (insert x l) (x :: l).
Proof.
  induction l as [|y l IH]; simpl; [reflexivity|].
  destruct (String.leb x y); [reflexivity|].
  rewrite IH. apply perm_swap.
Qed.

Lemma sorted_perm (l : list string) : Permutation (sorted l) l.
Proof.
  induction l as [|x l IH]; simpl; [reflexivity|].
  rewrite insert_perm. now constructor.
Qed.

Lemma insert_sorted (x : string) (l : list string) :
  StronglySorted le_str l -> StronglySorted le_str (insert x l).
Proof.
  induction 1 as [|y l Hs IH Hy]; simpl.
  - repeat constructor.
  - destruct (String.leb x y) eqn:E.
    + constructor; [now constructor|].
      constructor; [exact E|].
      eapply Forall_impl; [|exact Hy]. intros z Hz. now apply leb_trans with y.
    + constructor; [exact IH|].
      apply (Permutation_Forall (Permutation_sym (insert_perm x l))).
      constructor; [now apply leb_false | exact Hy].
Qed.

Lemma sorted_sorted (l : list string) : StronglySorted le_str (sorted l).
Proof.
  induction l as [|x l IH]; simpl; [constructor | now apply insert_sorted].
Qed.

(** A list has one sorted arrangement. *)
Lemma sorted_unique (l l' : list string) :
  StronglySorted le_str l -> StronglySorted le_str l' -> Permutation l l' -> l = l'.
Proof.
  intros Hl. revert l'. induction Hl as [|x l Hs IH Hx]; intros l' Hl' Hp.
  - now apply Permutation_nil in Hp.
  - destruct Hl' as [|y l' Hs' Hy].
    + apply Permutation_sym, Permutation_nil in Hp. discriminate.
    + assert (Exy : x = y).
      { assert (Hin : In x (y :: l')) by (apply (Permutation_in _ Hp); now left).
        assert (Hin' : In y (x :: l))
          by (apply (Permutation_in _ (Permutation_sym Hp)); now left).
        destruct Hin as [->|Hin]; [reflexivity|].
        destruct Hin' as [->|Hin']; [reflexivity|].
        rewrite Forall_forall in Hx, Hy.
        apply String.leb_antisym; [apply Hx, Hin' | apply Hy, Hin]. }
      subst y. f_equal. apply IH; [exact Hs'|].
      now apply Permutation_cons_inv in Hp.
Qed.

Lemma sorted_perm_eq (l l' : list string) : Permutation l l' -> sorted l = sorted l'.
Proof.
  intros Hp. apply sorted_unique; try apply sorted_sorted.
  rewrite !sorted_perm. exact Hp.
Qed.

(** ** Discovery *)

Lemma node_ind_nested (P : node -> Prop) :
  (forall name, P (File name)) ->
  (forall d entries, Forall P entries -> P (Dir d entries)) ->
  forall n, P n.
Proof.
  intros Hf Hd. fix IH 1. intros [name | d entries]; [apply Hf|].
  apply Hd. induction entries as [|n entries IHe]; constructor;
    [apply IH | exact IHe].
Qed.

Lemma inner_loop (r : string) (files paths : list string) :
  fold_left
    (fun paths f =>
       if endswith (lower f) ".xml" then (paths ++ [path_join r f])%list else paths)
    files paths
  = (paths ++ map (path_join r) (filter is_xml files))%list.
Proof.
  revert paths. induction files as [|f files IH]; intros paths; simpl.
  - now rewrite app_nil_r.
  - rewrite IH. unfold is_xml at 2. destruct (endswith (lower f) ".xml"); simpl;
      [now rewrite <- app_assoc | reflexivity].
Qed.

Lemma outer_loop (w : list (string * list string * list string)) (paths : list string) :
  fold_left
    (fun paths '(r, _, files) =>
       fold_left
         (fun paths f =>
            if endswith (lower f) ".xml" then (paths ++ [path_join r f])%list
            else paths)
         files paths)
    w paths
  = (paths ++ xml_paths w)%list.
Proof.
  revert paths. induction w as [|[[r dirs] files] w IH]; intros paths; simpl.
  - now rewrite app_nil_r.
  - rewrite inner_loop, IH, <- app_assoc. reflexivity.
Qed.

Lemma listar_sorted_xml_paths (fs : world) (carpeta : string) :
  listar_xmls_recursivo fs carpeta = sorted (xml_paths (os_walk fs carpeta)).
Proof. unfold listar_xmls_recursivo. now rewrite outer_loop. Qed.

Lemma xml_paths_app (w1 w2 : list (string * list string * list string)) :
  xml_paths (w1 ++ w2)%list = (xml_paths w1 ++ xml_paths w2)%list.
Proof. unfold xml_paths. apply flat_map_app. Qed.

Lemma xml_paths_flat_map {A : Type} (g : A -> list (string * list string * list string))
      (l : list A) :
  xml_paths (flat_map g l) = flat_map (fun a => xml_paths (g a)) l.
Proof.
  induction l as [|a l IH]; simpl; [reflexivity|].
  now rewrite xml_paths_app, IH.
Qed.

Lemma walk_node_dir (top d : string) (sub : list node) :
  walk_node top (Dir d sub) = walk (path_join top d) sub.
Proof. reflexivity. Qed.

Lemma xml_paths_walk (top : string) (entries : list node) :
  xml_paths (walk top entries)
  = (map (path_join top) (filter is_xml (filenames entries))
     ++ flat_map (fun n => xml_paths (walk_node top n)) entries)%list.
Proof.
  unfold walk. change (xml_paths (?a :: ?w)) with (xml_paths ([a] ++ w)%list).
  rewrite xml_paths_app, xml_paths_flat_map. simpl. now rewrite app_nil_r.
Qed.

Lemma in_filenames (entries : list node) (name : string) :
  In name (filenames entries) <-> In (File name) entries.
Proof.
  unfold filenames. rewrite in_flat_map. split.
  - intros ([f | d sub] & Hin & H); simpl in H; [|contradiction].
    destruct H as [<- | []]. exact Hin.
  - intros H. exists (File name). split; [exact H | now left].
Qed.

Lemma in_xml_paths_walk (entries : list node) :
  forall top path,
    In path (xml_paths (walk top entries))
    <-> exists name, file_under top entries path name /\ is_xml name = true.
Proof.
  assert (Hnode : forall n,
             match n with
             | File _ => True
             | Dir d sub =>
                 forall top path,
                   In path (xml_paths (walk top sub))
                   <-> exists name, file_under top sub path name /\ is_xml name = true
             end).
  { induction n as [name | d sub IH] using node_ind_nested; [exact I|].
    intros top path. rewrite xml_paths_walk, in_app_iff, in_map_iff, in_flat_map.
    split.
    - intros [(name & <- & Hin) | (n & Hin & Hp)].
      + apply filter_In in Hin. destruct Hin as [Hin Hx].
        exists name. split; [|exact Hx]. constructor. now apply in_filenames.
      + destruct n as [f | d' sub']; [destruct Hp|].
        rewrite Forall_forall in IH. specialize (IH _ Hin). simpl in IH.
        rewrite walk_node_dir in Hp. apply IH in Hp.
        destruct Hp as (name & Hu & Hx). exists name. split; [|exact Hx].
        now apply file_below with d' sub'.
    - intros (name & Hu & Hx). inversion Hu as [? ? ? Hin | ? ? d' sub' ? ? Hin Hbelow]; subst.
      + left. exists name. split; [reflexivity|].
        apply filter_In. split; [now apply in_filenames | exact Hx].
      + right. exists (Dir d' sub'). split; [exact Hin|].
        rewrite Forall_forall in IH. specialize (IH _ Hin). simpl in IH.
        rewrite walk_node_dir. apply IH. eauto. }
  exact (Hnode (Dir "" entries)).
Qed.

Lemma xml_paths_by_entry (top : string) (entries : list node) :
  Permutation (xml_paths (walk top entries)) (flat_map (paths_node top) entries).
Proof.
  rewrite xml_paths_walk.
  induction entries as [|[f | d sub] entries IH];
    cbn -[xml_paths walk_node is_xml path_join]; [constructor| |].
  - destruct (is_xml f); cbn -[xml_paths walk_node is_xml path_join];
      [now constructor | exact IH].
  - rewrite walk_node_dir.
    rewrite Permutation_app_comm, <- app_assoc.
    apply Permutation_app_head. rewrite Permutation_app_comm. exact IH.
Qed.

(** Two listings of the same contents hold the same XML paths. *)
Lemma same_listing_paths (es es' : list node) :
  same_listing es es' ->
  forall top, Permutation (xml_paths (walk top es)) (xml_paths (walk top es')).
Proof.
  intros H.
  induction H using same_listing_mut
    with (P0 := fun n n' _ =>
                  forall top, Permutation (paths_node top n) (paths_node top n'));
    intros top.
  - reflexivity.
  - rewrite !xml_paths_by_entry. simpl. apply Permutation_app; [apply IHsame_listing|].
    rewrite <- !xml_paths_by_entry. apply IHsame_listing0.
  - rewrite !xml_paths_by_entry. now apply Permutation_flat_map.
  - now rewrite IHsame_listing1.
  - reflexivity.
  - simpl. apply IHsame_listing.
Qed.

(** C5: on an existing directory, [listar_xmls_recursivo] returns the paths
    of the files at any depth whose name ends in ".xml" whatever the case,
    each once, in sorted order; two listings of the same contents give the
    same sequence. *)
Theorem discovery_is_exact_and_sorted :
  forall (fs : world) (carpeta : string) (entries : list node),
    scan fs carpeta = Directory entries ->
    (forall path,
        In path (listar_xmls_recursivo fs carpeta)
        <-> exists name, file_under carpeta entries path name /\ ends_in_xml name)
    /\ Permutation (listar_xmls_recursivo fs carpeta)
                   (flat_map (paths_node carpeta) entries)
    /\ StronglySorted le_str (listar_xmls_recursivo fs carpeta)
    /\ (forall (fs' : world) (entries' : list node),
           scan fs' carpeta = Directory entries' ->
           same_listing entries entries' ->
           listar_xmls_recursivo fs' carpeta = listar_xmls_recursivo fs carpeta).
Proof.
  intros fs carpeta entries Hscan.
  rewrite listar_sorted_xml_paths. unfold os_walk. rewrite Hscan.
  split.
  { intros path. split.
    - intros H. apply (Permutation_in _ (sorted_perm _)) in H.
      apply in_xml_paths_walk in H. destruct H as (name & Hu & Hx).
      exists name. split; [exact Hu | now apply is_xml_spec].
    - intros (name & Hu & Hx).
      apply (Permutation_in _ (Permutation_sym (sorted_perm _))).
      apply in_xml_paths_walk. exists name. split; [exact Hu | now apply is_xml_spec]. }
  split; [rewrite sorted_perm; apply xml_paths_by_entry|].
  split; [apply sorted_sorted|].
  intros fs' entries' Hscan' Hsame.
  rewrite listar_sorted_xml_paths. unfold os_walk. rewrite Hscan'.
  apply sorted_perm_eq, Permutation_sym, same_listing_paths, Hsame.
Qed.

(** In the sample file system the three XML files of [/xml] are found, the
    nested ones included, in sorted order. *)
Lemma discovery_sample :
  listar_xmls_recursivo mundo "/xml"
  = ["/xml/b.xml"; "/xml/sub/a.Xml"; "/xml/sub/roto.XML"]
  /\ StronglySorted le_str (listar_xmls_recursivo mundo "/xml").
Proof.
  split; [reflexivity|].
  exact (proj1 (proj2 (proj2
           (discovery_is_exact_and_sorted mundo "/xml" _ eq_refl)))).
Defined.


(** ** The column letters and the width loop *)

Lemma letters_value_app (a b : string) (acc : Z) :
  letters_value acc (a ++ b) = letters_value (letters_value acc a) b.
Proof. revert acc; induction a as [|c a IH]; intros acc; simpl; [reflexivity | apply IH]. Qed.

Lemma upper_letters_app (a b : string) :
  upper_letters (a ++ b) = upper_letters a && upper_letters b.
Proof.
  unfold upper_letters. induction a as [|c a IH]; simpl; [reflexivity|].
  rewrite IH. now rewrite andb_assoc.
Qed.

Lemma chr_letter (r : Z) :
  (0 <= r < 26)%Z ->
  is_upper (chr (65 + r)) = true /\ letter_value (chr (65 + r)) = (r + 1)%Z.
Proof.
  intros Hr.
  assert (H : exists k, (k < 26)%nat /\ r = Z.of_nat k).
  { exists (Z.to_nat r). split; lia. }
  destruct H as [k [Hk ->]].
  do 26 (destruct k as [|k]; [split; reflexivity|]). lia.
Qed.

(** The loop, turn by turn: the letters it puts before [name]. *)
Lemma colnum_loop_spec (turns : nat) :
  forall (n : Z) (name : string),
    (Z.to_nat n <= turns)%nat ->
    exists pre,
      colnum_loop turns n name = Some (pre ++ name)
      /\ upper_letters pre = true
      /\ letters_value 0 pre = Z.max n 0
      /\ (names_up_to (String.length pre) <= 26 * Z.max n 0
          <= 26 * names_up_to (String.length pre))%Z.
Proof.
  induction turns as [|turns IH]; intros n name Hn.
  - exists "". assert (n <= 0)%Z by lia.
    cbn [colnum_loop]. replace (0 <? n)%Z with false by (symmetry; apply Z.ltb_ge; lia).
    repeat split; cbn [String.length names_up_to letters_value]; lia.
  - cbn [colnum_loop].
    destruct (0 <? n)%Z eqn:Hpos.
    + apply Z.ltb_lt in Hpos.
      pose proof (Z.mod_pos_bound (n - 1) 26 ltac:(lia)) as Hr.
      pose proof (Z.div_mod (n - 1) 26 ltac:(lia)) as Hdm.
      set (r := ((n - 1) mod 26)%Z) in *.
      set (q := ((n - 1) / 26)%Z) in *.
      assert (Hq : (0 <= q < n)%Z) by lia.
      destruct (IH q (String (chr (65 + r)) name) ltac:(lia)) as (pre & E & U & V & B).
      destruct (chr_letter r Hr) as [Hu Hv].
      exists (pre ++ String (chr (65 + r)) "").
      rewrite E, append_assoc. split; [reflexivity|].
      rewrite upper_letters_app, U, letters_value_app, V, length_append.
      unfold upper_letters at 1. cbn [list_ascii_of_string forallb letters_value String.length].
      rewrite Hu, Hv. replace (String.length pre + 1)%nat with (S (String.length pre)) by lia.
      cbn [names_up_to]. repeat split; try reflexivity; lia.
    + apply Z.ltb_ge in Hpos. exists "". repeat split; cbn [String.length names_up_to letters_value]; lia.
Qed.

Lemma colnum_loop_more_turns (turns : nat) :
  forall (turns' : nat) (n : Z) (name r : string),
    (turns <= turns')%nat ->
    colnum_loop turns n name = Some r -> colnum_loop turns' n name = Some r.
Proof.
  induction turns as [|turns IH]; intros turns' n name r Ht E.
  - cbn [colnum_loop] in E. destruct (0 <? n)%Z eqn:Hpos; [discriminate|].
    destruct turns'; cbn [colnum_loop]; rewrite Hpos; exact E.
  - destruct turns' as [|turns']; [lia|].
    cbn [colnum_loop] in *. destruct (0 <? n)%Z; [|exact E].
    apply IH; [lia | exact E].
Qed.

Lemma append_empty (s : string) : s ++ "" = s.
Proof. induction s as [|c s IH]; simpl; [reflexivity | now rewrite IH]. Qed.

Lemma colnum_to_excel_name_spec (n : Z) :
  (0 <= n)%Z ->
  forall turns,
    (Z.to_nat (n + 1) <= turns)%nat ->
    colnum_loop turns (n + 1) "" = Some (colnum_to_excel_name n)
    /\ upper_letters (colnum_to_excel_name n) = true
    /\ letters_value 0 (colnum_to_excel_name n) = (n + 1)%Z
    /\ (names_up_to (String.length (colnum_to_excel_name n)) <= 26 * (n + 1)
        <= 26 * names_up_to (String.length (colnum_to_excel_name n)))%Z.
Proof.
  intros Hn turns Ht.
  destruct (colnum_loop_spec (Z.to_nat (n + 1)) (n + 1) "" (le_n _))
    as (pre & E & U & V & B).
  rewrite append_empty in E.
  assert (Hname : colnum_to_excel_name n = pre).
  { unfold colnum_to_excel_name. cbv zeta. now rewrite E. }
  rewrite Hname. rewrite Z.max_l in V, B by lia.
  split; [|auto].
  exact (colnum_loop_more_turns _ turns _ _ _ Ht E).
Qed.

Lemma names_up_to_mono (k k' : nat) :
  (k <= k')%nat -> (names_up_to k <= names_up_to k')%Z.
Proof.
  assert (Hpos : forall j, (0 <= names_up_to j)%Z).
  { induction j as [|j IH]; cbn [names_up_to]; lia. }
  induction 1 as [|k' _ IH]; [lia|].
  cbn [names_up_to]. specialize (Hpos k'). lia.
Qed.

Lemma fold_max_list_max (l : list nat) (x : nat) :
  fold_left Nat.max l x = list_max (x :: l).
Proof.
  revert x. induction l as [|y l IH]; intros x.
  - cbn. lia.
  - cbn [fold_left]. rewrite IH. cbn [list_max fold_right]. lia.
Qed.

Lemma set_width_new (dims : list (string * nat)) (k : string) (w : nat) :
  ~ In k (map fst dims) -> set_width dims k w = (dims ++ [(k, w)])%list.
Proof.
  induction dims as [|[k' w'] dims IH]; intros Hk; [reflexivity|].
  cbn [set_width]. cbn [map fst In] in Hk.
  destruct (String.eqb_spec k' k) as [->|_]; [tauto|].
  cbn [app]. f_equal. apply IH. tauto.
Qed.

Lemma colnum_to_excel_name_inj (i j : nat) :
  colnum_to_excel_name (Z.of_nat i) = colnum_to_excel_name (Z.of_nat j) -> i = j.
Proof.
  intros E.
  destruct (colnum_to_excel_name_spec (Z.of_nat i) ltac:(lia) _ (le_n _))
    as (_ & _ & Vi & _).
  destruct (colnum_to_excel_name_spec (Z.of_nat j) ltac:(lia) _ (le_n _))
    as (_ & _ & Vj & _).
  rewrite E in Vi. lia.
Qed.

Lemma nodup_column_names (l : list nat) :
  NoDup l -> NoDup (map (fun j => colnum_to_excel_name (Z.of_nat j)) l).
Proof.
  induction 1 as [|j l Hj _ IHl]; [constructor|].
  cbn [map]. constructor; [|exact IHl].
  intros Hin. apply in_map_iff in Hin as (j' & E & Hj').
  apply colnum_to_excel_name_inj in E. now subst j'.
Qed.

Section WidthsLoop.
Variable astype_str : list pyval -> result (pyval -> string).
Variable df : DataFrame.

Lemma max_len_cells_ok (col : string) :
  max_len_cells astype_str df col = Ok (Some (longest astype_str df col)).
Proof.
  unfold max_len_cells, longest.
  destruct (empty df) eqn:He; cbn [negb]; [reflexivity|].
  destruct (astype_str (column df col)) as [str|e]; cbn [bind try_except]; [|reflexivity].
  unfold column. destruct (rows df) as [|row rs] eqn:Hr.
  - unfold empty in He. rewrite Hr in He. destruct (columns df); discriminate.
  - cbn [map series_max]. now rewrite fold_max_list_max.
Qed.

Lemma width_step_ok (dims : list (string * nat)) (idx : nat) (col : string) :
  width_step astype_str df dims (idx, col)
  = Ok (set_width dims (colnum_to_excel_name (Z.of_nat idx)) (width_of astype_str df col)).
Proof. unfold width_step. now rewrite max_len_cells_ok. Qed.

Lemma widths_loop (cols : list string) :
  forall (i : nat) (dims : list (string * nat)),
    map fst dims = map (fun j => colnum_to_excel_name (Z.of_nat j)) (seq 0 i) ->
    for_each (width_step astype_str df) (combine (seq i (List.length cols)) cols) dims
    = Ok (dims ++ combine (map (fun j => colnum_to_excel_name (Z.of_nat j))
                               (seq i (List.length cols)))
                          (map (width_of astype_str df) cols))%list.
Proof.
  induction cols as [|col cols IH]; intros i dims Hk.
  - cbn. now rewrite app_nil_r.
  - cbn [List.length seq combine for_each map].
    rewrite width_step_ok. cbn [bind].
    rewrite set_width_new.
    + rewrite IH.
      * now rewrite <- app_assoc.
      * rewrite map_app, Hk, seq_S, map_app. reflexivity.
    + rewrite Hk. intros Hin. apply in_map_iff in Hin as (j & E & Hj).
      apply colnum_to_excel_name_inj in E. apply in_seq in Hj. lia.
Qed.
End WidthsLoop.

Lemma longest_bounds (astype_str : list pyval -> result (pyval -> string))
      (df : DataFrame) (col : string) (str : pyval -> string) (v : pyval) :
  empty df = false ->
  astype_str (column df col) = Ok str ->
  In v (column df col) ->
  len (str v) <= longest astype_str df col.
Proof.
  intros He Hs Hv. unfold longest. rewrite He, Hs.
  assert (H : Forall (fun k => k <= list_max (map (fun v => len (str v)) (column df col)))
                     (map (fun v => len (str v)) (column df col))).
  { apply list_max_le. lia. }
  rewrite Forall_forall in H. apply H. apply in_map_iff. now exists v.
Qed.

(** The loop on a frame. *)
Lemma column_widths_ok :
  forall (astype_str : list pyval -> result (pyval -> string)) (df : DataFrame),
    exists dims : list (string * nat),
      column_widths astype_str df = Ok dims
      /\ map fst dims
         = map (fun j => colnum_to_excel_name (Z.of_nat j))
               (seq 0 (List.length (columns df)))
      /\ NoDup (map fst dims)
      /\ map snd dims
         = map (fun col => Nat.max (len col) (longest astype_str df col) + 2)
               (columns df)
      /\ (forall col w, In (col, w) (combine (columns df) (map snd dims)) ->
                        len col + 2 <= w
                        /\ (forall str v,
                               empty df = false ->
                               astype_str (column df col) = Ok str ->
                               In v (column df col) ->
                               len (str v) + 2 <= w)
                        /\ (empty df = true -> w = len col + 2)
                        /\ (forall e, astype_str (column df col) = Raise e ->
                                      w = len col + 2))
      /\ (List.length (columns df) = 19 ->
          map fst dims
          = ["A"; "B"; "C"; "D"; "E"; "F"; "G"; "H"; "I"; "J"; "K"; "L"; "M";
             "N"; "O"; "P"; "Q"; "R"; "S"]).
Proof.
  intros astype_str df.
  set (name := fun j => colnum_to_excel_name (Z.of_nat j)).
  set (n := List.length (columns df)).
  exists (combine (map name (seq 0 n)) (map (width_of astype_str df) (columns df))).
  assert (Hlen : List.length (map name (seq 0 n))
                 = List.length (map (width_of astype_str df) (columns df))).
  { now rewrite !length_map, length_seq. }
  assert (Hfst : forall (A B : Type) (l : list A) (l' : list B),
             List.length l = List.length l' ->
             map fst (combine l l') = l /\ map snd (combine l l') = l').
  { intros A B l. induction l as [|x l IH]; intros [|y l'] Hl; try discriminate.
    - split; reflexivity.
    - cbn [combine map fst snd]. injection Hl as Hl.
      destruct (IH l' Hl) as [-> ->]. split; reflexivity. }
  destruct (Hfst _ _ _ _ Hlen) as [H1 H2].
  split.
  { unfold column_widths, enumerate.
    now rewrite (widths_loop astype_str df (columns df) 0 [] eq_refl). }
  rewrite H1, H2.
  split; [reflexivity|]. split.
  { apply nodup_column_names, seq_NoDup. }
  split; [reflexivity|]. split.
  - intros col w Hin.
    assert (Hw : w = width_of astype_str df col).
    { clear - Hin. induction (columns df) as [|c cols IH]; [destruct Hin|].
      cbn [map combine In] in Hin. destruct Hin as [E | Hin]; [now injection E as <- <-|].
      now apply IH. }
    subst w. unfold width_of. split; [lia|]. split; [|split].
    + intros str v He Hs Hv.
      pose proof (longest_bounds astype_str df col str v He Hs Hv). lia.
    + intros He. unfold longest. rewrite He. lia.
    + intros e He. unfold longest. rewrite He. destruct (empty df); lia.
  - unfold n. intros ->. reflexivity.
Qed.

(** ** The table *)

Lemma documento_registro (py : Builtins) (fs : world) (path : string) :
  documento py fs path
  = match ET_parse fs path with
    | Ok root => Ok (registro py root)
    | Raise e => Raise e
    end.
Proof.
  unfold documento. destruct (ET_parse fs path); simpl;
    [apply extraer_registro | reflexivity].
Qed.

Lemma sobrevivientes_schema (py : Builtins) (fs : world) (paths : list string) :
  Forall (fun comp => keys comp = schema) (sobrevivientes py fs paths).
Proof.
  unfold sobrevivientes. apply Forall_flat_map, Forall_forall. intros path _.
  rewrite documento_registro. destruct (ET_parse fs path); repeat constructor.
Qed.

Lemma union_keys_schema (datos : list dict) :
  Forall (fun comp => keys comp = schema) datos ->
  union_keys datos = match datos with [] => [] | _ => schema end.
Proof.
  unfold union_keys. intros H.
  assert (Hgo : forall cols,
             cols = schema ->
             fold_left
               (fun cols d =>
                  fold_left (fun cols k => if contains cols k then cols else (cols ++ [k])%list)
                            (keys d) cols)
               datos cols = schema).
  { induction H as [|d datos Hd _ IH]; intros cols ->; [reflexivity|].
    cbn [fold_left]. rewrite Hd. apply IH. reflexivity. }
  destruct H as [|d datos Hd H']; [reflexivity|].
  cbn [fold_left]. rewrite Hd.
  change (fold_left (fun cols k => if contains cols k then cols else (cols ++ [k])%list)
                    schema []) with schema.
  clear Hgo. induction H' as [|d' datos' Hd' _ IH]; [reflexivity|].
  cbn [fold_left]. rewrite Hd'. exact IH.
Qed.

Lemma cell_combine (f : string -> pyval) (cols : list string) (c : string) :
  In c cols -> cell (combine cols (map f cols)) c = f c.
Proof.
  unfold cell. induction cols as [|k cols IH]; intros Hin; [destruct Hin|].
  cbn [map combine assoc].
  destruct (String.eqb_spec k c) as [->|Hne]; [reflexivity|].
  apply IH. destruct Hin as [->|Hin]; [contradiction | exact Hin].
Qed.

(** The frame handed to [to_excel]: no column at all when there is no
    record, else the canonical columns under their display names and one
    row per record. *)
Lemma ensamblar_ok (datos : list dict) :
  Forall (fun comp => keys comp = schema) datos ->
  ensamblar datos
  = Ok {| columns := match datos with [] => [] | _ => encabezado end;
          rows := map (fila datos) datos |}.
Proof.
  intros H. unfold ensamblar, DataFrame_of. cbn [columns rows].
  rewrite (union_keys_schema datos H).
  destruct datos as [|d datos]; [reflexivity|].
  set (D := d :: datos).
  change (filter (contains schema) column_order) with column_order.
  change (empty _) with false. cbn [negb].
  unfold getitem. cbn [columns rows].
  change (forallb (contains schema) column_order) with true. cbv iota.
  cbn [bind]. unfold rename. cbn [columns rows]. f_equal. f_equal.
  rewrite map_map. apply map_ext. intros comp. unfold fila.
  apply map_ext_in. intros c Hc. apply (cell_combine (cell_in D comp)).
  revert c Hc. apply Forall_forall. unfold column_order, schema.
  repeat (constructor; [cbn; tauto|]). constructor.
Qed.

Lemma ensamblar_hoja (py : Builtins) (fs : world) (paths : list string) :
  ensamblar (sobrevivientes py fs paths) = Ok (hoja py fs paths).
Proof.
  rewrite ensamblar_ok by apply sobrevivientes_schema. unfold hoja.
  now destruct (sobrevivientes py fs paths).
Qed.

(** ** The export *)

(** The width loop never stops the export: the block raises what the
    library raises. *)
Lemma exportar_spec (py : Builtins) (df : DataFrame) (archivo_excel : string) :
  exportar py df archivo_excel
  = with_ExcelWriter py archivo_excel
      (sheet <- write_sheet py archivo_excel (to_excel df) ;; Ok tt).
Proof.
  unfold exportar.
  destruct (column_widths_ok (Series_astype_str py) df) as (dims & E & _).
  destruct (write_sheet py archivo_excel (to_excel df)); cbn [bind];
    [now rewrite E | reflexivity].
Qed.


Lemma exportar_cases (py : Builtins) (df : DataFrame) (archivo_excel : string) :
  exportar py df archivo_excel = Ok tt
  \/ exists e, exportar py df archivo_excel = Raise e.
Proof.
  destruct (exportar py df archivo_excel) as [[]|e]; [now left | right; now exists e].
Qed.

(** ** The drivers *)

Section Drivers.
Variable py : Builtins.
Variable fs : world.

Lemma loop_N (archivos : list string) (datos : list dict) :
  fold_left (LeexmlpyN.paso py fs) archivos datos
  = (datos ++ sobrevivientes py fs archivos)%list.
Proof.
  revert datos. induction archivos as [|p archivos IH]; intros datos; simpl.
  - now rewrite app_nil_r.
  - rewrite IH. unfold LeexmlpyN.paso. fold (documento py fs p).
    destruct (documento py fs p); simpl; [now rewrite <- app_assoc | reflexivity].
Qed.

Lemma loop_print (archivos : list string) (datos : list dict) (out : list line) :
  fold_left (Leexmlpy.paso py fs) archivos (datos, out)
  = ((datos ++ sobrevivientes py fs archivos)%list,
     (out ++ flat_map (lineas py fs) archivos)%list).
Proof.
  revert datos out. induction archivos as [|p archivos IH]; intros datos out.
  - simpl. now rewrite !app_nil_r.
  - cbn [fold_left].
    assert (Hstep : Leexmlpy.paso py fs (datos, out) p
                    = ((datos ++ sobrevivientes py fs [p])%list,
                       (out ++ lineas py fs p)%list)).
    { unfold Leexmlpy.paso, lineas, sobrevivientes. cbn [flat_map].
      fold (documento py fs p).
      destruct (documento py fs p) as [comp | e]; [|destruct e];
        cbn [app]; rewrite ?app_nil_r, <- ?app_assoc; reflexivity. }
    rewrite Hstep, IH. unfold sobrevivientes. cbn [flat_map].
    rewrite !app_nil_r, <- !app_assoc. reflexivity.
Qed.

(** The run of [leexmlpyN.py] on a directory. *)
Lemma run_N (carpeta_xml archivo_excel : string) :
  isdir fs carpeta_xml = true ->
  LeexmlpyN.procesar_xml_a_excel py fs carpeta_xml archivo_excel
  = (exported <- exportar py (hoja py fs (listar_xmls_recursivo fs carpeta_xml))
                          archivo_excel ;;
     Ok {| archivo := archivo_excel;
           written := hoja py fs (listar_xmls_recursivo fs carpeta_xml);
           stdout := [];
           returned :=
             Some (List.length
                     (sobrevivientes py fs (listar_xmls_recursivo fs carpeta_xml))) |}).
Proof.
  intros Hd. unfold LeexmlpyN.procesar_xml_a_excel. rewrite Hd. cbn [negb].
  rewrite loop_N. cbn [app]. rewrite ensamblar_hoja. reflexivity.
Qed.

(** The run of [leexmlpy.py] on a directory. *)
Lemma run_print (carpeta_xml archivo_excel : string) :
  isdir fs carpeta_xml = true ->
  Leexmlpy.procesar_xml_a_excel py fs carpeta_xml archivo_excel
  = (exported <- exportar py (hoja py fs (listar_xmls_recursivo fs carpeta_xml))
                          archivo_excel ;;
     Ok {| archivo := archivo_excel;
           written := hoja py fs (listar_xmls_recursivo fs carpeta_xml);
           stdout := impreso py fs carpeta_xml archivo_excel;
           returned := None |}).
Proof.
  intros Hd. unfold Leexmlpy.procesar_xml_a_excel, impreso. rewrite Hd. cbn [negb].
  cbv zeta.
  destruct (listar_xmls_recursivo fs carpeta_xml) as [|p archivos] eqn:E.
  - unfold Leexmlpy._exportar_excel.
    change (hoja py fs []) with (DataFrame_of []).
    now destruct (exportar py (DataFrame_of []) archivo_excel).
  - rewrite loop_print. cbn [app]. rewrite ensamblar_hoja. cbn [bind].
    unfold Leexmlpy._exportar_excel.
    destruct (exportar py (hoja py fs (p :: archivos)) archivo_excel) as [u|e];
      [|reflexivity].
    cbn [bind archivo written stdout]. f_equal. f_equal.
    cbn [app]. rewrite <- !app_assoc. reflexivity.
Qed.

Lemma run_missing (carpeta_xml archivo_excel : string) :
  isdir fs carpeta_xml = false ->
  LeexmlpyN.procesar_xml_a_excel py fs carpeta_xml archivo_excel
  = Raise FileNotFoundError
  /\ Leexmlpy.procesar_xml_a_excel py fs carpeta_xml archivo_excel
     = Raise FileNotFoundError.
Proof.
  intros Hd. unfold LeexmlpyN.procesar_xml_a_excel, Leexmlpy.procesar_xml_a_excel.
  now rewrite Hd.
Qed.

Lemma isdir_cases (path : string) : isdir fs path = true \/ isdir fs path = false.
Proof. destruct (isdir fs path); auto. Qed.

(** A run that returns: the directory exists, the workbook was written,
    and the run is the one described. *)
Lemma run_N_returns (carpeta_xml archivo_excel : string) (r : run) :
  LeexmlpyN.procesar_xml_a_excel py fs carpeta_xml archivo_excel = Ok r ->
  isdir fs carpeta_xml = true
  /\ exportar py (hoja py fs (listar_xmls_recursivo fs carpeta_xml)) archivo_excel
     = Ok tt
  /\ r = {| archivo := archivo_excel;
            written := hoja py fs (listar_xmls_recursivo fs carpeta_xml);
            stdout := [];
            returned :=
              Some (List.length
                      (sobrevivientes py fs (listar_xmls_recursivo fs carpeta_xml))) |}.
Proof.
  intros H. destruct (isdir_cases carpeta_xml) as [Hd | Hd].
  - rewrite (run_N _ _ Hd) in H.
    destruct (exportar py _ archivo_excel) as [[]|e]; [|discriminate].
    cbn [bind] in H. injection H as <-. auto.
  - rewrite (proj1 (run_missing carpeta_xml archivo_excel Hd)) in H. discriminate.
Qed.

Lemma run_print_returns (carpeta_xml archivo_excel : string) (r : run) :
  Leexmlpy.procesar_xml_a_excel py fs carpeta_xml archivo_excel = Ok r ->
  isdir fs carpeta_xml = true
  /\ exportar py (hoja py fs (listar_xmls_recursivo fs carpeta_xml)) archivo_excel
     = Ok tt
  /\ r = {| archivo := archivo_excel;
            written := hoja py fs (listar_xmls_recursivo fs carpeta_xml);
            stdout := impreso py fs carpeta_xml archivo_excel;
            returned := None |}.
Proof.
  intros H. destruct (isdir_cases carpeta_xml) as [Hd | Hd].
  - rewrite (run_print _ _ Hd) in H.
    destruct (exportar py _ archivo_excel) as [[]|e]; [|discriminate].
    cbn [bind] in H. injection H as <-. auto.
  - rewrite (proj2 (run_missing carpeta_xml archivo_excel Hd)) in H. discriminate.
Qed.

(** A run on a directory whose workbook is written. *)
Lemma run_N_ok (carpeta_xml archivo_excel : string) :
  isdir fs carpeta_xml = true ->
  exportar py (hoja py fs (listar_xmls_recursivo fs carpeta_xml)) archivo_excel
  = Ok tt ->
  LeexmlpyN.procesar_xml_a_excel py fs carpeta_xml archivo_excel
  = Ok {| archivo := archivo_excel;
          written := hoja py fs (listar_xmls_recursivo fs carpeta_xml);
          stdout := [];
          returned :=
            Some (List.length
                    (sobrevivientes py fs (listar_xmls_recursivo fs carpeta_xml))) |}.
Proof. intros Hd He. now rewrite (run_N _ _ Hd), He. Qed.

Lemma run_print_ok (carpeta_xml archivo_excel : string) :
  isdir fs carpeta_xml = true ->
  exportar py (hoja py fs (listar_xmls_recursivo fs carpeta_xml)) archivo_excel
  = Ok tt ->
  Leexmlpy.procesar_xml_a_excel py fs carpeta_xml archivo_excel
  = Ok {| archivo := archivo_excel;
          written := hoja py fs (listar_xmls_recursivo fs carpeta_xml);
          stdout := impreso py fs carpeta_xml archivo_excel;
          returned := None |}.
Proof. intros Hd He. now rewrite (run_print _ _ Hd), He. Qed.

End Drivers.

(** The export of the samples: a workbook named [reporte.xlsx] is written
    in the working directory, one named [reporte.csv] is refused. *)
Lemma exportar_xlsx (df : DataFrame) :
  List.length (rows df) <= 3 ->
  List.length (columns df) <= 19 ->
  exportar CPython df "reporte.xlsx" = Ok tt.
Proof.
  intros Hr Hc. rewrite exportar_spec. unfold with_ExcelWriter.
  replace (ExcelWriter CPython "reporte.xlsx") with (Ok tt : result unit)
    by (vm_compute; reflexivity).
  cbn [bind]. unfold to_excel.
  change (write_sheet CPython "reporte.xlsx" (map VStr (columns df) :: rows df))
    with (CPythonRef.write_sheet "reporte.xlsx" (map VStr (columns df) :: rows df)).
  unfold CPythonRef.write_sheet. rewrite length_map.
  replace (2 ^ 20 <? N.of_nat (List.length (rows df)))%N with false
    by (symmetry; apply N.ltb_ge; change (2 ^ 20)%N with 1048576%N; lia).
  replace (2 ^ 14 <? N.of_nat (List.length (columns df)))%N with false
    by (symmetry; apply N.ltb_ge; change (2 ^ 14)%N with 16384%N; lia).
  reflexivity.
Qed.


(** The two runs of the sample directory [/xml]. *)
Lemma run_N_xml :
  LeexmlpyN.procesar_xml_a_excel CPython mundo "/xml" "reporte.xlsx"
  = Ok {| archivo := "reporte.xlsx";
          written := hoja CPython mundo (listar_xmls_recursivo mundo "/xml");
          stdout := [];
          returned :=
            Some (List.length
                    (sobrevivientes CPython mundo
                                    (listar_xmls_recursivo mundo "/xml"))) |}.
Proof.
  apply run_N_ok; [reflexivity|].
  apply exportar_xlsx; vm_compute; lia.
Qed.

Lemma run_print_xml :
  Leexmlpy.procesar_xml_a_excel CPython mundo "/xml" "reporte.xlsx"
  = Ok {| archivo := "reporte.xlsx";
          written := hoja CPython mundo (listar_xmls_recursivo mundo "/xml");
          stdout := impreso CPython mundo "/xml" "reporte.xlsx";
          returned := None |}.
Proof.
  apply run_print_ok; [reflexivity|].
  apply exportar_xlsx; vm_compute; lia.
Qed.









(** C10: every record holds the receiver's name and the currency, yet no
    run writes a column for them: the columns written are none at all or
    the nineteen canonical ones, which do not include these two fields,
    before or after renaming. *)
Theorem receiver_name_and_currency_are_not_exported :
  forall (py : Builtins) (fs : world) (carpeta_xml archivo_excel : string) (r : run),
    LeexmlpyN.procesar_xml_a_excel py fs carpeta_xml archivo_excel = Ok r
    \/ Leexmlpy.procesar_xml_a_excel py fs carpeta_xml archivo_excel = Ok r ->
    ~ In "NOMBRE_RECEPTOR" (columns (written r))
    /\ ~ In "Moneda" (columns (written r))
    /\ (columns (written r) = [] \/ columns (written r) = encabezado)
    /\ ~ In "NOMBRE_RECEPTOR" column_order
    /\ ~ In "Moneda" column_order
    /\ ~ In "NOMBRE_RECEPTOR" encabezado
    /\ ~ In "Moneda" encabezado
    /\ Forall (fun row => List.length row = 19) (rows (written r))
    /\ Forall (fun comp => (exists v, assoc "NOMBRE_RECEPTOR" comp = Some v)
                           /\ (exists v, assoc "Moneda" comp = Some v))
              (sobrevivientes py fs (listar_xmls_recursivo fs carpeta_xml)).
Proof.
  intros py fs carpeta_xml archivo_excel r Hrun.
  assert (Hnot : forall x, x = "NOMBRE_RECEPTOR" \/ x = "Moneda" ->
                           ~ In x column_order /\ ~ In x encabezado).
  { intros x [-> | ->]; split; cbn; intros H;
      repeat (destruct H as [H|H]; [discriminate H|]); exact H. }
  assert (Hw : written r = hoja py fs (listar_xmls_recursivo fs carpeta_xml)).
  { destruct Hrun as [H|H].
    - apply run_N_returns in H. destruct H as (_ & _ & ->). reflexivity.
    - apply run_print_returns in H. destruct H as (_ & _ & ->). reflexivity. }
  assert (Hcols : columns (written r) = [] \/ columns (written r) = encabezado).
  { rewrite Hw. unfold hoja. cbn [columns].
    destruct (sobrevivientes py fs _); auto. }
  assert (Hrows : Forall (fun row => List.length row = 19) (rows (written r))).
  { rewrite Hw. unfold hoja. cbn [rows].
    apply Forall_map, Forall_forall; intros comp _; reflexivity. }
  split; [destruct Hcols as [-> | ->]; [intros [] | apply Hnot; auto]|].
  split; [destruct Hcols as [-> | ->]; [intros [] | apply Hnot; auto]|].
  split; [exact Hcols|].
  split; [apply Hnot; auto|]. split; [apply Hnot; auto|].
  split; [apply Hnot; auto|]. split; [apply Hnot; auto|].
  split; [exact Hrows|].
  eapply Forall_impl; [|apply sobrevivientes_schema].
  intros comp Hk.
  assert (Hin : forall k, In k (keys comp) -> exists v, assoc k comp = Some v).
  { clear. induction comp as [|[k' v'] comp IH]; intros k Hin; [destruct Hin|].
    cbn [assoc]. destruct (String.eqb_spec k' k) as [->|Hne]; [eauto|].
    apply IH. destruct Hin as [H|H]; [contradiction | exact H]. }
  split; apply Hin; rewrite Hk; cbn; tauto.
Qed.

(** In the sample file system the invoice has a receiver name and a
    currency, and the table has the nineteen canonical columns. *)
Lemma receiver_name_and_currency_sample :
  exists r,
    LeexmlpyN.procesar_xml_a_excel CPython mundo "/xml" "reporte.xlsx" = Ok r
    /\ columns (written r) = encabezado
    /\ ~ In "NOMBRE_RECEPTOR" (columns (written r))
    /\ ~ In "Moneda" (columns (written r))
    /\ assoc "NOMBRE_RECEPTOR" (registro CPython factura) = Some (VStr "Receptora")
    /\ assoc "Moneda" (registro CPython factura) = Some (VStr "MXN").
Proof.
  eexists. split; [apply run_N_xml|].
  split; [reflexivity|].
  pose proof (receiver_name_and_currency_are_not_exported
                CPython mundo "/xml" "reporte.xlsx" _ (or_introl run_N_xml))
    as (H1 & H2 & _).
  split; [exact H1|]. split; [exact H2|]. split; reflexivity.
Defined.

(** ** The namespace of a tag *)

Lemma split_head_append (sep : ascii) (a b : string) :
  has_char sep a = false -> split_head sep (a ++ String sep b) = a.
Proof.
  induction a as [|c a IH]; simpl.
  - now rewrite Ascii.eqb_refl.
  - intros H. apply orb_false_elim in H. destruct H as [Hc Ha].
    rewrite Hc, IH by exact Ha. reflexivity.
Qed.

(** X1: [xml_namespace_of_tag] returns the URI of a tag [{URI}LocalName]
    and the empty string for a tag that does not begin with a brace; for
    [{http://www.sat.gob.mx/cfd/3}Comprobante] it returns
    [http://www.sat.gob.mx/cfd/3]. *)
Theorem xml_namespace_of_tag_returns_the_uri :
  (forall uri local,
      has_char "}" uri = false ->
      xml_namespace_of_tag ("{" ++ uri ++ "}" ++ local) = uri)
  /\ (forall tag, startswith tag "{" = false -> xml_namespace_of_tag tag = "")
  /\ xml_namespace_of_tag "{http://www.sat.gob.mx/cfd/3}Comprobante"
     = "http://www.sat.gob.mx/cfd/3"
  /\ xml_namespace_of_tag "Comprobante" = "".
Proof.
  split.
  { intros uri local H. unfold xml_namespace_of_tag.
    change ("{" ++ uri ++ "}" ++ local) with (String "{" (uri ++ String "}" local)).
    replace (startswith (String "{" (uri ++ String "}" local)) "{") with true
      by (unfold startswith; simpl; now destruct (uri ++ String "}" local)).
    now apply split_head_append. }
  split.
  { intros [|c tag] H; [reflexivity|]. unfold xml_namespace_of_tag. now rewrite H. }
  split; reflexivity.
Qed.

(** ** Column letters *)

(** X2: [colnum_to_excel_name] numbers the columns as a spreadsheet does.
    For an index [n >= 0] the loop ends (after at most [n + 1] turns) with
    a non-empty name made of the letters [A] to [Z] only; read as a
    spreadsheet column that name is [n] again, so two different indices
    never get the same name. *)
Theorem colnum_to_excel_name_is_a_numeration :
  forall n : Z,
    (0 <= n)%Z ->
    (forall turns, (Z.to_nat (n + 1) <= turns)%nat ->
                   colnum_loop turns (n + 1) "" = Some (colnum_to_excel_name n))
    /\ colnum_to_excel_name n <> ""
    /\ upper_letters (colnum_to_excel_name n) = true
    /\ excel_name_to_colnum (colnum_to_excel_name n) = n
    /\ (forall m : Z, (0 <= m)%Z ->
                      colnum_to_excel_name m = colnum_to_excel_name n -> m = n).
Proof.
  intros n Hn.
  destruct (colnum_to_excel_name_spec n Hn _ (le_n _)) as (E & U & V & B).
  split; [|split; [|split; [|split]]].
  - intros turns Ht. apply (colnum_to_excel_name_spec n Hn turns Ht).
  - intros Hempty. rewrite Hempty in V. cbn in V. lia.
  - exact U.
  - unfold excel_name_to_colnum. lia.
  - intros m Hm Heq.
    destruct (colnum_to_excel_name_spec m Hm _ (le_n _)) as (_ & _ & Vm & _).
    rewrite Heq in Vm. lia.
Qed.

Lemma colnum_to_excel_name_numeration_sample :
  colnum_to_excel_name 27 = "AB"
  /\ colnum_to_excel_name 27 <> ""
  /\ excel_name_to_colnum (colnum_to_excel_name 27) = 27%Z.
Proof.
  pose proof (colnum_to_excel_name_is_a_numeration 27 ltac:(lia)) as (_ & H1 & _ & H2 & _).
  split; [reflexivity | split; [exact H1 | exact H2]].
Defined.

(** X3: the length of a column name.  The name of an index [n >= 0] has
    [k >= 1] letters exactly when [n] lies between the number of names
    shorter than [k] and the number of names of at most [k] letters: one
    letter up to 25, two letters from 26 to 701.  A negative index gets the
    empty name. *)
Theorem colnum_to_excel_name_length :
  forall n : Z,
    (0 <= n)%Z ->
    (1 <= String.length (colnum_to_excel_name n))%nat
    /\ (names_up_to (String.length (colnum_to_excel_name n) - 1) <= n
        < names_up_to (String.length (colnum_to_excel_name n)))%Z
    /\ ((n < 26)%Z <-> String.length (colnum_to_excel_name n) = 1%nat)
    /\ ((26 <= n < 702)%Z <-> String.length (colnum_to_excel_name n) = 2%nat)
    /\ (forall m : Z, (m < 0)%Z -> colnum_to_excel_name m = "").
Proof.
  intros n Hn.
  destruct (colnum_to_excel_name_spec n Hn _ (le_n _)) as (_ & _ & _ & B).
  set (L := String.length (colnum_to_excel_name n)) in *.
  assert (HL : (1 <= L)%nat).
  { destruct L as [|L]; [cbn [names_up_to] in B; lia | lia]. }
  assert (Hb : (names_up_to (L - 1) <= n < names_up_to L)%Z).
  { destruct L as [|L]; [lia|]. replace (S L - 1)%nat with L by lia.
    cbn [names_up_to] in *. lia. }
  assert (H1 : names_up_to 1 = 26%Z) by reflexivity.
  assert (H2 : names_up_to 2 = 702%Z) by reflexivity.
  split; [exact HL | split; [exact Hb | split; [|split]]].
  - split.
    + intros Hlt. destruct (Nat.eq_dec L 1) as [|Hne]; [assumption|].
      pose proof (names_up_to_mono 1 (L - 1) ltac:(lia)). lia.
    + intros ->. cbn [names_up_to Nat.sub] in Hb. lia.
  - split.
    + intros Hr. destruct (Nat.eq_dec L 2) as [|Hne]; [assumption|].
      destruct (Nat.eq_dec L 1) as [->|Hne1]; [cbn [names_up_to Nat.sub] in Hb; lia|].
      pose proof (names_up_to_mono 2 (L - 1) ltac:(lia)). lia.
    + intros ->. cbn [names_up_to Nat.sub] in Hb. lia.
  - intros m Hm. unfold colnum_to_excel_name. cbv zeta.
    replace (Z.to_nat (m + 1)) with 0%nat by lia. cbn [colnum_loop].
    replace (0 <? m + 1)%Z with false by (symmetry; apply Z.ltb_ge; lia).
    reflexivity.
Qed.

Lemma colnum_to_excel_name_length_sample :
  colnum_to_excel_name 701 = "ZZ"
  /\ colnum_to_excel_name 702 = "AAA"
  /\ (names_up_to 1 <= 701 < names_up_to 2)%Z.
Proof.
  pose proof (colnum_to_excel_name_length 701 ltac:(lia)) as (_ & H & _).
  split; [reflexivity | split; [reflexivity | exact H]].
Defined.

(** ** The invoice number *)

Lemma lstrip_dashes (s : string) :
  exists a, s = a ++ lstrip (Ascii.eqb "-") s
            /\ all_dashes a = true
            /\ begins_with_dash (lstrip (Ascii.eqb "-") s) = false.
Proof.
  induction s as [|c s (a & E & Ha & Hb)].
  - exists "". repeat split.
  - cbn [lstrip]. destruct (Ascii.eqb "-" c) eqn:Hc.
    + exists (String c a). cbn [append]. rewrite <- E.
      unfold all_dashes in *. cbn [list_ascii_of_string forallb]. rewrite Hc, Ha. auto.
    + exists "". cbn [append begins_with_dash]. auto.
Qed.

Lemma rstrip_dashes (s : string) :
  exists b, s = rstrip (Ascii.eqb "-") s ++ b
            /\ all_dashes b = true
            /\ ends_with_dash (rstrip (Ascii.eqb "-") s) = false
            /\ (begins_with_dash s = false ->
                begins_with_dash (rstrip (Ascii.eqb "-") s) = false).
Proof.
  induction s as [|c s (b & E & Hb & He & _)].
  - exists "". repeat split.
  - cbn [rstrip]. destruct (rstrip (Ascii.eqb "-") s) as [|c' r'] eqn:Hr.
    + cbn [append] in E. subst b. destruct (Ascii.eqb "-" c) eqn:Hc.
      * exists (String c s). cbn [append]. unfold all_dashes in *.
        cbn [list_ascii_of_string forallb]. rewrite Hc, Hb. auto.
      * exists s. cbn [append ends_with_dash begins_with_dash]. auto.
    + exists b. split; [cbn [append]; f_equal; exact E|].
      split; [exact Hb|]. split; [exact He|].
      cbn [begins_with_dash]. auto.
Qed.

(** X4: the invoice number never begins or ends with a dash.  Whatever the
    series and the folio are, [N.FACTURA] is what is left of
    [SERIE-FOLIO] once the dashes at its two ends are taken away: nothing
    but dashes is removed, nothing inside is touched, and stripping the
    result again changes nothing. *)
Theorem invoice_number_has_no_edge_dash :
  forall (py : Builtins) (root : Element),
    exists (comp : dict) (nf before after : string),
      extraer py root = Ok comp
      /\ assoc "N.FACTURA" comp = Some (VStr nf)
      /\ no_edge_dash nf
      /\ root_attr root "Serie" "" ++ "-" ++ root_attr root "Folio" ""
         = before ++ nf ++ after
      /\ all_dashes before = true
      /\ all_dashes after = true
      /\ strip (Ascii.eqb "-") nf = nf.
Proof.
  intros py root.
  set (s := root_attr root "Serie" "" ++ "-" ++ root_attr root "Folio" "").
  destruct (lstrip_dashes s) as (a & Ea & Ha & Hb).
  destruct (rstrip_dashes (lstrip (Ascii.eqb "-") s)) as (b & Eb & Hdb & He & Hbeg).
  exists (registro py root), (strip (Ascii.eqb "-") s), a, b.
  split; [apply extraer_registro|].
  split; [reflexivity|].
  assert (Hno : no_edge_dash (strip (Ascii.eqb "-") s)).
  { split; [apply Hbeg, Hb | exact He]. }
  split; [exact Hno|].
  split; [unfold strip; rewrite <- Eb; exact Ea|].
  split; [exact Ha|]. split; [exact Hdb|].
  unfold strip at 1.
  rewrite (begins_with_dash_lstrip _ (proj1 Hno)).
  apply ends_with_dash_rstrip, (proj2 Hno).
Qed.

(** ** The types of the fields *)

Lemma to_float_value_int_default (py : Builtins) (val : option string) :
  is_float_or_int_zero (to_float_value py val (VInt 0)) = true.
Proof.
  unfold to_float_value.
  destruct (to_float_cases py val (VInt 0)) as [-> | (s & f & _ & _ & _ & ->)];
    reflexivity.
Qed.

Lemma to_float_value_float_default (py : Builtins) (val : option string) (d : float) :
  is_float (to_float_value py val (VFloat d)) = true.
Proof.
  unfold to_float_value.
  destruct (to_float_cases py val (VFloat d)) as [-> | (s & f & _ & _ & _ & ->)];
    reflexivity.
Qed.

Lemma str_or_nonempty (x y : string) : y <> "" -> str_or x y <> "".
Proof. intros Hy. destruct x; [exact Hy | discriminate]. Qed.

(** X5: the type of every field of a record.  The sixteen text fields
    always hold a string; the four tax aggregates and [P-Monto] always hold
    a [float]; [SUBTOTAL] and [T.FACTURA] hold a [float], or the [int] 0
    when the attribute is absent, empty or not a number.  No field is ever
    [None], and the exchange rate is never the empty string. *)
Theorem record_fields_are_typed :
  forall (py : Builtins) (root : Element),
    exists comp : dict,
      extraer py root = Ok comp
      /\ (forall field, In field text_fields ->
                        exists s, assoc field comp = Some (VStr s))
      /\ (forall field, In field float_fields ->
                        exists f, assoc field comp = Some (VFloat f))
      /\ (forall field, In field amount_fields ->
                        exists v, assoc field comp = Some v
                                  /\ is_float_or_int_zero v = true)
      /\ (forall field v, assoc field comp = Some v -> v <> VNone)
      /\ assoc "TipoCambio" comp <> Some (VStr "").
Proof.
  intros py root. exists (registro py root).
  split; [apply extraer_registro|].
  pose proof (to_float_value_int_default py (get root "SubTotal")) as Hsub.
  pose proof (to_float_value_int_default py (get root "Total")) as Htot.
  assert (Hp : is_float (primer_pago py root) = true).
  { unfold primer_pago.
    destruct (find root URI_PAGO20 "Pagos") as [pagos|]; [|reflexivity].
    destruct (find pagos URI_PAGO20 "Pago") as [p|]; [|reflexivity].
    apply to_float_value_float_default. }
  split; [|split; [|split; [|split]]].
  - intros field Hin. unfold text_fields in Hin. cbn [In] in Hin.
    repeat (destruct Hin as [<- | Hin]; [eexists; reflexivity|]). destruct Hin.
  - intros field Hin. unfold float_fields in Hin. cbn [In] in Hin.
    repeat (destruct Hin as [<- | Hin];
            [first [eexists; reflexivity
                   | cbn; destruct (primer_pago py root); try discriminate;
                     eexists; reflexivity]|]).
    destruct Hin.
  - intros field Hin. unfold amount_fields in Hin. cbn [In] in Hin.
    destruct Hin as [<- | [<- | []]]; eexists; (split; [reflexivity | assumption]).
  - intros field v Hv. unfold registro in Hv. cbn [assoc] in Hv.
    repeat (match type of Hv with
            | (if ?b then _ else _) = _ => destruct b
            end;
            [injection Hv as <-;
             first [discriminate
                   | intros H;
                     first [rewrite H in Hsub | rewrite H in Htot | rewrite H in Hp];
                     discriminate]|]).
    discriminate.
  - cbn. intros H. injection H as H. revert H. apply str_or_nonempty. discriminate.
Qed.

(** ** The first element in document order *)

Lemma filter_none {A : Type} (f : A -> bool) (l : list A) :
  forallb (fun x => negb (f x)) l = true -> filter f l = [].
Proof.
  induction l as [|x l IH]; [reflexivity|]. cbn [forallb filter].
  intros H. apply andb_prop in H as [Hx Hl].
  destruct (f x); [discriminate | auto].
Qed.

(** [find] looks no further than the first child whose tree has a match. *)
Lemma find_in_first (uri local t : string) (a : list (string * string))
      (pre post : list Element) (c x : Element) :
  none_matches uri local pre = true ->
  first_match uri local c = Some x ->
  find (Elem t a (pre ++ c :: post)) uri local = Some x.
Proof.
  unfold none_matches, first_match, find, findall. intros Hpre Hc.
  cbn [children]. rewrite flat_map_app, filter_app, (filter_none _ _ Hpre).
  cbn [flat_map app]. rewrite filter_app.
  destruct (filter _ (iter c)) as [|y ys]; [discriminate|].
  exact Hc.
Qed.

(** X6: the four tax aggregates are read from one container only, the
    first [Impuestos] element of the document in document order, at
    whatever depth it lies.  What follows the child of the root that holds
    it is never read: when the taxes of a concept come before the taxes of
    the whole document, the aggregates are those of that concept. *)
Theorem taxes_come_from_the_first_container :
  forall (py : Builtins) (t : string) (a : list (string * string))
         (pre post : list Element) (c impuestos : Element),
    none_matches (cfdi_uri (Elem t a [])) "Impuestos" pre = true ->
    first_match (cfdi_uri (Elem t a [])) "Impuestos" c = Some impuestos ->
    exists comp : dict,
      extraer py (Elem t a (pre ++ c :: post)) = Ok comp
      /\ assoc "IVA" comp
         = Some (VFloat (suma py "002"
                           (findall impuestos (cfdi_uri (Elem t a [])) "Traslado")))
      /\ assoc "IEPS" comp
         = Some (VFloat (suma py "003"
                           (findall impuestos (cfdi_uri (Elem t a [])) "Traslado")))
      /\ assoc "RISR" comp
         = Some (VFloat (suma py "001"
                           (findall impuestos (cfdi_uri (Elem t a [])) "Retencion")))
      /\ assoc "RIVA" comp
         = Some (VFloat (suma py "002"
                           (findall impuestos (cfdi_uri (Elem t a [])) "Retencion"))).
Proof.
  intros py t a pre post c impuestos Hpre Hc.
  set (root := Elem t a (pre ++ c :: post)).
  exists (registro py root). split; [apply extraer_registro|].
  assert (Huri : cfdi_uri root = cfdi_uri (Elem t a [])) by reflexivity.
  assert (Hcont : contenedor_impuestos root = Some impuestos).
  { unfold contenedor_impuestos. rewrite Huri. now apply find_in_first. }
  assert (Hag : forall kind code,
             agregado py root kind code
             = suma py code (findall impuestos (cfdi_uri (Elem t a [])) kind)).
  { intros kind code. unfold agregado. now rewrite Hcont, Huri. }
  unfold registro. cbn [assoc String.eqb Ascii.eqb Bool.eqb].
  rewrite !Hag. repeat split; reflexivity.
Qed.

Lemma taxes_come_from_the_first_container_sample :
  exists comp : dict,
    extraer CPython factura_con_conceptos = Ok comp
    /\ assoc "IVA" comp = Some (VFloat 16).
Proof.
  destruct (taxes_come_from_the_first_container CPython
              (qname CFD4 "Comprobante")
              [("Fecha", "2024-03-15T10:00:00"); ("SubTotal", "300.00");
               ("Total", "348.00")]
              [Elem (qname CFD4 "Emisor") [("Rfc", "AAA010101AAA")] []]
              [Elem (qname CFD4 "Impuestos") [("TotalImpuestosTrasladados", "48.00")]
                 [Elem (qname CFD4 "Traslados") [] [traslado "002" "48.00"]]]
              (Elem (qname CFD4 "Conceptos") []
                 [concepto "100.00" "16.00"; concepto "200.00" "32.00"])
              (Elem (qname CFD4 "Impuestos") []
                 [Elem (qname CFD4 "Traslados") [] [traslado "002" "16.00"]])
              eq_refl eq_refl) as (comp & E & Hiva & _).
  exists comp. split; [exact E|]. rewrite Hiva. reflexivity.
Defined.

(** X7: of the payments of a payments complement only the first one
    counts.  When the first [Pagos] element holds the payments
    [pago :: otros], [P-Monto] is the [Monto] of [pago] as [to_float] reads
    it ([0.0] when it is absent or not a number), a [float] in every case;
    the amounts of [otros] are not added. *)
Theorem only_the_first_payment_counts :
  forall (py : Builtins) (root pagos pago : Element) (otros : list Element),
    find root URI_PAGO20 "Pagos" = Some pagos ->
    findall pagos URI_PAGO20 "Pago" = pago :: otros ->
    exists (comp : dict) (monto : float),
      extraer py root = Ok comp
      /\ assoc "P-Monto" comp = Some (VFloat monto)
      /\ to_float py (get pago "Monto") (VFloat 0) = Ok (VFloat monto).
Proof.
  intros py root pagos pago otros Hpagos Hpago.
  assert (Hp : primer_pago py root = to_float_value py (get pago "Monto") (VFloat 0)).
  { unfold primer_pago. rewrite Hpagos. unfold find. now rewrite Hpago. }
  pose proof (to_float_value_float_default py (get pago "Monto") 0%float) as Hf.
  pose proof (to_float_value_ok py (get pago "Monto") (VFloat 0)) as Hok.
  destruct (to_float_value py (get pago "Monto") (VFloat 0)) as [| |z|monto] eqn:Ev;
    try discriminate.
  exists (registro py root), monto.
  split; [apply extraer_registro|].
  split; [|exact Hok].
  unfold registro. cbn [assoc String.eqb Ascii.eqb Bool.eqb]. now rewrite Hp.
Qed.

Lemma only_the_first_payment_counts_sample :
  exists comp : dict,
    extraer CPython recibo_de_pagos = Ok comp
    /\ assoc "P-Monto" comp = Some (VFloat 100.5).
Proof.
  destruct (only_the_first_payment_counts CPython recibo_de_pagos
              (Elem (qname URI_PAGO20 "Pagos") [("Version", "2.0")]
                 [Elem (qname URI_PAGO20 "Totales") [("MontoTotalPagos", "150.75")] [];
                  pago_de "100.50"; pago_de "50.25"])
              (pago_de "100.50") [pago_de "50.25"] eq_refl eq_refl)
    as (comp & monto & E & Hm & Hv).
  exists comp. split; [exact E|]. rewrite Hm.
  vm_compute in Hv. injection Hv as <-. reflexivity.
Defined.

(** ** Every file is accounted for *)






(** ** The assembly on any records *)

Lemma forallb_filter {A : Type} (f : A -> bool) (l : list A) :
  forallb f (filter f l) = true.
Proof.
  induction l as [|x l IH]; [reflexivity|]. cbn [filter].
  destruct (f x) eqn:Hx; [cbn [forallb]; now rewrite Hx | exact IH].
Qed.

(** X9: the assembly of the sheet never raises, whatever the records are.
    The columns asked of the frame are first restricted to those it has, so
    selecting them cannot fail with [KeyError]; the sheet has one row per
    record, every row has one cell per column, and the columns of a
    non-empty frame are canonical columns under their display names. *)
Theorem assembly_never_raises :
  forall datos : list dict,
    exists df : DataFrame,
      ensamblar datos = Ok df
      /\ List.length (rows df) = List.length datos
      /\ Forall (fun row => List.length row = List.length (columns df)) (rows df)
      /\ (empty (DataFrame_of datos) = false ->
          columns df
          = map display (filter (contains (union_keys datos)) column_order)
          /\ forall c, In c (columns df) -> In c encabezado).
Proof.
  intros datos. unfold ensamblar.
  destruct (empty (DataFrame_of datos)) eqn:He; cbn [negb].
  - eexists. split; [reflexivity|]. unfold rename, DataFrame_of. cbn [rows columns].
    rewrite !length_map. split; [reflexivity|]. split; [|discriminate].
    apply Forall_forall. intros row Hin. apply in_map_iff in Hin as (d & <- & _).
    now rewrite length_map.
  - unfold getitem. cbn [DataFrame_of columns rows].
    rewrite forallb_filter. cbn [bind]. eexists. split; [reflexivity|].
    unfold rename. cbn [rows columns]. rewrite !length_map.
    split; [reflexivity|]. split.
    + apply Forall_forall. intros row Hin.
      apply in_map_iff in Hin as (row0 & <- & _). now rewrite length_map.
    + intros _. split; [reflexivity|].
      intros c Hin. apply in_map_iff in Hin as (c0 & <- & Hc0).
      apply filter_In in Hc0 as [Hc0 _].
      unfold encabezado. apply in_map_iff. exists c0. split; [reflexivity | exact Hc0].
Qed.

(** ** Discovery in a well-formed listing *)

Lemma has_char_app (c : ascii) (a b : string) :
  has_char c (a ++ b) = has_char c a || has_char c b.
Proof.
  induction a as [|x a IH]; [reflexivity|]. cbn [append has_char].
  now rewrite IH, orb_assoc.
Qed.

Lemma valid_name_inv (name : string) :
  valid_name name = true ->
  name <> "" /\ has_char "/" name = false /\ startswith name "/" = false.
Proof.
  unfold valid_name. intros H. apply andb_prop in H as [Hne Hsl].
  apply negb_true_iff in Hne, Hsl.
  split; [intros ->; discriminate|]. split; [exact Hsl|].
  destruct name as [|c r]; [reflexivity|].
  cbn [has_char] in Hsl. apply orb_false_elim in Hsl as [Hc _].
  unfold startswith. cbn [String.prefix].
  destruct (Ascii.ascii_dec "/" c) as [<-|Hne']; [discriminate | reflexivity].
Qed.

Lemma path_join_valid (top name : string) :
  valid_name name = true -> path_join top name = with_sep top ++ name.
Proof.
  intros H. destruct (valid_name_inv name H) as (_ & _ & Hs).
  unfold path_join, with_sep. rewrite Hs.
  destruct (String.eqb top "" || endswith top "/"); [reflexivity|].
  now rewrite append_assoc.
Qed.

Lemma ends_with_slash (a d stem : string) :
  d <> "" -> a ++ d = stem ++ "/" -> has_char "/" d = true.
Proof.
  intros Hd. revert stem. induction a as [|c a IH]; intros stem E.
  - cbn [append] in E. subst d. rewrite has_char_app. cbn. apply orb_true_r.
  - destruct stem as [|c' stem].
    + cbn [append] in E. injection E as _ E.
      destruct a; [cbn in E; contradiction | discriminate].
    + cbn [append] in E. injection E as _ E. now apply (IH stem).
Qed.

Lemma with_sep_below (top d : string) :
  valid_name d = true -> with_sep (with_sep top ++ d) = with_sep top ++ d ++ "/".
Proof.
  intros H. destruct (valid_name_inv d H) as (Hne & Hsl & _).
  unfold with_sep at 1.
  assert (H1 : String.eqb (with_sep top ++ d) "" = false).
  { apply String.eqb_neq. intros E.
    destruct (with_sep top); [cbn in E; contradiction | discriminate]. }
  assert (H2 : endswith (with_sep top ++ d) "/" = false).
  { destruct (endswith (with_sep top ++ d) "/") eqn:E; [|reflexivity].
    apply endswith_spec in E as [stem E].
    rewrite (ends_with_slash _ _ _ Hne E) in Hsl. discriminate. }
  rewrite H1, H2. cbn [orb]. apply append_assoc.
Qed.

Lemma map_flat_map {A B C : Type} (f : B -> C) (g : A -> list B) (l : list A) :
  map f (flat_map g l) = flat_map (fun x => map f (g x)) l.
Proof.
  induction l as [|x l IH]; [reflexivity|]. cbn [flat_map].
  now rewrite map_app, IH.
Qed.

Lemma flat_map_perm {A B : Type} (f g : A -> list B) (l : list A) :
  Forall (fun x => Permutation (f x) (g x)) l ->
  Permutation (flat_map f l) (flat_map g l).
Proof.
  induction 1 as [|x l Hx _ IH]; [constructor|].
  cbn [flat_map]. now apply Permutation_app.
Qed.

Lemma well_formed_node_dir (d : string) (sub : list node) :
  well_formed_node (Dir d sub) = true -> valid_name d = true /\ well_formed sub = true.
Proof.
  cbn [well_formed_node]. unfold well_formed. intros H.
  apply andb_prop in H as [H H3]. apply andb_prop in H as [H1 H2].
  now rewrite H1, H2, H3.
Qed.

Lemma well_formed_forall (entries : list node) :
  well_formed entries = true ->
  distinct (map node_name entries) = true
  /\ Forall (fun n => well_formed_node n = true) entries.
Proof.
  unfold well_formed. intros H. apply andb_prop in H as [H1 H2].
  split; [exact H1|]. apply Forall_forall. now apply forallb_forall.
Qed.

(** The XML paths below [top] are the relative paths put after [top] and
    its separator. *)
Lemma paths_node_rel (n : node) :
  well_formed_node n = true ->
  forall top,
    Permutation (paths_node top n) (map (append (with_sep top)) (rel_paths_node n)).
Proof.
  induction n as [f | d sub IH] using node_ind_nested; intros Hwf top.
  - cbn [paths_node rel_paths_node]. cbn [well_formed_node] in Hwf.
    destruct (is_xml f); [|constructor].
    cbn [map]. now rewrite path_join_valid.
  - destruct (well_formed_node_dir d sub Hwf) as [Hd Hsub].
    destruct (well_formed_forall sub Hsub) as [_ Hall].
    cbn [paths_node rel_paths_node].
    rewrite xml_paths_by_entry.
    rewrite map_map, map_flat_map.
    apply flat_map_perm.
    rewrite Forall_forall in IH, Hall. apply Forall_forall. intros n Hin.
    rewrite (IH n Hin (Hall n Hin) (path_join top d)).
    rewrite path_join_valid, with_sep_below by exact Hd.
    erewrite map_ext; [reflexivity|].
    intros r. cbv beta. now rewrite !append_assoc.
Qed.

Lemma listing_rel (entries : list node) (top : string) :
  well_formed entries = true ->
  Permutation (xml_paths (walk top entries))
              (map (append (with_sep top)) (rel_paths entries)).
Proof.
  intros Hwf. destruct (well_formed_forall entries Hwf) as [_ Hall].
  rewrite xml_paths_by_entry. unfold rel_paths. rewrite map_flat_map.
  apply flat_map_perm. rewrite Forall_forall in *. intros n Hin.
  now apply paths_node_rel, Hall.
Qed.

Lemma split_head_all (sep : ascii) (s : string) :
  has_char sep s = false -> split_head sep s = s.
Proof.
  induction s as [|c s IH]; [reflexivity|]. cbn [has_char split_head].
  intros H. apply orb_false_elim in H as [Hc Hs].
  rewrite Hc. now rewrite IH.
Qed.

Lemma append_inj (a x y : string) : a ++ x = a ++ y -> x = y.
Proof.
  induction a as [|c a IH]; [auto|]. cbn [append]. intros E.
  injection E as E. auto.
Qed.

Lemma nodup_map_append (a : string) (l : list string) :
  NoDup l -> NoDup (map (append a) l).
Proof.
  induction 1 as [|x l Hx _ IH]; [constructor|].
  cbn [map]. constructor; [|exact IH].
  intros Hin. apply in_map_iff in Hin as (y & E & Hy).
  apply append_inj in E. now subst y.
Qed.

Lemma distinct_cons (x : string) (l : list string) :
  distinct (x :: l) = true -> ~ In x l /\ distinct l = true.
Proof.
  cbn [distinct]. intros H. apply andb_prop in H as [Hx Hl].
  split; [|exact Hl]. intros Hin. apply negb_true_iff in Hx.
  unfold contains in Hx.
  assert (Ht : existsb (String.eqb x) l = true).
  { apply existsb_exists. exists x. split; [exact Hin | apply String.eqb_refl]. }
  congruence.
Qed.

(** The relative paths found in the entries of one directory differ in
    their first component. *)
Lemma rel_paths_nodup_entries (entries : list node) :
  Forall (fun n => NoDup (rel_paths_node n)
                   /\ forall r, In r (rel_paths_node n) ->
                                split_head "/" r = node_name n) entries ->
  distinct (map node_name entries) = true ->
  NoDup (flat_map rel_paths_node entries).
Proof.
  induction 1 as [|n entries [Hn Hhead] Hrest IH]; intros Hd; [constructor|].
  cbn [map] in Hd. apply distinct_cons in Hd as [Hnotin Hd].
  cbn [flat_map]. apply NoDup_app; [exact Hn | exact (IH Hd) |].
  intros r Hr Hr'. apply Hnotin.
  apply in_flat_map in Hr' as (n' & Hn' & Hr').
  rewrite Forall_forall in Hrest. destruct (Hrest n' Hn') as [_ Hhead'].
  rewrite <- (Hhead r Hr), (Hhead' r Hr').
  apply in_map_iff. now exists n'.
Qed.

Lemma rel_paths_node_nodup (n : node) :
  well_formed_node n = true ->
  NoDup (rel_paths_node n)
  /\ forall r, In r (rel_paths_node n) -> split_head "/" r = node_name n.
Proof.
  induction n as [f | d sub IH] using node_ind_nested; intros Hwf.
  - cbn [well_formed_node] in Hwf. destruct (valid_name_inv f Hwf) as (_ & Hsl & _).
    cbn [rel_paths_node node_name]. destruct (is_xml f).
    + split; [repeat constructor; intros []|].
      intros r [<- | []]. now apply split_head_all.
    + split; [constructor | intros r []].
  - destruct (well_formed_node_dir d sub Hwf) as [Hd Hsub].
    destruct (well_formed_forall sub Hsub) as [Hdis Hall].
    destruct (valid_name_inv d Hd) as (_ & Hsl & _).
    cbn [rel_paths_node node_name]. split.
    + change (fun r : string => d ++ "/" ++ r) with (fun r : string => d ++ String "/" r).
      assert (Hnd : NoDup (flat_map rel_paths_node sub)).
      { apply rel_paths_nodup_entries; [|exact Hdis].
        rewrite Forall_forall in *. intros n Hin. now apply IH, Hall. }
      induction Hnd as [|x l Hx _ IHl]; [constructor|].
      cbn [map]. constructor; [|exact IHl].
      intros Hin. apply in_map_iff in Hin as (y & E & Hy).
      apply append_inj in E. injection E as E. now subst y.
    + intros r Hr. apply in_map_iff in Hr as (r0 & <- & _).
      now apply split_head_append.
Qed.

Lemma rel_paths_nodup (entries : list node) :
  well_formed entries = true -> NoDup (rel_paths entries).
Proof.
  intros Hwf. destruct (well_formed_forall entries Hwf) as [Hdis Hall].
  apply rel_paths_nodup_entries; [|exact Hdis].
  rewrite Forall_forall in *. intros n Hin. now apply rel_paths_node_nodup, Hall.
Qed.

Lemma prefix_append (a b : string) : String.prefix a (a ++ b) = true.
Proof.
  induction a as [|c a IH]; [now destruct b|]. cbn [append String.prefix].
  destruct (Ascii.ascii_dec c c); [exact IH | contradiction].
Qed.

Lemma with_sep_prefix (top : string) : exists sep, with_sep top = top ++ sep.
Proof.
  unfold with_sep. destruct (String.eqb top "" || endswith top "/").
  - exists "". now rewrite append_empty.
  - now exists "/".
Qed.

Lemma rel_paths_nonempty (entries : list node) :
  well_formed entries = true -> forall r, In r (rel_paths entries) -> r <> "".
Proof.
  intros Hwf r Hr. destruct (well_formed_forall entries Hwf) as [_ Hall].
  apply in_flat_map in Hr as (n & Hn & Hr).
  rewrite Forall_forall in Hall. specialize (Hall n Hn).
  destruct n as [f | d sub].
  - cbn [rel_paths_node] in Hr. cbn [well_formed_node] in Hall.
    destruct (is_xml f); [|destruct Hr]. destruct Hr as [<- | []].
    apply (valid_name_inv f Hall).
  - destruct (well_formed_node_dir d sub Hall) as [Hd _].
    cbn [rel_paths_node] in Hr. apply in_map_iff in Hr as (r0 & <- & _).
    destruct (valid_name_inv d Hd) as (Hne & _).
    destruct d; [contradiction | discriminate].
Qed.

(** X10: every discovered path lies below the root.  In a listing whose
    names are not empty and hold no [/], and where no two entries of a
    directory share a name, each path returned is the root path, the
    separator unless the root already ends with one, and the non-empty
    path of an XML file relative to the root; so it begins with the root
    path and is never the root itself. *)
Theorem discovered_paths_lie_below_the_root :
  forall (fs : world) (carpeta : string) (entries : list node),
    scan fs carpeta = Directory entries ->
    well_formed entries = true ->
    Permutation (listar_xmls_recursivo fs carpeta)
                (map (append (with_sep carpeta)) (rel_paths entries))
    /\ forall path,
         In path (listar_xmls_recursivo fs carpeta) ->
         startswith path carpeta = true
         /\ path <> carpeta
         /\ exists rel, In rel (rel_paths entries)
                        /\ rel <> ""
                        /\ path = with_sep carpeta ++ rel.
Proof.
  intros fs carpeta entries Hscan Hwf.
  assert (Hperm : Permutation (listar_xmls_recursivo fs carpeta)
                    (map (append (with_sep carpeta)) (rel_paths entries))).
  { rewrite listar_sorted_xml_paths. unfold os_walk. rewrite Hscan.
    rewrite sorted_perm. now apply listing_rel. }
  split; [exact Hperm|].
  intros path Hin.
  apply (Permutation_in _ Hperm) in Hin.
  apply in_map_iff in Hin as (rel & <- & Hrel).
  pose proof (rel_paths_nonempty entries Hwf rel Hrel) as Hne.
  destruct (with_sep_prefix carpeta) as [sep Hsep].
  split; [|split].
  - rewrite Hsep, append_assoc. apply prefix_append.
  - rewrite Hsep, append_assoc. intros E.
    rewrite <- (append_empty carpeta) in E at 2. apply append_inj in E.
    destruct sep; [cbn in E; contradiction | discriminate].
  - exists rel. auto.
Qed.

Lemma discovered_paths_lie_below_the_root_sample :
  Permutation (listar_xmls_recursivo mundo "/xml")
              ["/xml/b.xml"; "/xml/sub/roto.XML"; "/xml/sub/a.Xml"]
  /\ rel_paths [File "b.xml"; File "notas.txt";
                Dir "sub" [File "roto.XML"; File "a.Xml"]]
     = ["b.xml"; "sub/roto.XML"; "sub/a.Xml"].
Proof.
  split; [|reflexivity].
  exact (proj1 (discovered_paths_lie_below_the_root mundo "/xml" _ eq_refl eq_refl)).
Defined.

(** X11: no file is listed twice.  In such a listing the discovered paths
    are pairwise different, and there are as many of them as there are
    files with the extension in the tree. *)
Theorem discovered_paths_are_distinct :
  forall (fs : world) (carpeta : string) (entries : list node),
    scan fs carpeta = Directory entries ->
    well_formed entries = true ->
    NoDup (listar_xmls_recursivo fs carpeta)
    /\ List.length (listar_xmls_recursivo fs carpeta) = List.length (rel_paths entries).
Proof.
  intros fs carpeta entries Hscan Hwf.
  assert (Hperm : Permutation (listar_xmls_recursivo fs carpeta)
                    (map (append (with_sep carpeta)) (rel_paths entries))).
  { rewrite listar_sorted_xml_paths. unfold os_walk. rewrite Hscan.
    rewrite sorted_perm. now apply listing_rel. }
  split.
  - apply (Permutation_NoDup (Permutation_sym Hperm)).
    apply nodup_map_append, rel_paths_nodup, Hwf.
  - rewrite (Permutation_length Hperm). apply length_map.
Qed.

Lemma discovered_paths_are_distinct_sample :
  NoDup (listar_xmls_recursivo mundo "/xml")
  /\ List.length (listar_xmls_recursivo mundo "/xml") = 3.
Proof.
  exact (discovered_paths_are_distinct mundo "/xml" _ eq_refl eq_refl).
Defined.

(** ** Column widths *)

Lemma distinct_nodup (l : list string) : distinct l = true -> NoDup l.
Proof.
  induction l as [|x l IH]; intros H; [constructor|].
  apply distinct_cons in H as [Hx Hl]. constructor; auto.
Qed.

Lemma written_hoja (py : Builtins) (fs : world) (carpeta_xml archivo_excel : string)
      (r : run) :
  LeexmlpyN.procesar_xml_a_excel py fs carpeta_xml archivo_excel = Ok r
  \/ Leexmlpy.procesar_xml_a_excel py fs carpeta_xml archivo_excel = Ok r ->
  written r = hoja py fs (listar_xmls_recursivo fs carpeta_xml).
Proof.
  intros [H | H].
  - apply run_N_returns in H. destruct H as (_ & _ & ->). reflexivity.
  - apply run_print_returns in H. destruct H as (_ & _ & ->). reflexivity.
Qed.

(** X12: the widths of the columns of the sheet.  On the frame of a run
    the loop never raises: it gives one width to each column, under the
    letters of its position ([A] to [S] for the nineteen columns), which
    are pairwise different, so no width overwrites another.  The width of
    a column is two more than the longest of its header and the texts of
    its cells, and the header plus two when the texts cannot be had. *)
Theorem column_widths_fit_the_cells :
  forall (astype_str : list pyval -> result (pyval -> string))
         (py : Builtins) (fs : world) (paths : list string),
    exists dims : list (string * nat),
      column_widths astype_str (hoja py fs paths) = Ok dims
      /\ NoDup (columns (hoja py fs paths))
      /\ map fst dims
         = match sobrevivientes py fs paths with
           | [] => []
           | _ :: _ => ["A"; "B"; "C"; "D"; "E"; "F"; "G"; "H"; "I"; "J"; "K"; "L";
                        "M"; "N"; "O"; "P"; "Q"; "R"; "S"]
           end
      /\ NoDup (map fst dims)
      /\ map snd dims
         = map (width_of astype_str (hoja py fs paths)) (columns (hoja py fs paths))
      /\ (forall col w,
             In (col, w) (combine (columns (hoja py fs paths)) (map snd dims)) ->
             len col + 2 <= w
             /\ (forall str v,
                    astype_str (column (hoja py fs paths) col) = Ok str ->
                    In v (column (hoja py fs paths) col) ->
                    len (str v) + 2 <= w)
             /\ (forall e, astype_str (column (hoja py fs paths) col) = Raise e ->
                           w = len col + 2))
      /\ (forall carpeta_xml archivo_excel r,
             LeexmlpyN.procesar_xml_a_excel py fs carpeta_xml archivo_excel = Ok r
             \/ Leexmlpy.procesar_xml_a_excel py fs carpeta_xml archivo_excel = Ok r ->
             written r = hoja py fs (listar_xmls_recursivo fs carpeta_xml)).
Proof.
  intros astype_str py fs paths.
  destruct (column_widths_ok astype_str (hoja py fs paths))
    as (dims & E & K & ND & W & B & S19).
  exists dims. split; [exact E|].
  assert (Hcols : NoDup (columns (hoja py fs paths))).
  { unfold hoja. cbn [columns].
    destruct (sobrevivientes py fs paths); [constructor|].
    apply distinct_nodup. reflexivity. }
  split; [exact Hcols|]. split.
  { unfold hoja in K, S19. cbn [columns] in K, S19.
    destruct (sobrevivientes py fs paths); [exact K | exact (S19 eq_refl)]. }
  split; [exact ND|]. split; [exact W|]. split.
  - intros col w Hin. destruct (B col w Hin) as (B1 & B2 & _ & B4).
    split; [exact B1|]. split; [|exact B4].
    intros str v Hs Hv. apply (B2 str v); [|exact Hs|exact Hv].
    unfold hoja in *. cbn [columns rows] in *. unfold empty. cbn [columns rows].
    destruct (sobrevivientes py fs paths); [destruct Hin | reflexivity].
  - intros carpeta_xml archivo_excel r. apply written_hoja.
Qed.

(** ** Documents that read the same *)

Lemma Element_ind_nested (P : Element -> Prop) :
  (forall t a cs, Forall P cs -> P (Elem t a cs)) -> forall e, P e.
Proof.
  intros H. fix IH 1. intros [t a cs]. apply H.
  induction cs as [|c cs IHcs]; constructor; [apply IH | exact IHcs].
Qed.

Lemma iter_self (e : Element) : In e (iter e).
Proof. destruct e. now left. Qed.

Lemma iter_tl (e : Element) : flat_map iter (children e) = tl (iter e).
Proof. now destruct e. Qed.

Lemma iter_in_trans (r : Element) :
  forall e x, In e (iter r) -> In x (iter e) -> In x (iter r).
Proof.
  induction r as [t a cs IH] using Element_ind_nested. intros e x He Hx.
  cbn [iter] in He. destruct He as [<- | He]; [exact Hx|].
  cbn [iter]. right. apply in_flat_map in He as (c & Hc & He).
  apply in_flat_map. exists c. split; [exact Hc|].
  rewrite Forall_forall in IH. exact (IH c Hc e x He Hx).
Qed.

Lemma iter_transform (ft : string -> string)
      (fa : list (string * string) -> list (string * string)) (e : Element) :
  iter (transform ft fa e) = map (transform ft fa) (iter e).
Proof.
  induction e as [t a cs IH] using Element_ind_nested.
  cbn [transform iter map]. f_equal.
  rewrite map_flat_map, flat_map_concat_map, map_map, <- flat_map_concat_map.
  induction IH as [|c cs Hc _ IHcs]; [reflexivity|].
  cbn [flat_map]. now rewrite Hc, IHcs.
Qed.

Lemma filter_map_comm {A B : Type} (p : B -> bool) (f : A -> B) (l : list A) :
  filter p (map f l) = map f (filter (fun x => p (f x)) l).
Proof.
  induction l as [|x l IH]; [reflexivity|]. cbn [map filter].
  destruct (p (f x)); cbn [map]; now rewrite IH.
Qed.

Lemma attr_reads (e : Element) (key default : string) :
  str_or (get_default e key default) default
  = match attr e key with Some v => v | None => default end.
Proof.
  unfold get_default, attr. destruct (get e key) as [[|c v]|]; try reflexivity.
  now destruct default.
Qed.

Lemma attr_to_float (py : Builtins) (e : Element) (key : string) (default : pyval) :
  to_float py (get e key) default = to_float py (attr e key) default.
Proof. unfold attr. now destruct (get e key) as [[|c v]|]. Qed.

Lemma attr_amount (py : Builtins) (e : Element) (key : string) :
  amount py (get e key) = amount py (attr e key).
Proof. unfold attr. now destruct (get e key) as [[|c v]|]. Qed.

Lemma attr_code_is (e : Element) (key code : string) :
  code <> "" -> code_is (get e key) code = code_is (attr e key) code.
Proof.
  intros Hc. unfold attr. destruct (get e key) as [[|c v]|]; try reflexivity.
  cbn [code_is]. destruct code; [contradiction | reflexivity].
Qed.

Section SameReads.
Variable py : Builtins.
Variable T : Element -> Element.
Variable root : Element.
Hypothesis Hiter : forall e, iter (T e) = map T (iter e).
Hypothesis Hattr : forall x key, In x (iter root) -> attr (T x) key = attr x key.
Hypothesis Htag :
  forall x local,
    In x (iter root) ->
    tag_matches (cfdi_uri (T root)) local (tag (T x))
    = tag_matches (cfdi_uri root) local (tag x).
Hypothesis Htfd :
  forall x local,
    In x (iter root) ->
    tag_matches URI_TFD local (tag (T x)) = tag_matches URI_TFD local (tag x).
Hypothesis Hpago :
  forall x local,
    In x (iter root) ->
    tag_matches URI_PAGO20 local (tag (T x)) = tag_matches URI_PAGO20 local (tag x).

Lemma findall_same (e : Element) (uri uri' local : string) :
  (forall x, In x (iter root) ->
             tag_matches uri' local (tag (T x)) = tag_matches uri local (tag x)) ->
  In e (iter root) ->
  findall (T e) uri' local = map T (findall e uri local)
  /\ Forall (fun x => In x (iter root)) (findall e uri local).
Proof.
  intros Hm He. unfold findall.
  assert (Hbelow : forall x, In x (flat_map iter (children e)) -> In x (iter root)).
  { intros x Hx. apply (iter_in_trans root e x He).
    rewrite iter_tl in Hx. destruct (iter e); [destruct Hx | now right]. }
  split.
  - rewrite !iter_tl, Hiter.
    replace (tl (map T (iter e))) with (map T (tl (iter e)))
      by (now destruct (iter e)).
    rewrite filter_map_comm. f_equal. apply filter_ext_in.
    intros x Hx. apply Hm, Hbelow. now rewrite iter_tl.
  - apply Forall_forall. intros x Hx. apply filter_In in Hx as [Hx _]. auto.
Qed.

Lemma find_same (e : Element) (uri uri' local : string) :
  (forall x, In x (iter root) ->
             tag_matches uri' local (tag (T x)) = tag_matches uri local (tag x)) ->
  In e (iter root) ->
  find (T e) uri' local = option_map T (find e uri local)
  /\ (forall x, find e uri local = Some x -> In x (iter root)).
Proof.
  intros Hm He. destruct (findall_same e uri uri' local Hm He) as [E Hin].
  unfold find. rewrite E. split.
  - now destruct (findall e uri local).
  - intros x Hx. destruct (findall e uri local) as [|y l]; [discriminate|].
    injection Hx as <-. now inversion Hin.
Qed.

Lemma get_attrib_same (el : option Element) (key default : string) :
  (forall x, el = Some x -> In x (iter root)) ->
  get_attrib (option_map T el) key default = get_attrib el key default.
Proof.
  intros Hin. destruct el as [x|]; [|reflexivity].
  cbn [option_map get_attrib]. rewrite !attr_reads, Hattr; auto.
Qed.

Lemma suma_same (code : string) (l : list Element) :
  code <> "" ->
  Forall (fun x => In x (iter root)) l ->
  suma py code (map T l) = suma py code l.
Proof.
  intros Hc Hl. unfold suma, with_code, importes. f_equal.
  rewrite filter_map_comm, map_map.
  induction Hl as [|x l Hx _ IH]; [reflexivity|].
  cbn [filter]. rewrite !(attr_code_is _ _ _ Hc), (Hattr x _ Hx).
  destruct (code_is (attr x "Impuesto") code); [|exact IH].
  cbn [map]. rewrite IH. f_equal. now rewrite !attr_amount, Hattr.
Qed.

Lemma agregado_same (kind code : string) :
  code <> "" -> agregado py (T root) kind code = agregado py root kind code.
Proof.
  intros Hc. unfold agregado, contenedor_impuestos.
  destruct (find_same root (cfdi_uri root) (cfdi_uri (T root)) "Impuestos"
              (fun x => Htag x _) (iter_self root)) as [E Hin].
  rewrite E. destruct (find root (cfdi_uri root) "Impuestos") as [imp|]; [|reflexivity].
  cbn [option_map].
  destruct (findall_same imp (cfdi_uri root) (cfdi_uri (T root)) kind
              (fun x => Htag x _) (Hin imp eq_refl)) as [E' Hin'].
  rewrite E'. now apply suma_same.
Qed.

Lemma primer_pago_same : primer_pago py (T root) = primer_pago py root.
Proof.
  unfold primer_pago.
  destruct (find_same root URI_PAGO20 URI_PAGO20 "Pagos"
              (fun x => Hpago x _) (iter_self root)) as [E Hin].
  rewrite E. destruct (find root URI_PAGO20 "Pagos") as [pagos|]; [|reflexivity].
  cbn [option_map].
  destruct (find_same pagos URI_PAGO20 URI_PAGO20 "Pago"
              (fun x => Hpago x _) (Hin pagos eq_refl)) as [E' Hin'].
  rewrite E'. destruct (find pagos URI_PAGO20 "Pago") as [p|]; [|reflexivity].
  cbn [option_map]. unfold to_float_value.
  now rewrite !(attr_to_float py _ "Monto"), (Hattr p _ (Hin' p eq_refl)).
Qed.

Lemma root_attr_same (key default : string) :
  root_attr (T root) key default = root_attr root key default.
Proof. unfold root_attr. rewrite !attr_reads, Hattr; [reflexivity | apply iter_self]. Qed.

Lemma to_float_value_same (key : string) (default : pyval) :
  to_float_value py (get (T root) key) default
  = to_float_value py (get root key) default.
Proof.
  unfold to_float_value. rewrite !(attr_to_float py _ key), Hattr;
    [reflexivity | apply iter_self].
Qed.

(** Two documents that answer every lookup alike give the same record. *)
Lemma registro_same : registro py (T root) = registro py root.
Proof.
  unfold registro.
  destruct (find_same root (cfdi_uri root) (cfdi_uri (T root)) "Emisor"
              (fun x => Htag x _) (iter_self root)) as [Ee He].
  destruct (find_same root (cfdi_uri root) (cfdi_uri (T root)) "Receptor"
              (fun x => Htag x _) (iter_self root)) as [Er Hr].
  destruct (find_same root URI_TFD URI_TFD "TimbreFiscalDigital"
              (fun x => Htfd x _) (iter_self root)) as [Et Ht].
  rewrite Ee, Er, Et.
  rewrite !get_attrib_same by assumption.
  rewrite !root_attr_same, !to_float_value_same, primer_pago_same.
  rewrite !agregado_same by discriminate.
  reflexivity.
Qed.
End SameReads.

Lemma assoc_not_in {V : Type} (key : string) (l : list (string * V)) :
  ~ In key (map fst l) -> assoc key l = None.
Proof.
  induction l as [|[k v] l IH]; [reflexivity|]. cbn [map fst In assoc].
  intros H. destruct (String.eqb_spec k key) as [->|_]; [tauto | apply IH; tauto].
Qed.

Lemma drop_empty_keys (a : list (string * string)) (key : string) :
  In key (map fst (drop_empty a)) -> In key (map fst a).
Proof.
  intros H. apply in_map_iff in H as (kv & <- & Hkv).
  apply filter_In in Hkv as [Hkv _]. now apply in_map.
Qed.

Lemma attr_drop_empty (t : string) (a : list (string * string)) (cs cs' : list Element)
      (key : string) :
  distinct (map fst a) = true ->
  attr (Elem t (drop_empty a) cs') key = attr (Elem t a cs) key.
Proof.
  unfold attr, get. cbn [attrib].
  induction a as [|[k v] a IH]; intros Hd; [reflexivity|].
  cbn [map fst] in Hd. apply distinct_cons in Hd as [Hnotin Hd].
  cbn [drop_empty filter snd assoc].
  destruct (String.eqb_spec v "") as [->|Hv]; cbn [negb].
  - fold (drop_empty a). destruct (String.eqb_spec k key) as [->|Hk].
    + rewrite assoc_not_in; [reflexivity|].
      intros H. apply Hnotin. now apply drop_empty_keys.
    + now apply IH.
  - fold (drop_empty a). cbn [assoc].
    destruct (String.eqb_spec k key) as [->|Hk]; [reflexivity | now apply IH].
Qed.

Lemma tag_transform_id (fa : list (string * string) -> list (string * string))
      (e : Element) :
  tag (transform (fun t => t) fa e) = tag e.
Proof. now destruct e. Qed.

(** X14: an empty attribute reads as a missing one.  For a document
    whose elements have no two attributes of the same name, the record is
    the one of the same document with every empty attribute removed: an
    attribute written with an empty value gets the default of its field,
    and a tax entry with an empty code or amount counts as one without. *)
Theorem empty_attributes_read_as_missing :
  forall (py : Builtins) (root : Element),
    distinct_attributes root = true ->
    extraer py (without_empty_attributes root) = extraer py root.
Proof.
  intros py root Hd. rewrite !extraer_registro. f_equal.
  assert (Huri : cfdi_uri (without_empty_attributes root) = cfdi_uri root).
  { unfold cfdi_uri, without_empty_attributes. now rewrite tag_transform_id. }
  apply registro_same.
  - intros e. apply iter_transform.
  - intros x key Hx. unfold distinct_attributes in Hd.
    rewrite forallb_forall in Hd. specialize (Hd x Hx).
    destruct x as [t a cs]. cbn [attrib] in Hd.
    unfold without_empty_attributes. cbn [transform].
    now apply attr_drop_empty.
  - intros x local _. rewrite Huri. unfold without_empty_attributes.
    now rewrite tag_transform_id.
  - intros x local _. unfold without_empty_attributes. now rewrite tag_transform_id.
  - intros x local _. unfold without_empty_attributes. now rewrite tag_transform_id.
Qed.

Lemma empty_attributes_read_as_missing_sample :
  extraer CPython (without_empty_attributes factura_con_vacios)
  = extraer CPython factura_con_vacios
  /\ get factura_con_vacios "TipoCambio" = Some ""
  /\ get (without_empty_attributes factura_con_vacios) "TipoCambio" = None
  /\ assoc "TipoCambio" (registro CPython factura_con_vacios) = Some (VStr "1")
  /\ assoc "N.FACTURA" (registro CPython factura_con_vacios) = Some (VStr "100")
  /\ assoc "T.FACTURA" (registro CPython factura_con_vacios) = Some (VInt 0)
  /\ assoc "IVA" (registro CPython factura_con_vacios) = Some (VFloat 160).
Proof.
  split; [exact (empty_attributes_read_as_missing CPython factura_con_vacios eq_refl)|].
  repeat split; reflexivity.
Defined.

(** ** One document in two namespaces *)

Lemma prefix_split (p s : string) :
  String.prefix p s = true ->
  s = p ++ String.substring (String.length p) (String.length s - String.length p) s.
Proof.
  revert s. induction p as [|c p IH]; intros s H.
  - cbn [append String.length]. rewrite Nat.sub_0_r. now rewrite substring_all.
  - destruct s as [|c' s]; [discriminate|]. cbn [String.prefix] in H.
    destruct (Ascii.ascii_dec c c') as [<-|]; [|discriminate].
    cbn [append String.length Nat.sub String.substring]. f_equal. now apply IH.
Qed.

Lemma eqb_append (a x y : string) : String.eqb (a ++ x) (a ++ y) = String.eqb x y.
Proof.
  induction a as [|c a IH]; [reflexivity|]. cbn [append String.eqb].
  now rewrite Ascii.eqb_refl.
Qed.

Lemma qname_prefix (uri local : string) : qname uri local = ("{" ++ uri ++ "}") ++ local.
Proof. unfold qname. cbn [append]. now rewrite append_assoc. Qed.

Lemma namespaces_differ (a b x y : string) :
  has_char "}" a = false -> has_char "}" b = false -> a <> b ->
  String.eqb (("{" ++ a ++ "}") ++ x) (("{" ++ b ++ "}") ++ y) = false.
Proof.
  intros Ha Hb Hne. apply String.eqb_neq. intros E.
  cbn [append] in E. injection E as E. rewrite !append_assoc in E.
  apply Hne.
  rewrite <- (split_head_append "}" a ("" ++ x) Ha).
  rewrite <- (split_head_append "}" b ("" ++ y) Hb).
  cbn [append] in *. now rewrite E.
Qed.

Lemma outside_namespace (u t local : string) :
  in_namespace u t = false -> String.eqb t (qname u local) = false.
Proof.
  intros H. apply String.eqb_neq. intros ->.
  unfold in_namespace, startswith in H. now rewrite qname_prefix, prefix_append in H.
Qed.

Lemma xml_namespace_of_qname (uri local : string) :
  has_char "}" uri = false -> xml_namespace_of_tag (qname uri local) = uri.
Proof.
  intros H. unfold qname. cbn [append xml_namespace_of_tag].
  unfold startswith. cbn [String.prefix].
  destruct (Ascii.ascii_dec "{" "{") as [_|Hne]; [|now destruct Hne].
  replace (String.prefix "" (uri ++ String "}" local)) with true
    by (now destruct (uri ++ String "}" local)).
  now apply split_head_append.
Qed.

Lemma valid_uri_inv (u : string) :
  valid_uri u = true ->
  u <> "" /\ has_char "}" u = false /\ String.eqb u "*" = false
  /\ u <> URI_TFD /\ u <> URI_PAGO20.
Proof.
  unfold valid_uri. intros H.
  repeat (apply andb_prop in H as [H ?]).
  repeat match goal with
         | [ Hn : negb _ = true |- _ ] => apply negb_true_iff in Hn
         end.
  repeat split; try assumption; try (now apply String.eqb_neq).
Qed.

Lemma retag_in (u u' t : string) :
  in_namespace u t = true ->
  exists rest, t = ("{" ++ u ++ "}") ++ rest
               /\ retag u u' t = ("{" ++ u' ++ "}") ++ rest.
Proof.
  intros H. unfold retag. rewrite H. unfold in_namespace, startswith in H.
  pose proof (prefix_split _ _ H) as E.
  assert (Hl : String.length ("{" ++ u ++ "}") = String.length u + 2).
  { cbn [append String.length]. rewrite length_append. cbn. lia. }
  rewrite Hl in E. eexists. split; [exact E|].
  apply (qname_prefix u').
Qed.

Section Namespaces.
Variables u u' : string.
Hypothesis Hu : valid_uri u = true.
Hypothesis Hu' : valid_uri u' = true.

Lemma retag_cfdi (t local : string) :
  in_namespace u' t = false ->
  tag_matches u' local (retag u u' t) = tag_matches u local t.
Proof.
  intros Hout.
  destruct (valid_uri_inv u Hu) as (_ & _ & Hs & _).
  destruct (valid_uri_inv u' Hu') as (_ & _ & Hs' & _).
  unfold tag_matches. rewrite Hs, Hs'.
  destruct (in_namespace u t) eqn:Hin.
  - destruct (retag_in u u' t Hin) as (rest & -> & ->).
    now rewrite !qname_prefix, !eqb_append.
  - unfold retag. rewrite Hin.
    now rewrite (outside_namespace u t local Hin), (outside_namespace u' t local Hout).
Qed.

Lemma retag_other (uri t local : string) :
  has_char "}" uri = false -> String.eqb uri "*" = false -> u <> uri -> u' <> uri ->
  tag_matches uri local (retag u u' t) = tag_matches uri local t.
Proof.
  intros Hc Hs Hne Hne'.
  destruct (valid_uri_inv u Hu) as (_ & Hcu & _).
  destruct (valid_uri_inv u' Hu') as (_ & Hcu' & _).
  unfold tag_matches. rewrite Hs.
  destruct (in_namespace u t) eqn:Hin.
  - destruct (retag_in u u' t Hin) as (rest & -> & ->).
    rewrite !qname_prefix.
    now rewrite !namespaces_differ by assumption.
  - unfold retag. now rewrite Hin.
Qed.
End Namespaces.

(** X15: the record does not depend on the version of the schema.  For
    a document whose root is in the namespace [u], moving every element of
    [u] to another namespace [u'] that the document does not use leaves
    the record as it is: what is read from a CFDI 3.3 document is what is
    read from the same document written as CFDI 4.0. *)
Theorem record_is_the_same_in_any_namespace :
  forall (py : Builtins) (u u' local : string) (a : list (string * string))
         (cs : list Element),
    valid_uri u = true ->
    valid_uri u' = true ->
    none_in_namespace u' (Elem (qname u local) a cs) = true ->
    tag (in_other_namespace u u' (Elem (qname u local) a cs)) = qname u' local
    /\ extraer py (in_other_namespace u u' (Elem (qname u local) a cs))
       = extraer py (Elem (qname u local) a cs).
Proof.
  intros py u u' local a cs Hu Hu' Hnone.
  set (root := Elem (qname u local) a cs) in *.
  destruct (valid_uri_inv u Hu) as (Hne & Hc & Hs & Ht & Hp).
  destruct (valid_uri_inv u' Hu') as (Hne' & Hc' & Hs' & Ht' & Hp').
  assert (Htag : tag (in_other_namespace u u' root) = qname u' local).
  { unfold in_other_namespace, root. cbn [transform tag].
    assert (Hin : in_namespace u (qname u local) = true).
    { unfold in_namespace, startswith. rewrite qname_prefix. apply prefix_append. }
    destruct (retag_in u u' _ Hin) as (rest & E & ->).
    rewrite qname_prefix in E. apply append_inj in E. subst rest.
    now rewrite qname_prefix. }
  split; [exact Htag|].
  assert (Huri : cfdi_uri root = u).
  { unfold cfdi_uri, root. cbn [tag]. rewrite xml_namespace_of_qname by exact Hc.
    destruct u; [contradiction | reflexivity]. }
  assert (Huri' : cfdi_uri (in_other_namespace u u' root) = u').
  { unfold cfdi_uri. rewrite Htag, xml_namespace_of_qname by exact Hc'.
    destruct u'; [contradiction | reflexivity]. }
  assert (Hx : forall x, tag (in_other_namespace u u' x) = retag u u' (tag x)).
  { now intros [t a' cs']. }
  rewrite !extraer_registro. f_equal.
  apply registro_same.
  - intros e. apply iter_transform.
  - intros [t a' cs'] key _. reflexivity.
  - intros x l Hin. rewrite Huri, Huri', Hx. apply retag_cfdi; try assumption.
    unfold none_in_namespace in Hnone. rewrite forallb_forall in Hnone.
    now apply negb_true_iff, Hnone.
  - intros x l _. rewrite Hx. apply retag_other; auto.
  - intros x l _. rewrite Hx. apply retag_other; auto.
Qed.

Lemma record_is_the_same_in_any_namespace_sample :
  tag (in_other_namespace CFD4 CFD3 factura) = qname CFD3 "Comprobante"
  /\ extraer CPython (in_other_namespace CFD4 CFD3 factura) = extraer CPython factura
  /\ find (in_other_namespace CFD4 CFD3 factura) CFD4 "Emisor" = None
  /\ assoc "RFC_EMISOR" (registro CPython (in_other_namespace CFD4 CFD3 factura))
     = Some (VStr "AAA010101AAA").
Proof.
  destruct (record_is_the_same_in_any_namespace CPython CFD4 CFD3 "Comprobante"
              (attrib factura) (children factura) eq_refl eq_refl eq_refl) as [H1 H2].
  split; [exact H1|]. split; [exact H2|]. split; reflexivity.
Defined.

(** ** The command line of [leexmlpy.py] *)



(** ** The order of the listings *)

Lemma sobrevivientes_ext (py : Builtins) (fs fs' : world) (paths : list string) :
  (forall path, ET_parse fs' path = ET_parse fs path) ->
  sobrevivientes py fs' paths = sobrevivientes py fs paths
  /\ flat_map (lineas py fs') paths = flat_map (lineas py fs) paths.
Proof.
  intros H.
  assert (Hd : forall path, documento py fs' path = documento py fs path).
  { intros path. unfold documento. now rewrite H. }
  unfold sobrevivientes, lineas. split.
  - induction paths as [|p paths IH]; [reflexivity|].
    cbn [flat_map]. now rewrite Hd, IH.
  - induction paths as [|p paths IH]; [reflexivity|].
    cbn [flat_map]. now rewrite Hd, IH.
Qed.

(** X16: the report does not depend on the order in which the file
    system lists the entries of the directories.  Two file systems that
    hold the same tree below the root, listed in any order at every level,
    and the same files, give the same run of both scripts: the same sheet,
    the same lines printed and the same count returned. *)
Theorem report_does_not_depend_on_listing_order :
  forall (py : Builtins) (fs fs' : world) (carpeta_xml archivo_excel : string)
         (entries entries' : list node),
    scan fs carpeta_xml = Directory entries ->
    scan fs' carpeta_xml = Directory entries' ->
    same_listing entries entries' ->
    (forall path, ET_parse fs' path = ET_parse fs path) ->
    LeexmlpyN.procesar_xml_a_excel py fs' carpeta_xml archivo_excel
    = LeexmlpyN.procesar_xml_a_excel py fs carpeta_xml archivo_excel
    /\ Leexmlpy.procesar_xml_a_excel py fs' carpeta_xml archivo_excel
       = Leexmlpy.procesar_xml_a_excel py fs carpeta_xml archivo_excel.
Proof.
  intros py fs fs' carpeta_xml archivo_excel entries entries' Hs Hs' Hsame Hparse.
  assert (Hd : isdir fs carpeta_xml = true) by (unfold isdir; now rewrite Hs).
  assert (Hd' : isdir fs' carpeta_xml = true) by (unfold isdir; now rewrite Hs').
  assert (Hl : listar_xmls_recursivo fs' carpeta_xml
               = listar_xmls_recursivo fs carpeta_xml).
  { rewrite !listar_sorted_xml_paths. unfold os_walk. rewrite Hs, Hs'.
    apply sorted_perm_eq, Permutation_sym, same_listing_paths, Hsame. }
  rewrite (run_N py fs _ _ Hd), (run_N py fs' _ _ Hd').
  rewrite (run_print py fs _ _ Hd), (run_print py fs' _ _ Hd').
  unfold hoja, impreso. rewrite Hl.
  destruct (sobrevivientes_ext py fs fs' (listar_xmls_recursivo fs carpeta_xml) Hparse)
    as [-> ->].
  split; reflexivity.
Qed.

Lemma report_does_not_depend_on_listing_order_sample :
  LeexmlpyN.procesar_xml_a_excel CPython mundo_en_otro_orden "/xml" "reporte.xlsx"
  = LeexmlpyN.procesar_xml_a_excel CPython mundo "/xml" "reporte.xlsx"
  /\ Leexmlpy.procesar_xml_a_excel CPython mundo_en_otro_orden "/xml" "reporte.xlsx"
     = Leexmlpy.procesar_xml_a_excel CPython mundo "/xml" "reporte.xlsx".
Proof.
  apply (report_does_not_depend_on_listing_order CPython mundo mundo_en_otro_orden
           "/xml" "reporte.xlsx" _ _ eq_refl eq_refl).
  - apply same_trans with [File "b.xml"; File "notas.txt";
                           Dir "sub" [File "a.Xml"; File "roto.XML"]].
    + apply same_cons; [apply same_file|].
      apply same_cons; [apply same_file|].
      apply same_cons; [|apply same_nil].
      apply same_dir, same_perm, perm_swap.
    + apply same_perm.
      apply perm_trans with [File "b.xml"; Dir "sub" [File "a.Xml"; File "roto.XML"];
                             File "notas.txt"].
      * apply perm_skip, perm_swap.
      * apply perm_trans with [Dir "sub" [File "a.Xml"; File "roto.XML"];
                               File "b.xml"; File "notas.txt"].
        -- apply perm_swap.
        -- apply perm_skip, perm_swap.
  - reflexivity.
Defined.

(** ** The failure lines *)

Lemma in_lineas (py : Builtins) (fs : world) (paths : list string) (l : line) :
  In l (flat_map (lineas py fs) paths)
  <-> exists p,
        In p paths
        /\ (l = Procesando p
            \/ (l = MalFormado p /\ ET_parse fs p = Raise ParseError)
            \/ (l = ErrorProcesando p
                /\ exists e, ET_parse fs p = Raise e /\ e <> ParseError)).
Proof.
  rewrite in_flat_map. split.
  - intros (p & Hp & Hl). exists p. split; [exact Hp|].
    unfold lineas in Hl. rewrite documento_registro in Hl.
    destruct (ET_parse fs p) as [root | e].
    + destruct Hl as [<- | []]. now left.
    + destruct e; cbn [In] in Hl; destruct Hl as [<- | [<- | []]];
        first [ now left
              | right; left; now split
              | right; right; split; [reflexivity|];
                eexists; split; [reflexivity | discriminate] ].
  - intros (p & Hp & Hl). exists p. split; [exact Hp|].
    unfold lineas. rewrite documento_registro.
    destruct Hl as [-> | [[-> E] | [-> (e & E & He)]]]; rewrite ?E.
    + destruct (ET_parse fs p) as [root | e]; [|destruct e]; now left.
    + right. now left.
    + destruct e; try contradiction; right; now left.
Qed.

(** X17: the failure lines name the files that failed, by kind.  In a
    run of [leexmlpy.py] every discovered path is announced; "malformed"
    is printed for exactly the discovered paths whose parsing raises
    [ParseError], and "error" for exactly those whose parsing raises
    anything else.  A file that parses is never reported: the extraction
    itself cannot fail. *)
Theorem failures_are_reported_by_kind :
  forall (py : Builtins) (fs : world) (carpeta_xml archivo_excel : string) (r : run),
    Leexmlpy.procesar_xml_a_excel py fs carpeta_xml archivo_excel = Ok r ->
    forall p : string,
      (In (Procesando p) (stdout r) <-> In p (listar_xmls_recursivo fs carpeta_xml))
      /\ (In (MalFormado p) (stdout r)
          <-> In p (listar_xmls_recursivo fs carpeta_xml)
              /\ ET_parse fs p = Raise ParseError)
      /\ (In (ErrorProcesando p) (stdout r)
          <-> In p (listar_xmls_recursivo fs carpeta_xml)
              /\ exists e, ET_parse fs p = Raise e /\ e <> ParseError)
      /\ (forall root, ET_parse fs p = Ok root ->
                       ~ In (MalFormado p) (stdout r)
                       /\ ~ In (ErrorProcesando p) (stdout r)).
Proof.
  intros py fs carpeta_xml archivo_excel r Hr p.
  apply run_print_returns in Hr. destruct Hr as (Hd & _ & ->).
  cbn [stdout]. unfold impreso.
  set (archivos := listar_xmls_recursivo fs carpeta_xml).
  assert (Hin : forall l,
             is_procesando l || is_failure l = true ->
             (In l (match archivos with
                    | [] => [Carpeta carpeta_xml; Encontrados 0; SinArchivos;
                             ReporteGenerado archivo_excel]
                    | _ :: _ =>
                        ([Carpeta carpeta_xml; Encontrados (List.length archivos)]
                         ++ map (fun f => Archivo (relpath py f carpeta_xml)) archivos
                         ++ flat_map (lineas py fs) archivos
                         ++ [ReporteGenerado archivo_excel;
                             TotalProcesados
                               (List.length (sobrevivientes py fs archivos))])%list
                    end)
              <-> In l (flat_map (lineas py fs) archivos))).
  { intros l Hl. destruct archivos as [|a rest] eqn:Ea.
    - cbn [flat_map In]. split; [|tauto].
      intros [<- | [<- | [<- | [<- | []]]]]; discriminate.
    - rewrite <- Ea. rewrite !in_app_iff, in_map_iff. cbn [In]. split.
      + intros [[<- | [<- | []]] | [(q & <- & _) | [H | [<- | [<- | []]]]]];
          try discriminate; exact H.
      + intros H. right. right. now left. }
  rewrite !Hin by reflexivity. rewrite !in_lineas.
  split; [|split; [|split]].
  - split.
    + intros (q & Hq & [E | [[E _] | [E _]]]); try discriminate.
      now injection E as ->.
    + intros Hp. exists p. split; [exact Hp | now left].
  - split.
    + intros (q & Hq & [E | [[E Hq'] | [E _]]]); try discriminate.
      injection E as ->. now split.
    + intros [Hp E]. exists p. split; [exact Hp|]. right. left. now split.
  - split.
    + intros (q & Hq & [E | [[E _] | [E Hq']]]); try discriminate.
      injection E as ->. now split.
    + intros [Hp E]. exists p. split; [exact Hp|]. right. right. now split.
  - intros root Hroot. split; intros H; apply Hin in H; try reflexivity;
      apply in_lineas in H.
    + destruct H as (q & Hq & [E | [[E Hq'] | [E _]]]); try discriminate.
      injection E as ->. congruence.
    + destruct H as (q & Hq & [E | [[E _] | [E (e & Hq' & _)]]]); try discriminate.
      injection E as ->. congruence.
Qed.

Lemma failures_are_reported_by_kind_sample :
  exists r : run,
    Leexmlpy.procesar_xml_a_excel CPython mundo "/xml" "reporte.xlsx" = Ok r
    /\ In (MalFormado "/xml/sub/roto.XML") (stdout r)
    /\ ~ In (MalFormado "/xml/b.xml") (stdout r)
    /\ ~ In (ErrorProcesando "/xml/b.xml") (stdout r).
Proof.
  destruct (Leexmlpy.procesar_xml_a_excel CPython mundo "/xml" "reporte.xlsx")
    as [r | e] eqn:E; [|vm_compute in E; discriminate].
  exists r. split; [reflexivity|].
  pose proof (failures_are_reported_by_kind CPython mundo "/xml" "reporte.xlsx" r E)
    as H.
  split.
  - apply (proj1 (proj2 (H "/xml/sub/roto.XML"))). split; [|reflexivity].
    vm_compute. tauto.
  - exact (proj2 (proj2 (proj2 (H "/xml/b.xml"))) factura eq_refl).
Defined.
